(** * unpackager.js: the format-detection and decoding pipeline

    A shallow embedding of [src/unpackager.js] and the properties its
    specification states about it.

    Conventions of the embedding.
    - A JavaScript string is the list of its UTF-16 code units ([jsstring]).
    - Binary data ([ArrayBuffer], [Uint8Array], [Blob]) is a list of bytes,
      each an integer in [0, 256).
    - A JavaScript number that is used as a length or an index is an
      integer, [NaN] or an infinity ([jsnumber]); a number with a fraction
      is outside the fragment covered.  The value of a base-85 group is an
      integer or [NaN] ([None]).
    - [async] functions run to completion: a promise that resolves is [Ok],
      one that rejects (or a [throw]) is [Throw].
    - JSZip, [FileReader], [TextDecoder] and [JSON.parse] are libraries of the
      host: they are the fields of [Host], and every theorem holds for every
      host.  A promise of JSZip that rejects is [None] there, and the source,
      which catches it only in [unzipOrNull], then fails with [JSZipError]. *)

From Stdlib Require Import String Ascii DecimalString ZArith List Bool Lia.
Import ListNotations.
Open Scope Z_scope.
Set Warnings "-register-all".

(** ** Strings, bytes and exceptions *)

Definition jsstring := list Z.
Definition bytes := list Z.

(** A literal of the source, as code units. *)
Definition js (s : string) : jsstring :=
  map (fun a => Z.of_N (N_of_ascii a)) (list_ascii_of_string s).

Definition code (a : ascii) : Z := Z.of_N (N_of_ascii a).

(** What a [throw] carries.  [Error m] is [new Error(m)] of the source, the
    others are the exceptions of the built-in functions the source calls.
    [JSZipError] is what a promise of JSZip rejects with when it cannot read
    an entry (an [Error] with a message of the library).
    [OutsideModel] is not an exception of JavaScript: it marks a run that
    leaves the fragment this embedding covers (see [unary_plus] and
    [chunkLoop]). *)
Inductive exn : Type :=
| Error (message : string)
| TypeError
| RangeError
| SyntaxError
| InvalidCharacterError
| JSZipError
| OutsideModel.

Inductive result (A : Type) : Type :=
| Ok (a : A)
| Throw (e : exn).
Arguments Ok {A} a.
Arguments Throw {A} e.

Definition bind {A B : Type} (r : result A) (k : A -> result B) : result B :=
  match r with
  | Ok a => k a
  | Throw e => Throw e
  end.

Notation "'let*' x ':=' r 'in' k" := (bind r (fun x => k))
  (at level 10, x pattern, r at level 100, k at level 200).

(** The five labelled errors of the pipeline, by the message the source gives
    them. *)
Definition BlobReadFailure : exn := Error "Could not read blob as text".
Definition AmbiguousOrUnknownProjectType : exn :=
  Error "Can not determine project.json type".
Definition DataURINotBase64 : exn := Error "Data URI is not base64".
Definition ZipMissingProject : exn :=
  Error "Input was a zip but we could not find a project.".
Definition NoProjectFound : exn :=
  Error "Input was not a zip and we could not find project.".

Definition labelled_errors : list exn :=
  [AmbiguousOrUnknownProjectType; DataURINotBase64; ZipMissingProject;
   NoProjectFound; BlobReadFailure].

(** ** String methods *)

Definition zlength {A : Type} (l : list A) : Z := Z.of_nat (List.length l).

Fixpoint startsWith (pat s : jsstring) : bool :=
  match pat, s with
  | [], _ => true
  | _ :: _, [] => false
  | p :: pat', c :: s' => (p =? c) && startsWith pat' s'
  end.

(** [s.indexOf(pat)]: the first position at which [pat] occurs, or [-1]. *)
Fixpoint indexOf (s pat : jsstring) : Z :=
  if startsWith pat s then 0
  else match s with
       | [] => -1
       | _ :: s' => let r := indexOf s' pat in if r <? 0 then -1 else r + 1
       end.

Definition includes (s pat : jsstring) : bool := 0 <=? indexOf s pat.

Definition endsWith (s pat : jsstring) : bool :=
  startsWith (rev pat) (rev s).

(** [s.substring(a, b)]: both ends are clamped to [0, s.length] and swapped
    when out of order. *)
Definition clamp (s : jsstring) (a : Z) : nat :=
  Z.to_nat (Z.min (Z.max a 0) (zlength s)).

Definition substring (s : jsstring) (a b : Z) : jsstring :=
  let lo := Nat.min (clamp s a) (clamp s b) in
  let hi := Nat.max (clamp s a) (clamp s b) in
  firstn (hi - lo) (skipn lo s).

(** [s.charCodeAt(i)]: [NaN] out of range. *)
Definition charCodeAt (s : jsstring) (i : Z) : option Z :=
  if i <? 0 then None else nth_error s (Z.to_nat i).

(** [String.fromCharCode(n)]: one code unit, [n] modulo [2^16]. *)
Definition fromCharCode (n : Z) : Z := n mod 65536.

(** [s.split(sep)] for a non-empty separator: the pieces between the
    successive occurrences of [sep], found from left to right.  [skip] counts
    the code units of a separator still to be passed over, [cur] is the piece
    being read. *)
Fixpoint split_from (sep s : jsstring) (skip : nat) (cur : jsstring)
  : list jsstring :=
  match s with
  | [] => [cur]
  | c :: s' =>
      match skip with
      | S k => split_from sep s' k cur
      | O =>
          if startsWith sep s
          then cur :: split_from sep s' (List.length sep - 1)%nat []
          else split_from sep s' 0 (cur ++ [c])
      end
  end.

Definition split (s sep : jsstring) : list jsstring := split_from sep s 0 [].

(** [s.split('')]: the code units of [s], one string each. *)
Definition split_chars (s : jsstring) : list jsstring := map (fun c => [c]) s.

(** [parts.join('')]. *)
Definition join (parts : list jsstring) : jsstring := concat parts.

(** [new TextEncoder().encode(s)]: the UTF-8 bytes of [s].  A surrogate pair
    is one scalar value, a lone surrogate is replaced by U+FFFD. *)
Definition utf8_of_scalar (c : Z) : bytes :=
  if c <? 0x80 then [c]
  else if c <? 0x800 then [0xC0 + c / 64; 0x80 + c mod 64]
  else if c <? 0x10000
       then [0xE0 + c / 4096; 0x80 + (c / 64) mod 64; 0x80 + c mod 64]
       else [0xF0 + c / 262144; 0x80 + (c / 4096) mod 64;
             0x80 + (c / 64) mod 64; 0x80 + c mod 64].

Definition is_high_surrogate (c : Z) : bool := (0xD800 <=? c) && (c <=? 0xDBFF).
Definition is_low_surrogate (c : Z) : bool := (0xDC00 <=? c) && (c <=? 0xDFFF).

Fixpoint stringToBytes (s : jsstring) : bytes :=
  match s with
  | [] => []
  | c :: s' =>
      if is_high_surrogate c then
        match s' with
        | d :: s'' =>
            if is_low_surrogate d
            then utf8_of_scalar (0x10000 + (c - 0xD800) * 1024 + (d - 0xDC00))
                   ++ stringToBytes s''
            else utf8_of_scalar 0xFFFD ++ stringToBytes s'
        | [] => utf8_of_scalar 0xFFFD
        end
      else if is_low_surrogate c then utf8_of_scalar 0xFFFD ++ stringToBytes s'
      else utf8_of_scalar c ++ stringToBytes s'
  end.

(** ** Regular expressions

    The patterns of the source use literals, character classes, a greedy
    quantifier on a single character class, capturing parentheses, [^] and [$]
    (never with the [m] flag in a pattern that has them).  [rmatch] lists the
    ways a pattern can match at a position in the order a backtracking
    matcher tries them; the first one is the match. *)

Definition charset := Z -> bool.

Inductive regex : Type :=
| Chars (min : nat) (max : option nat) (cs : charset)
| Seq (r1 r2 : regex)
| Group (n : nat) (r : regex)
| Bol
| Eol
| Eps.

Record mstate : Type := {
  pos : nat;
  rest : jsstring;
  caps : list (nat * jsstring)
}.

Fixpoint run_length (cs : charset) (s : jsstring) : nat :=
  match s with
  | c :: s' => if cs c then S (run_length cs s') else O
  | [] => O
  end.

(** [hi, hi-1, ..., lo]. *)
Definition counts_down (hi lo : nat) : list nat := rev (seq lo (S hi - lo)).

Definition advance (st : mstate) (k : nat) : mstate :=
  {| pos := (pos st + k)%nat; rest := skipn k (rest st); caps := caps st |}.

Definition capture (n : nat) (st st' : mstate) : mstate :=
  {| pos := pos st';
     rest := rest st';
     caps := (n, firstn (pos st' - pos st) (rest st)) :: caps st' |}.

Fixpoint rmatch (r : regex) (st : mstate) : list mstate :=
  match r with
  | Chars min max cs =>
      let avail := run_length cs (rest st) in
      let hi := match max with Some m => Nat.min m avail | None => avail end in
      if (min <=? hi)%nat then map (advance st) (counts_down hi min) else []
  | Seq r1 r2 => flat_map (rmatch r2) (rmatch r1 st)
  | Group n r' => map (capture n st) (rmatch r' st)
  | Bol => if (pos st =? 0)%nat then [st] else []
  | Eol => match rest st with [] => [st] | _ :: _ => [] end
  | Eps => [st]
  end.

(** The state in which a match from the beginning of [s] starts. *)
Definition start (s : jsstring) : mstate :=
  {| pos := 0; rest := s; caps := [] |}.

Definition nonempty {A : Type} (l : list A) : bool :=
  match l with
  | [] => false
  | _ :: _ => true
  end.

Definition is_nil {A : Type} (l : list A) : bool := negb (nonempty l).

(** What [exec] returns: where the match starts and ends, and its groups. *)
Record rmatch_result : Type := {
  index : nat;
  endIndex : nat;
  groups : list (nat * jsstring)
}.

(** [m[n]] for a group that took part in the match. *)
Fixpoint group (n : nat) (gs : list (nat * jsstring)) : jsstring :=
  match gs with
  | [] => []
  | (k, s) :: gs' => if (k =? n)%nat then s else group n gs'
  end.

(** The leftmost match at or after [start]; [s] is the input from [start]. *)
Fixpoint exec_from (r : regex) (start : nat) (s : jsstring)
  : option rmatch_result :=
  match rmatch r {| pos := start; rest := s; caps := [] |} with
  | st :: _ =>
      Some {| index := start; endIndex := pos st; groups := caps st |}
  | [] =>
      match s with
      | [] => None
      | _ :: s' => exec_from r (S start) s'
      end
  end.

(** [re.test(s)] and [s.match(re)] for a pattern without the [g] flag. *)
Definition regex_match (r : regex) (s : jsstring) : option rmatch_result :=
  exec_from r 0 s.

Definition regex_test (r : regex) (s : jsstring) : bool :=
  match regex_match r s with Some _ => true | None => false end.

(** [matchAll] of the source (lines 37-44): [exec] again and again on a
    pattern with the [g] flag, each search starting where the last match
    ended.  Every pattern it is called with begins with a literal, so a match
    is never empty and [fuel] = length of the text + 1 is never used up. *)
Fixpoint matchAll_from (fuel : nat) (r : regex) (lastIndex : nat)
  (text : jsstring) : list rmatch_result :=
  match fuel with
  | O => []
  | S fuel' =>
      match exec_from r lastIndex (skipn lastIndex text) with
      | None => []
      | Some m => m :: matchAll_from fuel' r (endIndex m) text
      end
  end.

Definition matchAll (text : jsstring) (r : regex) : list rmatch_result :=
  matchAll_from (S (List.length text)) r 0 text.

(** Building blocks of the patterns. *)
Definition one (cs : charset) : regex := Chars 1 (Some 1%nat) cs.
Definition plus (cs : charset) : regex := Chars 1 None cs.
Definition star (cs : charset) : regex := Chars 0 None cs.
Definition exactly (n : nat) (cs : charset) : regex := Chars n (Some n) cs.

Definition is_char (c : Z) : charset := fun x => x =? c.
Definition range (a b : ascii) : charset :=
  fun x => (code a <=? x) && (x <=? code b).
Definition union (a b : charset) : charset := fun x => a x || b x.
Definition none_of (a : charset) : charset := fun x => negb (a x).
Definition one_of (s : string) : charset :=
  fun x => existsb (Z.eqb x) (js s).

Fixpoint lit_chars (s : jsstring) : regex :=
  match s with
  | [] => Eps
  | c :: s' => Seq (one (is_char c)) (lit_chars s')
  end.
Definition lit (s : string) : regex := lit_chars (js s).

(** [\d], [.] (anything but a line terminator) and [[\s\S]] (anything). *)
Definition digit : charset := range "0" "9".
Definition dot : charset :=
  fun x => negb ((x =? 10) || (x =? 13) || (x =? 0x2028) || (x =? 0x2029)).
Definition any : charset := fun _ => true.

(** The [i] flag on a class of ASCII characters: a code unit matches when it
    or its other-case ASCII form is in the class (a code unit above 127 is
    never canonicalised to an ASCII one). *)
Definition toUpper (c : Z) : Z := if (97 <=? c) && (c <=? 122) then c - 32 else c.
Definition toLower (c : Z) : Z := if (65 <=? c) && (c <=? 90) then c + 32 else c.
Definition ignoreCase (cs : charset) : charset :=
  fun x => cs x || cs (toUpper x) || cs (toLower x).

(** ** Archives, JSON values and the host *)

(** What an entry of a JSZip archive holds.  An entry of a loaded archive
    holds the stream the archive stores for it, with the compression method
    and the uncompressed size recorded beside it: the stream is only
    decompressed when the entry is read, which can fail, and it is written
    back as it is when the archive is generated with the same compression.
    An entry added by [zip.file(name, data)] holds [data]. *)
Inductive EntryData : Type :=
| Stored (compression : Z) (uncompressedSize : Z) (stream : bytes)
| Given (data : bytes).

(** An entry of a JSZip archive as the source reads and writes it: [name],
    [dir], [date] (milliseconds since the epoch) and what it holds. *)
Record ZipObject : Type := {
  name : jsstring;
  dir : bool;
  date : Z;
  content : EntryData
}.

(** A JSZip object: [files], in the order [Object.keys] enumerates them, and
    the [root] that a folder view prefixes to the names it is given. *)
Record JSZip : Type := {
  root : jsstring;
  files : list ZipObject
}.

(** A value [JSON.parse] returns.  Of a number the source can only observe
    whether it is truthy. *)
Inductive json : Type :=
| JNull
| JBool (b : bool)
| JNumber (nonzero : bool)
| JString (s : jsstring)
| JArray (items : list json)
| JObject (members : list (jsstring * json)).

(** The libraries the source calls.
    - [loadAsync]: [JSZip.loadAsync]; [None] when the promise rejects (the
      bytes are not a zip archive).
    - [generateAsync]: [zip.generateAsync({type: 'arraybuffer', compression:
      'DEFLATE'})]; [None] when the promise rejects (an entry that has to be
      read cannot be).
    - [async]: the bytes [entry.async('arraybuffer')] resolves to; [None]
      when the promise rejects (the stream the entry holds is damaged).
    - [folder], [remove], [file_add]: [zip.folder(name)], [zip.remove(name)]
      and [zip.file(name, data)].
    - [readAsText]: [FileReader.readAsText]; [None] when [onerror] fires.
    - [utf8_decode]: [entry.async('text')] resolves to the bytes of the
      entry decoded as UTF-8.
    - [JSON_parse]: [None] for a [SyntaxError].
    - [maxByteLength]: the largest [ArrayBuffer] the engine allocates, at
      most [2^53 - 1]; a longer one is a [RangeError]. *)
Record Host : Type := {
  loadAsync : bytes -> option JSZip;
  generateAsync : JSZip -> option bytes;
  async : ZipObject -> option bytes;
  folder : JSZip -> jsstring -> JSZip;
  remove : JSZip -> jsstring -> JSZip;
  file_add : JSZip -> jsstring -> bytes -> JSZip;
  readAsText : bytes -> option jsstring;
  utf8_decode : bytes -> jsstring;
  JSON_parse : jsstring -> option json;
  maxByteLength : Z
}.

(** ** Numbers and buffers *)

Definition is_digit (c : Z) : bool := (48 <=? c) && (c <=? 57).

Definition decimal (s : jsstring) : Z :=
  fold_left (fun acc c => acc * 10 + (c - 48)) s 0.

(** The numbers [+s] gives that are modelled: an integer (an integer above
    [2^53] is rounded by JavaScript to a number that is still above every
    [maxByteLength], and [-0] is not told from [0], which no use of these
    numbers in the source does either), [NaN], and the two infinities. *)
Inductive jsnumber : Type :=
| Int (z : Z)
| NaN
| Infinity (negative : bool).

(** The code units that [StringToNumber] skips at both ends: white space
    and line terminators. *)
Definition is_white_space (c : Z) : bool :=
  (c =? 9) || (c =? 10) || (c =? 11) || (c =? 12) || (c =? 13) || (c =? 32)
  || (c =? 0xA0) || (c =? 0x1680) || ((0x2000 <=? c) && (c <=? 0x200A))
  || (c =? 0x2028) || (c =? 0x2029) || (c =? 0x202F) || (c =? 0x205F)
  || (c =? 0x3000) || (c =? 0xFEFF).

Fixpoint drop_while (p : Z -> bool) (s : jsstring) : jsstring :=
  match s with
  | c :: s' => if p c then drop_while p s' else s
  | [] => []
  end.

Fixpoint take_while (p : Z -> bool) (s : jsstring) : jsstring :=
  match s with
  | c :: s' => if p c then c :: take_while p s' else []
  | [] => []
  end.

Definition trim (s : jsstring) : jsstring :=
  rev (drop_while is_white_space (rev (drop_while is_white_space s))).

(** The digits of a literal with a radix prefix, and the integer they
    denote. *)
Definition radix_digit (radix : Z) (c : Z) : option Z :=
  let v :=
    if is_digit c then c - 48
    else if (97 <=? c) && (c <=? 102) then c - 87
    else if (65 <=? c) && (c <=? 70) then c - 55
    else radix in
  if v <? radix then Some v else None.

Definition is_radix_digit (radix : Z) (c : Z) : bool :=
  match radix_digit radix c with Some _ => true | None => false end.

Definition radix_value (radix : Z) (s : jsstring) : Z :=
  fold_left (fun acc c => acc * radix
                          + match radix_digit radix c with
                            | Some v => v
                            | None => 0
                            end) s 0.

Definition radix_literal (radix : Z) (digits : jsstring) : jsnumber :=
  if nonempty digits && forallb (is_radix_digit radix) digits
  then Int (radix_value radix digits)
  else NaN.

(** [s] is empty or an exponent part: [e] or [E], a sign or none, digits. *)
Definition exponent_part (s : jsstring) : bool :=
  match s with
  | [] => true
  | e :: s' =>
      ((e =? 101) || (e =? 69))
      && (let digits :=
            match s' with
            | c :: s'' => if (c =? 43) || (c =? 45) then s'' else s'
            | [] => []
            end in
          nonempty digits && forallb is_digit digits)
  end.

(** An unsigned decimal literal with a dot or an exponent: digits, a dot,
    digits or none, an exponent or none; a dot, digits, an exponent or none;
    digits and an exponent. *)
Definition float_literal (s : jsstring) : bool :=
  let int := take_while is_digit s in
  match drop_while is_digit s with
  | [] => false
  | c :: r =>
      if c =? 46
      then (nonempty int || nonempty (take_while is_digit r))
           && exponent_part (drop_while is_digit r)
      else nonempty int && exponent_part (c :: r)
  end.

(** An unsigned decimal literal, with the sign that came before it.  A
    literal with a dot or an exponent is a floating-point number: [None]. *)
Definition unsigned_literal (negative : bool) (s : jsstring)
  : option jsnumber :=
  if startsWith (js "Infinity") s && (List.length s =? 8)%nat
  then Some (Infinity negative)
  else if nonempty s && forallb is_digit s
  then Some (Int (if negative then - decimal s else decimal s))
  else if float_literal s then None
  else Some NaN.

(** [+s], which is [StringToNumber]: white space at both ends is skipped;
    the empty string is [0]; a literal with the prefix [0x], [0o] or [0b] (in
    either case, and without a sign) is the integer its digits denote; a run
    of decimal digits with a sign or none is the integer it denotes;
    [Infinity] with a sign or none is an infinity; any string that is not
    a numeric literal is [NaN].  A decimal literal with a dot or an exponent
    is outside the fragment of numbers modelled here: [None]. *)
Definition radix_of (x : Z) : option Z :=
  if (x =? 120) || (x =? 88) then Some 16
  else if (x =? 111) || (x =? 79) then Some 8
  else if (x =? 98) || (x =? 66) then Some 2
  else None.

Definition unary_plus (s : jsstring) : option jsnumber :=
  match trim s with
  | [] => Some (Int 0)
  | c :: u =>
      if c =? 43 then unsigned_literal false u
      else if c =? 45 then unsigned_literal true u
      else
        match (if c =? 48 then u else []) with
        | x :: digits =>
            match radix_of x with
            | Some radix => Some (radix_literal radix digits)
            | None => unsigned_literal false (c :: u)
            end
        | [] => unsigned_literal false (c :: u)
        end
  end.

(** [code === k] for a code that may be [undefined] or [NaN]. *)
Definition is_code (code : option Z) (k : Z) : bool :=
  match code with
  | Some c => c =? k
  | None => false
  end.

(** Arithmetic on the value of a group: [None] is [NaN]. *)
Definition nsub (a : option Z) (b : Z) : option Z := option_map (fun x => x - b) a.
Definition nmul (a : option Z) (b : Z) : option Z := option_map (fun x => x * b) a.
Definition nadd (a b : option Z) : option Z :=
  match a, b with
  | Some x, Some y => Some (x + y)
  | _, _ => None
  end.

(** [new ArrayBuffer(n)] for an integer [n >= 0]: [n] zero bytes. *)
Definition ArrayBuffer (max : Z) (n : Z) : result bytes :=
  if (n <? 0) || (max <? n) then Throw RangeError
  else Ok (repeat 0 (Z.to_nat n)).

(** The four bytes of [w], least significant first. *)
Definition le32 (w : Z) : bytes :=
  [w mod 256; (w / 256) mod 256; (w / 65536) mod 256; (w / 16777216) mod 256].

(** [view.setUint32(j, v, true)] on a view of the first [viewLength] bytes of
    [buf]: a [RangeError] when the four bytes do not fit, else [v] modulo
    [2^32] ([NaN] is written as 0) in little-endian order. *)
Definition setUint32 (buf : bytes) (viewLength j : Z) (v : option Z)
  : result bytes :=
  if (j <? 0) || (viewLength <? j + 4) then Throw RangeError
  else
    let w := match v with Some z => z mod 4294967296 | None => 0 end in
    Ok (firstn (Z.to_nat j) buf ++ le32 w ++ skipn (Z.to_nat j + 4) buf).

(** [new Uint8Array(buf, 0, n)]. *)
Definition Uint8Array (buf : bytes) (n : Z) : result bytes :=
  if (n <? 0) || (zlength buf <? n) then Throw RangeError
  else Ok (firstn (Z.to_nat n) buf).

(** ** The base-85 decoders (lines 61-200) *)

(** The value of the group that starts at [i]: the sum the four loops write,
    [codeAt] being [stringBytes[k]] or [str.charCodeAt(k)]. *)
Definition group_value (getValue : option Z -> option Z)
  (codeAt : Z -> option Z) (i : Z) : option Z :=
  nadd (nadd (nadd (nadd
    (nmul (nmul (nmul (nmul (getValue (codeAt (i + 4))) 85) 85) 85) 85)
    (nmul (nmul (nmul (getValue (codeAt (i + 3))) 85) 85) 85))
    (nmul (nmul (getValue (codeAt (i + 2))) 85) 85))
    (nmul (getValue (codeAt (i + 1))) 85))
    (getValue (codeAt i)).

(** [for (let i = ..., j = 0; i < str.length; i += 5, j += 4)
      view.setUint32(j, <group at i>, true)].
    One unit of [fuel] is one turn of the loop; the decoders give it the
    length of the string plus one, which the loop never uses up (see
    [chunkLoop_fuel]). *)
Fixpoint chunkLoop (fuel : nat) (getValue : option Z -> option Z)
  (codeAt : Z -> option Z) (length viewLength i j : Z) (buf : bytes)
  : result bytes :=
  match fuel with
  | O => Throw OutsideModel
  | S fuel' =>
      if i <? length then
        let* buf' := setUint32 buf viewLength j (group_value getValue codeAt i) in
        chunkLoop fuel' getValue codeAt length viewLength (i + 5) (j + 4) buf'
      else Ok buf
  end.

Definition toMultipleOfFour (n : Z) : Z :=
  if Z.rem n 4 =? 0 then n else n + (4 - Z.rem n 4).

(** [bytes[i]] of a [Uint8Array]: [undefined] out of range. *)
Definition byteAt (b : bytes) (i : Z) : option Z :=
  if i <? 0 then None else nth_error b (Z.to_nat i).

Definition number (n : option jsnumber) : result jsnumber :=
  match n with
  | Some z => Ok z
  | None => Throw OutsideModel
  end.

(** [toMultipleOfFour] on a number that may not be an integer: [n % 4] is
    [NaN] for [NaN] and for an infinity, [NaN === 0] is false, and
    [n + (4 - NaN)] is [NaN]. *)
Definition toMultipleOfFour_number (n : jsnumber) : jsnumber :=
  match n with
  | Int z => Int (toMultipleOfFour z)
  | NaN | Infinity _ => NaN
  end.

(** The length [new ArrayBuffer(n)] and [new Uint8Array(buffer, 0, n)] read
    in [n] ([ToIndex]): [NaN] is 0, an infinity is a [RangeError]; an integer
    is itself, and the constructors reject a negative one. *)
Definition ToIndex (n : jsnumber) : result Z :=
  match n with
  | Int z => Ok z
  | NaN => Ok 0
  | Infinity _ => Throw RangeError
  end.

Section Decoders.

Variable host : Host.

(** [decode_1] (lines 62-94): the first version of base-85. *)
Definition decode_1_getValue (code : option Z) : option Z :=
  if is_code code 0x7e then Some (0x5c - 0x29)
  else nsub code 0x29.

Definition decode_1 (str : jsstring) : result bytes :=
  let lengthEndsAt := indexOf str (js ",") in
  let* byteLength := number (unary_plus (substring str 0 lengthEndsAt)) in
  let* capacity := ToIndex (toMultipleOfFour_number byteLength) in
  let* resultBuffer := ArrayBuffer (maxByteLength host) capacity in
  let stringBytes := stringToBytes str in
  let* resultBuffer :=
    chunkLoop (S (List.length str)) decode_1_getValue (byteAt stringBytes)
      (zlength str) (zlength resultBuffer) (lengthEndsAt + 1) 0 resultBuffer in
  let* length := ToIndex byteLength in
  Uint8Array resultBuffer length.

(** [decode_2] (lines 96-128): the second version, safe inside HTML. *)
Definition decode_2_getValue (code : option Z) : option Z :=
  let code := if is_code code 0x28 then Some 0x3c else code in
  let code := if is_code code 0x29 then Some 0x3e else code in
  nsub code 0x2a.

Definition decode_2 (str : jsstring) : result bytes :=
  let lengthEndsAt := indexOf str (js ",") in
  let* byteLength := number (unary_plus (substring str 0 lengthEndsAt)) in
  let* capacity := ToIndex (toMultipleOfFour_number byteLength) in
  let* resultBuffer := ArrayBuffer (maxByteLength host) capacity in
  let stringBytes := stringToBytes str in
  let* resultBuffer :=
    chunkLoop (S (List.length str)) decode_2_getValue (byteAt stringBytes)
      (zlength str) (zlength resultBuffer) (lengthEndsAt + 1) 0 resultBuffer in
  let* length := ToIndex byteLength in
  Uint8Array resultBuffer length.

(** [decode_3] (lines 130-162): the length header is encoded, each of its
    characters being a digit moved up by 49. *)
Definition decode_3_getValue (code : option Z) : option Z :=
  let code := if is_code code 0x28 then Some 0x3c else code in
  let code := if is_code code 0x29 then Some 0x3e else code in
  nsub code 0x2a.

Definition decode_3_header (str : jsstring) : jsstring :=
  join (map (fun i => match nsub (charCodeAt i 0) 49 with
                      | Some c => [fromCharCode c]
                      | None => [0]
                      end)
            (split_chars (substring str 0 (indexOf str (js ","))))).

Definition decode_3 (str : jsstring) : result bytes :=
  let lengthEndsAt := indexOf str (js ",") in
  let* byteLength := number (unary_plus (decode_3_header str)) in
  let* capacity := ToIndex (toMultipleOfFour_number byteLength) in
  let* resultBuffer := ArrayBuffer (maxByteLength host) capacity in
  let* resultBuffer :=
    chunkLoop (S (List.length str)) decode_3_getValue (charCodeAt str)
      (zlength str) (zlength resultBuffer) (lengthEndsAt + 1) 0 resultBuffer in
  let* length := ToIndex byteLength in
  Uint8Array resultBuffer length.

(** [/^\d+$/] *)
Definition re_decimal_header : regex := Seq Bol (Seq (plus digit) Eol).

Definition decodeBase85WithLengthHeader (str : jsstring) : result bytes :=
  let header := substring str 0 (indexOf str (js ",")) in
  if regex_test re_decimal_header header then
    if includes str [92] then decode_2 str
    else decode_1 str
  else decode_3 str.

(** [decodeBase85WithoutLengthHeader] (lines 179-200): version 4, the length
    comes from the caller.  [Math.ceil(length / 4) * 4] and
    [Math.floor(str.length / 5 * 4)] are written with integer division. *)
Definition getBase85DecodeValue (code : option Z) : option Z :=
  let code := if is_code code 0x28 then Some 0x3c else code in
  let code := if is_code code 0x29 then Some 0x3e else code in
  nsub code 0x2a.

Definition DataView (buffer : bytes) (byteLength : Z) : result Z :=
  if (byteLength <? 0) || (zlength buffer <? byteLength) then Throw RangeError
  else Ok byteLength.

Definition decodeBase85WithoutLengthHeader (str : jsstring) (length : Z)
  : result bytes :=
  let* buffer := ArrayBuffer (maxByteLength host) (- ((- length) / 4) * 4) in
  let* view := DataView buffer (zlength str * 4 / 5) in
  let* buffer :=
    chunkLoop (S (List.length str)) getBase85DecodeValue (charCodeAt str)
      (zlength str) view 0 0 buffer in
  Uint8Array buffer length.

End Decoders.

(** ** Base64 and data URIs (lines 206-225) *)

Definition is_ascii_whitespace (c : Z) : bool :=
  (c =? 9) || (c =? 10) || (c =? 12) || (c =? 13) || (c =? 32).

Definition base64_value (c : Z) : option Z :=
  if (65 <=? c) && (c <=? 90) then Some (c - 65)
  else if (97 <=? c) && (c <=? 122) then Some (c - 71)
  else if (48 <=? c) && (c <=? 57) then Some (c + 4)
  else if c =? 43 then Some 62
  else if c =? 47 then Some 63
  else None.

Fixpoint base64_values (s : jsstring) : option (list Z) :=
  match s with
  | [] => Some []
  | c :: s' =>
      match base64_value c, base64_values s' with
      | Some v, Some vs => Some (v :: vs)
      | _, _ => None
      end
  end.

(** Four 6-bit values are three bytes; a last group of three values is two
    bytes and one of two values is one byte, the spare bits being dropped. *)
Fixpoint base64_bytes (vs : list Z) : bytes :=
  match vs with
  | a :: b :: c :: d :: vs' =>
      let n := ((a * 64 + b) * 64 + c) * 64 + d in
      (n / 65536) :: ((n / 256) mod 256) :: (n mod 256) :: base64_bytes vs'
  | [a; b; c] =>
      let n := ((a * 64 + b) * 64 + c) / 4 in
      [n / 256; n mod 256]
  | [a; b] => [(a * 64 + b) / 16]
  | _ => []
  end.

Definition strip_padding (s : jsstring) : jsstring :=
  match rev s with
  | 61 :: 61 :: r => rev r
  | 61 :: r => rev r
  | _ => s
  end.

(** [atob] (the forgiving base64 decoding of the HTML standard): white space
    is dropped, up to two [=] are removed from a string whose length is a
    multiple of four, and what is left must be base64 characters, not one
    more than a multiple of four. *)
Definition atob (data : jsstring) : result bytes :=
  let data := filter (fun c => negb (is_ascii_whitespace c)) data in
  let data := if zlength data mod 4 =? 0 then strip_padding data else data in
  if zlength data mod 4 =? 1 then Throw InvalidCharacterError
  else match base64_values data with
       | Some vs => Ok (base64_bytes vs)
       | None => Throw InvalidCharacterError
       end.

(** [decodeBase64]: the characters of the binary string [atob] returns,
    copied into a [Uint8Array]. *)
Definition decodeBase64 (str : jsstring) : result bytes :=
  let* decoded := atob str in
  Ok decoded.

Definition decodeDataURI (uri : jsstring) : result bytes :=
  let parts := split uri (js ";base64,") in
  if zlength parts <? 2 then Throw DataURINotBase64
  else
    let base64 := nth 1 parts [] in
    decodeBase64 base64.

(** [decodeDataURI] on a value read from JSON: only a string has [split]. *)
Definition decodeDataURI_value (uri : option json) : result bytes :=
  match uri with
  | Some (JString s) => decodeDataURI s
  | _ => Throw TypeError
  end.

(** ** Looking into an archive (lines 46-59, 233-275) *)

Fixpoint jseqb (a b : jsstring) : bool :=
  match a, b with
  | [], [] => true
  | x :: a', y :: b' => (x =? y) && jseqb a' b'
  | _, _ => false
  end.

Definition join_with (sep : jsstring) (parts : list jsstring) : jsstring :=
  match parts with
  | [] => []
  | p :: ps => p ++ flat_map (fun q => sep ++ q) ps
  end.

(** [name.split('/')], without its last part, joined with ['/']. *)
Definition getContainingFolder (name : jsstring) : jsstring :=
  let parts := split name (js "/") in
  join_with (js "/") (removelast parts).

(** ['targets' in data]: a [TypeError] unless [data] is an object; an array
    has neither key. *)
Definition has_key (k : jsstring) (data : json) : result bool :=
  match data with
  | JObject members => Ok (existsb (fun kv => jseqb (fst kv) k) members)
  | JArray _ => Ok false
  | _ => Throw TypeError
  end.

Inductive project_type : Type := sb | sb2 | sb3.

Record UnpackagedProject : Type := {
  type : project_type;
  data : bytes
}.

Definition identifyProjectJSONType (data : json) : result project_type :=
  let* targets := has_key (js "targets") data in
  if targets then Ok sb3
  else
    let* objName := has_key (js "objName") data in
    if objName then Ok sb2
    else Throw AmbiguousOrUnknownProjectType.

(** [zip.file(path)]: the entry [zip.files[zip.root + path]], or [null] when
    there is none or it is a folder. *)
Definition JSZip_file (zip : JSZip) (path : jsstring) : option ZipObject :=
  match find (fun f => jseqb (name f) (root zip ++ path)) (files zip) with
  | Some f => if dir f then None else Some f
  | None => None
  end.

Definition keys (zip : JSZip) : list jsstring := map name (files zip).

Definition findFileInZip (zip : JSZip) (path : jsstring) : option ZipObject :=
  match JSZip_file zip path with
  | Some f => Some f
  | None =>
      match find (fun filename => endsWith filename (js "/" ++ path)) (keys zip) with
      | Some filename => JSZip_file zip filename
      | None => None
      end
  end.

(** ** JSON values as the source reads them (lines 382-420) *)

Definition index_key (n : nat) : jsstring :=
  js (NilZero.string_of_uint (Nat.to_uint n)).

Fixpoint indexed {A : Type} (n : nat) (l : list A) : list (jsstring * A) :=
  match l with
  | [] => []
  | x :: l' => (index_key n, x) :: indexed (S n) l'
  end.

(** The enumerable own properties of a value, in the order of [Object.keys].
    The members of an object are taken to have distinct keys, as
    [JSON.parse] leaves them. *)
Definition own_properties (v : json) : list (jsstring * json) :=
  match v with
  | JObject members => members
  | JArray items => indexed 0 items
  | JString s => indexed 0 (map (fun c => JString [c]) s)
  | _ => []
  end.

Fixpoint lookup (k : jsstring) (ps : list (jsstring * json)) : option json :=
  match ps with
  | [] => None
  | (k', v) :: ps' => if jseqb k' k then Some v else lookup k ps'
  end.

(** [v.k] for a key that is an own property or nothing: [undefined] is
    [None], and reading a property of [null] or [undefined] is a
    [TypeError]. *)
Definition get (v : option json) (k : jsstring) : result (option json) :=
  match v with
  | None | Some JNull => Throw TypeError
  | Some v => Ok (lookup k (own_properties v))
  end.

(** [Object.keys(v)], each key with the value [v[key]]. *)
Definition entries (v : option json) : result (list (jsstring * json)) :=
  match v with
  | None | Some JNull => Throw TypeError
  | Some v => Ok (own_properties v)
  end.

Definition truthy (v : option json) : bool :=
  match v with
  | None | Some JNull => false
  | Some (JBool b) => b
  | Some (JNumber nonzero) => nonzero
  | Some (JString s) => match s with [] => false | _ :: _ => true end
  | Some (JArray _) | Some (JObject _) => true
  end.

(** ** The patterns of the source

    In the comments below [Q] stands for the double quote character. *)

Definition dquote : jsstring := [34].
Definition newline : jsstring := [10].

(** [/^[a-f0-9]{32}\.[a-z0-9]{3}$/i] (line 295) *)
Definition re_sb3_asset : regex :=
  Seq Bol
    (Seq (exactly 32 (ignoreCase (union (range "a" "f") (range "0" "9"))))
       (Seq (one (ignoreCase (is_char 46)))
          (Seq (exactly 3 (ignoreCase (union (range "a" "z") (range "0" "9"))))
             Eol))).

(** [/^[0-9]+\.[a-z0-9]{3}$/i] (line 298) *)
Definition re_sb2_asset : regex :=
  Seq Bol
    (Seq (plus (ignoreCase (range "0" "9")))
       (Seq (one (ignoreCase (is_char 46)))
          (Seq (exactly 3 (ignoreCase (union (range "a" "z") (range "0" "9"))))
             Eol))).

(** [/<script data=Q([^Q]+)Q>decodeChunk\((\d+)\)<\/script>/g] (line 338) *)
Definition re_chunks : regex :=
  Seq (lit_chars (js "<script data=" ++ dquote))
    (Seq (Group 1 (plus (none_of (is_char 34))))
       (Seq (lit_chars (dquote ++ js ">decodeChunk("))
          (Seq (Group 2 (plus digit))
             (lit ")</script>")))).

(** [/<script type=Qp4-projectQ>([^<]+)<\/script>/g] (line 347) *)
Definition re_p4_project : regex :=
  Seq (lit_chars (js "<script type=" ++ dquote ++ js "p4-project" ++ dquote
                    ++ js ">"))
    (Seq (Group 1 (plus (none_of (is_char 60))))
       (lit "</script>")).

(** [/const result = base85decode\(Q(.+)Q\);/] (line 356) *)
Definition re_base85decode : regex :=
  Seq (lit_chars (js "const result = base85decode(" ++ dquote))
    (Seq (Group 1 (plus dot))
       (lit_chars (dquote ++ js ");"))).

(** [/<script id=Qp4-encoded-project-dataQ
       type=Qp4-encoded-project-dataQ>([^<]+)<\/script>/] (line 358) *)
Definition re_p4_encoded : regex :=
  Seq (lit_chars (js "<script id=" ++ dquote ++ js "p4-encoded-project-data"
                    ++ dquote ++ js " type=" ++ dquote
                    ++ js "p4-encoded-project-data" ++ dquote ++ js ">"))
    (Seq (Group 1 (plus (none_of (is_char 60))))
       (lit "</script>")).

(** [[a-zA-Z0-9+/=\-:;,]] *)
Definition data_uri_char : charset :=
  union (range "a" "z") (union (range "A" "Z") (union (range "0" "9")
    (one_of "+/=-:;,"))).

(** [/const getProjectData = \(\) => fetch\(Q([a-zA-Z0-9+/=\-:;,]+)Q\)/]
    (line 368) *)
Definition re_getProjectData : regex :=
  Seq (lit_chars (js "const getProjectData = () => fetch(" ++ dquote))
    (Seq (Group 1 (plus data_uri_char))
       (lit_chars (dquote ++ js ")"))).

(** [/var project = '([a-zA-Z0-9+/=\-:;,]+)';/] (line 370) *)
Definition re_var_project : regex :=
  Seq (lit "var project = '")
    (Seq (Group 1 (plus data_uri_char))
       (lit "';")).

(** [/window\.__PACKAGER__ = {\n    projectData: Q([a-zA-Z0-9+/=\-:;,]+)Q/]
    (line 372) *)
Definition re_PACKAGER : regex :=
  Seq (lit_chars (js "window.__PACKAGER__ = {" ++ newline
                    ++ js "    projectData: " ++ dquote))
    (Seq (Group 1 (plus data_uri_char))
       (lit_chars dquote)).

(** [/<script>\nconst GENERATED = \d+\nconst initOptions =
       ({[\s\S]+})\ninit\(initOptions\)\n<\/script>/m] (line 380) *)
Definition re_initOptions : regex :=
  Seq (lit_chars (js "<script>" ++ newline ++ js "const GENERATED = "))
    (Seq (plus digit)
       (Seq (lit_chars (newline ++ js "const initOptions = "))
          (Seq (Group 1 (Seq (lit "{") (Seq (plus any) (lit "}"))))
             (lit_chars (newline ++ js "init(initOptions)" ++ newline
                           ++ js "</script>"))))).

(** [/var TYPE = 'json',\nPROJECT_JSON = Q([^Q]{0,})Q,\nASSETS = ({[^}]{0,}}),/m]
    (line 411; the source writes the two quantifiers [{0,}] as a star) *)
Definition re_TYPE_json : regex :=
  Seq (lit_chars (js "var TYPE = 'json'," ++ newline ++ js "PROJECT_JSON = "
                    ++ dquote))
    (Seq (Group 1 (star (none_of (is_char 34))))
       (Seq (lit_chars (dquote ++ js "," ++ newline ++ js "ASSETS = "))
          (Seq (Group 2 (Seq (lit "{")
                           (Seq (star (none_of (is_char 125))) (lit "}"))))
             (lit ",")))).

(** The four branches of the test of lines 293-303 on the name of an entry. *)
Inductive entry_class : Type := ProjectJSON | Sb3Asset | Sb2Asset | Extra.

Definition classify (path : jsstring) : entry_class :=
  if jseqb path (js "project.json") then ProjectJSON
  else if regex_test re_sb3_asset path then Sb3Asset
  else if regex_test re_sb2_asset path then Sb2Asset
  else Extra.

Definition entry_class_eqb (a b : entry_class) : bool :=
  match a, b with
  | ProjectJSON, ProjectJSON | Sb3Asset, Sb3Asset
  | Sb2Asset, Sb2Asset | Extra, Extra => true
  | _, _ => false
  end.

Definition is_class (c : entry_class) (path : jsstring) : bool :=
  entry_class_eqb (classify path) c.

(** ** The pipeline (lines 246-429) *)

Section Pipeline.

Variable host : Host.

(** [unzipOrNull] (lines 13-19). *)
Definition unzipOrNull (binaryData : bytes) : option JSZip :=
  loadAsync host binaryData.

(** [await entry.async('arraybuffer')] and [await entry.async('text')]. *)
Definition async_arraybuffer (entry : ZipObject) : result bytes :=
  match async host entry with
  | Some b => Ok b
  | None => Throw JSZipError
  end.

Definition async_text (entry : ZipObject) : result jsstring :=
  let* b := async_arraybuffer entry in
  Ok (utf8_decode host b).

(** [unpackageBinaryBlob] (lines 246-265).  [projectJSON.async] on the [null]
    that [findFileInZip] returns is a [TypeError]. *)
Definition unpackageBinaryBlob (data : bytes) : result UnpackagedProject :=
  match unzipOrNull data with
  | Some projectZip =>
      match findFileInZip projectZip (js "project.json") with
      | None => Throw TypeError
      | Some projectJSON =>
          let* text := async_text projectJSON in
          match JSON_parse host text with
          | None => Throw SyntaxError
          | Some projectJSONData =>
              let* type := identifyProjectJSONType projectJSONData in
              Ok {| type := type; data := data |}
          end
      end
  | None => Ok {| type := sb; data := data |}
  end.

(** [file.date = new Date(1662869887000)]. *)
Definition set_date (d : Z) (file : ZipObject) : ZipObject :=
  {| name := name file; dir := dir file; date := d; content := content file |}.

(** [zipToArrayBuffer] (lines 267-275): the promise of [generateAsync], which
    its callers await. *)
Definition zipToArrayBuffer (zip : JSZip) : result bytes :=
  match generateAsync host
          {| root := root zip;
             files := map (set_date 1662869887000) (files zip) |} with
  | Some b => Ok b
  | None => Throw JSZipError
  end.

(** The loop of lines 292-304: what it has counted and what is left of
    [innerZip] after one more [path]. *)
Record scan : Type := {
  sb3Assets : Z;
  sb2Assets : Z;
  innerZip : JSZip
}.

Definition scan_path (s : scan) (path : jsstring) : scan :=
  match classify path with
  | ProjectJSON => s
  | Sb3Asset =>
      {| sb3Assets := sb3Assets s + 1; sb2Assets := sb2Assets s;
         innerZip := innerZip s |}
  | Sb2Asset =>
      {| sb3Assets := sb3Assets s; sb2Assets := sb2Assets s + 1;
         innerZip := innerZip s |}
  | Extra =>
      {| sb3Assets := sb3Assets s; sb2Assets := sb2Assets s;
         innerZip := remove host (innerZip s) path |}
  end.

Definition scan_assets (zip : JSZip) : scan :=
  fold_left scan_path (keys zip)
    {| sb3Assets := 0; sb2Assets := 0; innerZip := zip |}.

(** Lines 283-316: the project found beside its assets. *)
Definition unpackageProjectFolder (packagedZip : JSZip) (projectJSON : ZipObject)
  : result UnpackagedProject :=
  let innerFolderPath := getContainingFolder (name projectJSON) in
  let s := scan_assets (folder host packagedZip innerFolderPath) in
  let type :=
    if (sb2Assets s >? 0) && (sb3Assets s =? 0) then sb2 else sb3 in
  let* data := zipToArrayBuffer (innerZip s) in
  Ok {| type := type; data := data |}.

Definition newJSZip : JSZip := {| root := []; files := [] |}.

(** [for (const name of Object.keys(assets))
      newZip.file(rename(name), decodeDataURI(assets[name]))]. *)
Fixpoint add_assets (rename : jsstring -> jsstring)
  (assets : list (jsstring * json)) (newZip : JSZip) : result JSZip :=
  match assets with
  | [] => Ok newZip
  | (name, dataURI) :: assets' =>
      let* decoded := decodeDataURI_value (Some dataURI) in
      add_assets rename assets' (file_add host newZip (rename name) decoded)
  end.

(** [+i[2]] on what the second group of the pattern of line 338 captures,
    which that pattern makes a run of decimal digits: an integer. *)
Definition integer (n : option jsnumber) : result Z :=
  match n with
  | Some (Int z) => Ok z
  | _ => Throw OutsideModel
  end.

(** [base85Matches.map(i => +i[2]).reduce((a, b) => a + b, 0)]. *)
Fixpoint sum_lengths (ms : list rmatch_result) : result Z :=
  match ms with
  | [] => Ok 0
  | i :: ms' =>
      let* n := integer (unary_plus (group 2 (groups i))) in
      let* rest := sum_lengths ms' in
      Ok (n + rest)
  end.

Definition orElse {A : Type} (a b : option A) : option A :=
  match a with
  | Some x => Some x
  | None => b
  end.

(** Lines 333-428: the input read as text. *)
Definition unpackageText (text : jsstring) : result UnpackagedProject :=
  match matchAll text re_chunks with
  | (_ :: _) as base85Matches =>
      let base85 := join (map (fun i => group 1 (groups i)) base85Matches) in
      let* length := sum_lengths base85Matches in
      let* decoded := decodeBase85WithoutLengthHeader host base85 length in
      unpackageBinaryBlob decoded
  | [] =>
  match matchAll text re_p4_project with
  | (_ :: _) as base85Matches =>
      let base85 := join (map (fun i => group 1 (groups i)) base85Matches) in
      let* decoded := decodeBase85WithLengthHeader host base85 in
      unpackageBinaryBlob decoded
  | [] =>
  match orElse (regex_match re_base85decode text)
               (regex_match re_p4_encoded text) with
  | Some base85Match =>
      let base85 := group 1 (groups base85Match) in
      let* decoded := decodeBase85WithLengthHeader host base85 in
      unpackageBinaryBlob decoded
  | None =>
  match orElse (regex_match re_getProjectData text)
          (orElse (regex_match re_var_project text)
                  (regex_match re_PACKAGER text)) with
  | Some dataURIMatch =>
      let dataURI := group 1 (groups dataURIMatch) in
      let* decoded := decodeDataURI dataURI in
      unpackageBinaryBlob decoded
  | None =>
  match regex_match re_initOptions text with
  | Some htmlifierOptions =>
      match JSON_parse host (group 1 (groups htmlifierOptions)) with
      | None => Throw SyntaxError
      | Some options =>
          let* htmlifierAssets := get (Some options) (js "assets") in
          let* compressedProjectData := get htmlifierAssets (js "file") in
          if truthy compressedProjectData then
            let* decodedProjectData := decodeDataURI_value compressedProjectData in
            Ok {| type := sb; data := decodedProjectData |}
          else
            let* assets := entries htmlifierAssets in
            let* newZip :=
              add_assets (fun name => if jseqb name (js "project")
                                      then js "project.json" else name)
                assets newJSZip in
            let* data := zipToArrayBuffer newZip in
            Ok {| type := sb3; data := data |}
      end
  | None =>
  match regex_match re_TYPE_json text with
  | Some htmlifierOptions =>
      let* projectJSON := decodeDataURI (group 1 (groups htmlifierOptions)) in
      match JSON_parse host (group 2 (groups htmlifierOptions)) with
      | None => Throw SyntaxError
      | Some assetsJSON =>
          let newZip := file_add host newJSZip (js "project.json") projectJSON in
          let* assets := entries (Some assetsJSON) in
          let* newZip := add_assets (fun name => name) assets newZip in
          let* data := zipToArrayBuffer newZip in
          Ok {| type := sb3; data := data |}
      end
  | None => Throw NoProjectFound
  end end end end end end.

(** [unpackage] (lines 277-429). *)
Definition unpackage (blob : bytes) : result UnpackagedProject :=
  match unzipOrNull blob with
  | Some packagedZip =>
      match findFileInZip packagedZip (js "project.json") with
      | Some projectJSON => unpackageProjectFolder packagedZip projectJSON
      | None =>
          match orElse (findFileInZip packagedZip (js "project.zip"))
                       (findFileInZip packagedZip (js "project")) with
          | Some projectBinary =>
              let* projectData := async_arraybuffer projectBinary in
              unpackageBinaryBlob projectData
          | None => Throw ZipMissingProject
          end
      end
  | None =>
      match readAsText host blob with
      | Some text => unpackageText text
      | None => Throw BlobReadFailure
      end
  end.

End Pipeline.

(** ** A host to run the pipeline on

    The examples below run the pipeline on concrete inputs.  Their host
    keeps an archive in a small container format: the bytes 80 and 75, then
    for each entry the length of its name, the name, one byte of date, the
    compression method (0, stored as it is, or 8), the uncompressed size, the
    length of the stream and the stream.  A stream of method 8 is a sequence
    of pairs, a count and a byte to repeat that many times, so that, as with
    DEFLATE, the same bytes have more than one stream.  As JSZip does, the
    host decompresses an entry only when it is read, writes the stream of an
    entry loaded with method 8 back as it is, and compresses the others
    anew.  It reads text byte by byte (which is UTF-8 on ASCII input) and
    parses three JSON documents. *)

Definition take (n : Z) (b : bytes) : option (bytes * bytes) :=
  if (0 <=? n) && (n <=? zlength b)
  then Some (firstn (Z.to_nat n) b, skipn (Z.to_nat n) b)
  else None.

Fixpoint example_entries (fuel : nat) (b : bytes) : option (list ZipObject) :=
  match fuel with
  | O => None
  | S fuel' =>
      match b with
      | [] => Some []
      | n :: b1 =>
          match take n b1 with
          | Some (nm, d :: method :: size :: m :: b2) =>
              match take m b2 with
              | Some (c, b3) =>
                  if (method =? 0) || (method =? 8) then
                    option_map
                      (cons {| name := nm; dir := endsWith nm (js "/");
                               date := d; content := Stored method size c |})
                      (example_entries fuel' b3)
                  else None
              | None => None
              end
          | _ => None
          end
      end
  end.

Definition example_loadAsync (b : bytes) : option JSZip :=
  match b with
  | 80 :: 75 :: b' =>
      option_map (fun es => {| root := []; files := es |})
        (example_entries (S (List.length b')) b')
  | _ => None
  end.

(** The bytes of a stream of method 8. *)
Fixpoint example_inflate (stream : bytes) : option bytes :=
  match stream with
  | [] => Some []
  | n :: b :: stream' =>
      option_map (app (repeat b (Z.to_nat n))) (example_inflate stream')
  | _ => None
  end.

(** The stream the host writes for [data]: every byte once. *)
Definition example_deflate (data : bytes) : bytes :=
  flat_map (fun b => [1; b]) data.

Definition example_async (entry : ZipObject) : option bytes :=
  match content entry with
  | Given data => Some data
  | Stored method size stream =>
      match (if method =? 0 then Some stream else example_inflate stream) with
      | Some data => if zlength data =? size then Some data else None
      | None => None
      end
  end.

(** What the host writes for an entry, under the name the view gives it. *)
Definition example_record (entry : ZipObject) (relativePath : jsstring)
  (size : Z) (stream : bytes) : bytes :=
  zlength relativePath :: relativePath
    ++ (date entry mod 256) :: 8 :: size :: zlength stream :: stream.

Definition example_write (entry : ZipObject) (relativePath : jsstring)
  : option bytes :=
  match content entry with
  | Stored 8 size stream => Some (example_record entry relativePath size stream)
  | _ =>
      option_map
        (fun data =>
           example_record entry relativePath (zlength data)
             (example_deflate data))
        (example_async entry)
  end.

Fixpoint all_some {A : Type} (l : list (option A)) : option (list A) :=
  match l with
  | [] => Some []
  | Some x :: l' => option_map (cons x) (all_some l')
  | None :: _ => None
  end.

(** [zip.generateAsync]: the entries under the root of the view, each under
    its name relative to the root. *)
Definition example_generateAsync (zip : JSZip) : option bytes :=
  option_map (fun records => 80 :: 75 :: concat records)
    (all_some
       (flat_map
          (fun f =>
             if startsWith (root zip) (name f)
                && negb (jseqb (name f) (root zip))
             then [example_write f (skipn (List.length (root zip)) (name f))]
             else [])
          (files zip))).

(** The folders a name lies in, the outermost first, and the name itself
    when it is the name of a folder. *)
Definition example_folders_of (nm : jsstring) : list jsstring :=
  filter (fun p => endsWith p (js "/"))
    (map (fun k => firstn k nm) (seq 1 (List.length nm))).

(** The folders among [names] that the archive does not have are added to
    it. *)
Definition example_add_folders (names : list jsstring) (fs : list ZipObject)
  : list ZipObject :=
  fold_left
    (fun fs path =>
       if existsb (fun f => jseqb (name f) path) fs then fs
       else fs ++ [{| name := path; dir := true; date := 0;
                      content := Given [] |}])
    names fs.

(** [zip.folder(arg)]: the folder and the folders it lies in are added when
    the archive does not have them, and the view has the folder for its
    root. *)
Definition example_folder (zip : JSZip) (arg : jsstring) : JSZip :=
  match arg with
  | [] => zip
  | _ :: _ =>
      let path :=
        if endsWith (root zip ++ arg) (js "/") then root zip ++ arg
        else root zip ++ arg ++ js "/" in
      {| root := path;
         files := example_add_folders (example_folders_of path) (files zip) |}
  end.

(** [zip.remove(path)]: the file of that name, or the folder of that name
    with all that it holds. *)
Definition example_remove (zip : JSZip) (path : jsstring) : JSZip :=
  let full := root zip ++ path in
  let is_file f := jseqb (name f) full && negb (dir f) in
  let prefix :=
    if existsb (fun f => jseqb (name f) full) (files zip)
       || endsWith full (js "/")
    then full else full ++ js "/" in
  {| root := root zip;
     files :=
       if existsb is_file (files zip)
       then filter (fun f => negb (jseqb (name f) full)) (files zip)
       else filter (fun f => negb (startsWith prefix (name f))) (files zip) |}.

(** [zip.file(nm, d)]: the folders the name lies in are added when the
    archive does not have them; an entry of that name is replaced where it
    is, and a new one comes last. *)
Definition example_file_add (zip : JSZip) (nm : jsstring) (d : bytes) : JSZip :=
  let full := root zip ++ nm in
  let entry := {| name := full; dir := false; date := 0; content := Given d |} in
  let fs :=
    example_add_folders (removelast (example_folders_of (full ++ js "/")))
      (files zip) in
  {| root := root zip;
     files :=
       if existsb (fun f => jseqb (name f) full) fs
       then map (fun f => if jseqb (name f) full then entry else f) fs
       else fs ++ [entry] |}.

Definition example_JSON_parse (s : jsstring) : option json :=
  if jseqb s (js "{" ++ dquote ++ js "targets" ++ dquote ++ js ":[]}")
  then Some (JObject [(js "targets", JArray [])])
  else if jseqb s (js "{" ++ dquote ++ js "objName" ++ dquote ++ js ":" ++ dquote
                     ++ js "Stage" ++ dquote ++ js "}")
  then Some (JObject [(js "objName", JString (js "Stage"))])
  else if jseqb s (js "{}") then Some (JObject [])
  else None.

Definition exampleHost : Host :=
  {| loadAsync := example_loadAsync;
     generateAsync := example_generateAsync;
     async := example_async;
     folder := example_folder;
     remove := example_remove;
     file_add := example_file_add;
     readAsText := fun b => Some b;
     utf8_decode := fun b => b;
     JSON_parse := example_JSON_parse;
     maxByteLength := 2147483647 |}.

(** An archive in the container format of [exampleHost]: [example_entry] is
    an entry stored as it is, [example_entry_8] one of method 8. *)
Definition example_entry (nm : string) (c : bytes) : bytes :=
  zlength (js nm) :: js nm ++ 0 :: 0 :: zlength c :: zlength c :: c.

Definition example_entry_8 (nm : string) (size : Z) (stream : bytes) : bytes :=
  zlength (js nm) :: js nm ++ 0 :: 8 :: size :: zlength stream :: stream.

Definition example_archive (entries : list bytes) : bytes :=
  80 :: 75 :: concat entries.

(** A project zipped with its folder. *)
Definition example_project_in_folder : bytes :=
  example_archive [example_entry "foo/project.json" (js "{}");
                   example_entry "foo/42.svg" [1; 2]].

(** ** The notions of the specification *)

(** Asset names.  A name has the shape [stem.ext] when it is [n] characters
    of the class [stem], a dot and three more characters of the class
    [ext]. *)
Definition is_lower_hex (c : Z) : bool :=
  is_digit c || ((97 <=? c) && (c <=? 102)).
Definition is_hex (c : Z) : bool :=
  is_lower_hex c || ((65 <=? c) && (c <=? 70)).
Definition is_alnum (c : Z) : bool :=
  is_digit c || ((97 <=? c) && (c <=? 122)) || ((65 <=? c) && (c <=? 90)).

Definition has_shape (stem ext : charset) (n : nat) (s : jsstring) : bool :=
  (List.length s =? n + 4)%nat
  && forallb stem (firstn n s)
  && (nth n s 0 =? 46)
  && forallb ext (skipn (S n) s).

(** The same shape read from the dot on: [t] is a dot and three characters
    of the class [ext]. *)
Definition dot_ext (ext : charset) (t : jsstring) : bool :=
  match t with
  | [c; e1; e2; e3] => (c =? 46) && ext e1 && ext e2 && ext e3
  | _ => false
  end.

(** 32 hexadecimal digits of either case, a dot, three letters or digits. *)
Definition sb3_shape (s : jsstring) : bool := has_shape is_hex is_alnum 32 s.

(** One or more decimal digits, a dot, three letters or digits. *)
Definition sb2_shape (s : jsstring) : bool :=
  (5 <=? List.length s)%nat
  && has_shape is_digit is_alnum (List.length s - 4) s.

(** The sb3 shape as the specification words it: the 32 hexadecimal digits
    are lowercase. *)
Definition sb3_shape_lowercase (s : jsstring) : bool :=
  has_shape is_lower_hex is_alnum 32 s.

Definition count (p : jsstring -> bool) (names : list jsstring) : Z :=
  zlength (filter p names).

(** Base-85.  The words of a payload: each group of five characters
    [c0 ... c4] is the number [b4*85^4 + b3*85^3 + b2*85^2 + b1*85 + b0],
    [b] being the digit values of the characters. *)
Fixpoint words (value : Z -> Z) (payload : jsstring) : list Z :=
  match payload with
  | c0 :: c1 :: c2 :: c3 :: c4 :: payload' =>
      (value c4 * 85 ^ 4 + value c3 * 85 ^ 3 + value c2 * 85 ^ 2
       + value c1 * 85 + value c0) :: words value payload'
  | _ => []
  end.

Inductive variant : Type := v1 | v2 | v3 | v4.

(** The digit value of a character in each variant. *)
Definition digit_value (v : variant) (c : Z) : Z :=
  match v with
  | v1 => (if c =? 0x7e then 0x5c else c) - 0x29
  | _ => (if c =? 0x28 then 0x3c else if c =? 0x29 then 0x3e else c) - 0x2a
  end.

Definition is_base85_digit (v : variant) (c : Z) : bool :=
  (0 <=? c) && (c <? 128)
  && (0 <=? digit_value v c) && (digit_value v c <? 85).

(** The header that declares the byte length [L]: its decimal digits (v1 and
    v2), its decimal digits each moved up by 49 (v3), nothing (v4). *)
Definition declares (v : variant) (L : Z) (header : jsstring) : Prop :=
  match v with
  | v1 | v2 =>
      header <> [] /\ forallb is_digit header = true /\ decimal header = L
  | v3 =>
      header <> []
      /\ forallb is_digit (map (fun c => c - 49) header) = true
      /\ decimal (map (fun c => c - 49) header) = L
  | v4 => header = []
  end.

(** Each variant run on a header and a payload. *)
Definition run_variant (host : Host) (v : variant) (L : Z)
  (header payload : jsstring) : result bytes :=
  match v with
  | v1 => decode_1 host (header ++ js "," ++ payload)
  | v2 => decode_2 host (header ++ js "," ++ payload)
  | v3 => decode_3 host (header ++ js "," ++ payload)
  | v4 => decodeBase85WithoutLengthHeader host payload L
  end.

(** Data URIs.  The text after the first [;base64,], and a text up to its
    first [;base64,] (all of it when there is none). *)
Definition after_first_separator (uri : jsstring) : jsstring :=
  skipn (Z.to_nat (indexOf uri (js ";base64,")) + 8) uri.

Definition up_to_separator (s : jsstring) : jsstring :=
  if includes s (js ";base64,")
  then firstn (Z.to_nat (indexOf s (js ";base64,"))) s
  else s.

(** Archives.  An entry matches [path] when it has that name or its name
    ends with [/path]. *)
Definition entry_matches (zip : JSZip) (path : jsstring) (f : ZipObject) : bool :=
  jseqb (name f) (root zip ++ path) || endsWith (name f) (js "/" ++ path).

Definition no_entry_matches (zip : JSZip) (path : jsstring) : bool :=
  forallb (fun f => negb (entry_matches zip path f)) (files zip).

(** The entry a search for [path] settles on in an archive as it is loaded:
    the first entry named [path] when there is one, else the first entry, in
    the order of the archive, whose name ends with [/path]. *)
Definition first_named (p : jsstring -> bool) (zip : JSZip) (f : ZipObject)
  : Prop :=
  exists before after,
    files zip = before ++ f :: after
    /\ p (name f) = true
    /\ forallb (fun g => negb (p (name g))) before = true.

Definition search_finds (zip : JSZip) (path : jsstring) (f : ZipObject) : Prop :=
  first_named (fun n => jseqb n path) zip f
  \/ (forallb (fun g => negb (jseqb (name g) path)) (files zip) = true
      /\ first_named (fun n => endsWith n (js "/" ++ path)) zip f).



(** The names of the entries of a folder view as the view gives them,
    relative to its root: the asset names of the archive view. *)
Definition relative_names (zip : JSZip) : list jsstring :=
  flat_map
    (fun f =>
       if startsWith (root zip) (name f) && negb (jseqb (name f) (root zip))
       then [skipn (List.length (root zip)) (name f)]
       else [])
    (files zip).

(** A text in which none of the patterns of lines 338-411 matches. *)
Definition matches_no_pattern (text : jsstring) : bool :=
  negb (regex_test re_chunks text)
  && negb (regex_test re_p4_project text)
  && negb (regex_test re_base85decode text)
  && negb (regex_test re_p4_encoded text)
  && negb (regex_test re_getProjectData text)
  && negb (regex_test re_var_project text)
  && negb (regex_test re_PACKAGER text)
  && negb (regex_test re_initOptions text)
  && negb (regex_test re_TYPE_json text).

(** ** Further notions, for the properties of the code *)

(** The invariant of JSZip on the entries it loads: the name of a folder
    ends with a slash. *)
Definition folders_end_with_slash (zip : JSZip) : Prop :=
  forall f, In f (files zip) -> dir f = true ->
            endsWith (name f) (js "/") = true.

(** The alphabets of the encoders, as the comments of lines 65 and 99-100
    give them: 0x29 to 0x7e without 0x5c for version 1; 0x2a to 0x7e with
    0x28 and 0x29 in the place of 0x3c and 0x3e for the later versions. *)
Definition alphabet_v1 (c : Z) : bool :=
  (0x29 <=? c) && (c <=? 0x7e) && negb (c =? 0x5c).

Definition alphabet_v2 (c : Z) : bool :=
  (c =? 0x28) || (c =? 0x29)
  || ((0x2a <=? c) && (c <=? 0x7e) && negb (c =? 0x3c) && negb (c =? 0x3e)).

(** A name that the loop of lines 292-304 removes. *)
Definition is_extra (path : jsstring) : bool :=
  negb (jseqb path (js "project.json"))
  && negb (sb3_shape path) && negb (sb2_shape path).

(** Matches that follow each other in a text of length [n], from [from] on,
    without overlap, none of them empty. *)
Fixpoint in_document_order (n from : nat) (ms : list rmatch_result) : Prop :=
  match ms with
  | [] => True
  | m :: ms' =>
      (from <= index m < endIndex m)%nat /\ (endIndex m <= n)%nat
      /\ in_document_order n (endIndex m) ms'
  end.

(** A pattern without capturing parentheses. *)
Fixpoint no_group (r : regex) : bool :=
  match r with
  | Seq r1 r2 => no_group r1 && no_group r2
  | Group _ _ => false
  | _ => true
  end.

(** What a match of the pattern of line 338 captures: a fragment that is not
    empty and has no double quote, and a length that is a run of decimal
    digits. *)
Definition chunk_groups (gs : list (nat * jsstring)) : Prop :=
  exists fragment len,
    gs = [(2%nat, len); (1%nat, fragment)]
    /\ fragment <> [] /\ ~ In 34 fragment
    /\ len <> [] /\ forallb is_digit len = true.

(** Documents with script tags.  [p4_project_tags] is, for each part, the
    opening tag of line 347, a fragment, the closing tag and the text up to
    the next tag; [chunk_tags] is the same for the tags of line 338, each
    with a fragment and the decimal length of what it decodes to. *)
Definition p4_project_open : jsstring :=
  js "<script type=" ++ dquote ++ js "p4-project" ++ dquote ++ js ">".

Definition script_close : jsstring := js "</script>".

Definition p4_project_tags (parts : list (jsstring * jsstring)) : jsstring :=
  flat_map (fun p => p4_project_open ++ fst p ++ script_close ++ snd p) parts.

(** A part whose fragment is not empty and that has no [<] (code 60) within
    the fragment or after the closing tag. *)
Definition p4_project_part (p : jsstring * jsstring) : Prop :=
  fst p <> [] /\ ~ In 60 (fst p) /\ ~ In 60 (snd p).

Record chunk : Type := {
  fragment : jsstring;
  declared : jsstring;
  trailing : jsstring
}.

Definition chunk_open : jsstring := js "<script data=" ++ dquote.
Definition chunk_middle : jsstring := dquote ++ js ">decodeChunk(".
Definition chunk_close : jsstring := js ")</script>".

Definition chunk_tags (parts : list chunk) : jsstring :=
  flat_map (fun p => chunk_open ++ fragment p ++ chunk_middle ++ declared p
                       ++ chunk_close ++ trailing p) parts.

(** A chunk whose fragment is not empty and has no double quote (code 34),
    whose length is written in decimal digits, and that has no [<] after its
    closing tag. *)
Definition chunk_part (p : chunk) : Prop :=
  fragment p <> [] /\ ~ In 34 (fragment p)
  /\ declared p <> [] /\ forallb is_digit (declared p) = true
  /\ ~ In 60 (trailing p).

Definition total_length (parts : list chunk) : Z :=
  fold_right (fun p acc => decimal (declared p) + acc) 0 parts.

(** * Properties *)

(** ** Lists and strings *)

Lemma zlength_nonneg {A : Type} (l : list A) : 0 <= zlength l.
Proof. unfold zlength. lia. Qed.

Lemma zlength_app {A : Type} (l1 l2 : list A) :
  zlength (l1 ++ l2) = zlength l1 + zlength l2.
Proof. unfold zlength. rewrite length_app. lia. Qed.

Lemma zlength_cons {A : Type} (x : A) (l : list A) :
  zlength (x :: l) = zlength l + 1.
Proof. unfold zlength. simpl. lia. Qed.

Lemma jseqb_eq (a b : jsstring) : jseqb a b = true <-> a = b.
Proof.
  revert b. induction a as [|x a IH]; intros [|y b]; simpl; split;
    try discriminate; try reflexivity.
  - intros H. apply andb_true_iff in H. destruct H as [Hx Hab].
    apply Z.eqb_eq in Hx. apply IH in Hab. congruence.
  - intros H. injection H as -> ->. rewrite Z.eqb_refl. simpl.
    apply IH. reflexivity.
Qed.

Lemma jseqb_refl (a : jsstring) : jseqb a a = true.
Proof. apply jseqb_eq. reflexivity. Qed.

Lemma bind_Ok {A B : Type} (a : A) (k : A -> result B) :
  bind (Ok a) k = k a.
Proof. reflexivity. Qed.

(** ** Looking into an archive *)

Lemma find_name_none (zip : JSZip) (path : jsstring) (fs : list ZipObject) :
  forallb (fun f => negb (entry_matches zip path f)) fs = true ->
  find (fun f => jseqb (name f) (root zip ++ path)) fs = None.
Proof.
  induction fs as [|f fs IH]; cbn [forallb find map]; intros H;
    [reflexivity|].
  apply andb_true_iff in H. destruct H as [Hf Hfs].
  unfold entry_matches in Hf. apply negb_true_iff, orb_false_iff in Hf.
  destruct Hf as [-> _]. auto.
Qed.

Lemma find_suffix_none (zip : JSZip) (path : jsstring) (fs : list ZipObject) :
  forallb (fun f => negb (entry_matches zip path f)) fs = true ->
  find (fun filename => endsWith filename (js "/" ++ path)) (map name fs)
  = None.
Proof.
  induction fs as [|f fs IH]; cbn [forallb find map]; intros H;
    [reflexivity|].
  apply andb_true_iff in H. destruct H as [Hf Hfs].
  unfold entry_matches in Hf. apply negb_true_iff, orb_false_iff in Hf.
  destruct Hf as [_ ->]. auto.
Qed.

(** When no entry matches [path], [findFileInZip] returns [null]. *)
Lemma findFileInZip_none (zip : JSZip) (path : jsstring) :
  no_entry_matches zip path = true -> findFileInZip zip path = None.
Proof.
  intros H. unfold findFileInZip, JSZip_file, keys.
  rewrite (find_name_none zip path _ H), (find_suffix_none zip path _ H).
  reflexivity.
Qed.

(** ** The text patterns *)

Lemma regex_test_false (r : regex) (s : jsstring) :
  regex_test r s = false -> regex_match r s = None.
Proof.
  unfold regex_test. destruct (regex_match r s); [discriminate|reflexivity].
Qed.

Lemma matchAll_none (r : regex) (text : jsstring) :
  regex_test r text = false -> matchAll text r = [].
Proof.
  intros H. apply regex_test_false in H. unfold regex_match in H.
  unfold matchAll. simpl. rewrite H. reflexivity.
Qed.

(** A text without any of the patterns is rejected (line 428). *)
Lemma unpackageText_no_pattern (host : Host) (text : jsstring) :
  matches_no_pattern text = true ->
  unpackageText host text = Throw NoProjectFound.
Proof.
  unfold matches_no_pattern. intros H.
  repeat (apply andb_true_iff in H; destruct H as [H ?]).
  repeat match goal with
         | Hn : negb _ = true |- _ => apply negb_true_iff in Hn
         end.
  unfold unpackageText.
  rewrite (matchAll_none re_chunks), (matchAll_none re_p4_project) by assumption.
  rewrite (regex_test_false re_base85decode), (regex_test_false re_p4_encoded),
    (regex_test_false re_getProjectData), (regex_test_false re_var_project),
    (regex_test_false re_PACKAGER), (regex_test_false re_initOptions),
    (regex_test_false re_TYPE_json) by assumption.
  reflexivity.
Qed.

(** ** The dispatcher on an input that is not a zip archive *)

(** C1, as stated, fails: the raw Scratch 1 project whose bytes are
    [ScratchV01] is not a zip archive, and [unpackage] does not return it:
    it reads it as text, finds none of its patterns and throws the error of
    line 428. *)
Lemma unpackage_raw_sb_counterexample :
  loadAsync exampleHost (js "ScratchV01") = None
  /\ unpackage exampleHost (js "ScratchV01") = Throw NoProjectFound
  /\ unpackage exampleHost (js "ScratchV01")
     <> Ok {| type := sb; data := js "ScratchV01" |}.
Proof.
  split; [reflexivity|]. split; [reflexivity|]. discriminate.
Qed.

(** C1, as amended: for every input that is not a valid zip archive, the
    binary-blob classifier [unpackageBinaryBlob] returns
    [{type: sb, data: the same bytes}]; the entry point [unpackage] reads the
    input as text, and fails with the error "Input was not a zip and we could
    not find project." when none of its patterns matches the text (and with
    "Could not read blob as text" when the input cannot be read). *)
Theorem unpackage_not_a_zip (host : Host) (blob : bytes) :
  loadAsync host blob = None ->
  unpackageBinaryBlob host blob = Ok {| type := sb; data := blob |}
  /\ (forall text,
        readAsText host blob = Some text ->
        matches_no_pattern text = true ->
        unpackage host blob = Throw NoProjectFound)
  /\ (readAsText host blob = None ->
      unpackage host blob = Throw BlobReadFailure).
Proof.
  intros Hzip. unfold unpackageBinaryBlob, unpackage, unzipOrNull.
  rewrite Hzip. split; [reflexivity|]. split.
  - intros text Htext Hno. rewrite Htext.
    apply unpackageText_no_pattern. exact Hno.
  - intros Htext. rewrite Htext. reflexivity.
Qed.

Lemma unpackage_not_a_zip_witness :
  loadAsync exampleHost (js "ScratchV01") = None
  /\ unpackageBinaryBlob exampleHost (js "ScratchV01")
     = Ok {| type := sb; data := js "ScratchV01" |}
  /\ unpackage exampleHost (js "ScratchV01") = Throw NoProjectFound.
Proof.
  split; [reflexivity|].
  destruct (unpackage_not_a_zip exampleHost (js "ScratchV01") eq_refl)
    as [Hblob [Htext _]].
  split; [exact Hblob|].
  apply (Htext (js "ScratchV01")); reflexivity.
Defined.

(** ** The digit values of version 1 *)

(** C2, as stated, fails at the character of code 0x5C: its digit value is
    0x5C - 0x29 = 51, not 0x7E - 0x29 = 85. *)
Lemma decode_1_getValue_counterexample :
  decode_1_getValue (Some 0x5c) = Some 51
  /\ decode_1_getValue (Some 0x5c) <> Some (0x7e - 0x29).
Proof. split; [reflexivity|discriminate]. Qed.

(** C2, as amended: in the v1 decoder the digit value of a character is
    code - 0x29 after remapping, and the remapping goes the other way: a
    character of code 0x7E acts as if it were 0x5C, so
    getValue(c) = (c == 0x7E ? 0x5C : c) - 0x29; every other code, 0x5C
    included, maps directly. *)
Theorem decode_1_getValue_spec (c : Z) :
  decode_1_getValue (Some c) = Some ((if c =? 0x7e then 0x5c else c) - 0x29).
Proof.
  unfold decode_1_getValue, is_code, nsub. simpl.
  destruct (c =? 126); reflexivity.
Qed.

(** ** The rebuilder *)






(** ** The binary-blob classifier on an archive without project.json *)

(** C10: on an input that opens as a zip archive with no entry named
    project.json (exactly or as the end of a path), [findFileInZip] returns
    [null] and [unpackageBinaryBlob] fails on reading that entry with a
    [TypeError], which is none of the five labelled errors (and so not the
    error for an ambiguous or unknown project type). *)
Theorem unpackageBinaryBlob_without_project_json (host : Host) (data : bytes)
  (zip : JSZip) :
  loadAsync host data = Some zip ->
  no_entry_matches zip (js "project.json") = true ->
  findFileInZip zip (js "project.json") = None
  /\ unpackageBinaryBlob host data = Throw TypeError
  /\ ~ In TypeError labelled_errors
  /\ TypeError <> AmbiguousOrUnknownProjectType.
Proof.
  intros Hzip Hno. pose proof (findFileInZip_none _ _ Hno) as Hfind.
  split; [exact Hfind|]. split.
  - unfold unpackageBinaryBlob, unzipOrNull. rewrite Hzip, Hfind. reflexivity.
  - split; [|discriminate].
    unfold labelled_errors. simpl. intuition discriminate.
Qed.

Lemma unpackageBinaryBlob_without_project_json_witness :
  unpackageBinaryBlob exampleHost
    (example_archive [example_entry "readme.txt" (js "hello")])
  = Throw TypeError.
Proof.
  destruct (unpackageBinaryBlob_without_project_json exampleHost
              (example_archive [example_entry "readme.txt" (js "hello")])
              _ eq_refl eq_refl) as [_ [H _]].
  exact H.
Defined.

(** ** Data URIs *)

Lemma indexOf_lower (s pat : jsstring) : -1 <= indexOf s pat.
Proof.
  induction s as [|c s IH]; simpl.
  - destruct (startsWith pat []); lia.
  - destruct (startsWith pat (c :: s)); [lia|].
    destruct (indexOf s pat <? 0) eqn:E; [lia|].
    apply Z.ltb_ge in E. lia.
Qed.

Lemma indexOf_cons (c : Z) (s pat : jsstring) :
  indexOf (c :: s) pat
  = if startsWith pat (c :: s) then 0
    else if indexOf s pat <? 0 then -1 else indexOf s pat + 1.
Proof. reflexivity. Qed.

Lemma split_from_skip (sep s : jsstring) (k : nat) (cur : jsstring) :
  split_from sep s k cur = split_from sep (skipn k s) 0 cur.
Proof.
  revert k. induction s as [|c s IH]; intros [|k]; simpl; auto.
Qed.

(** [split] cuts at the first occurrence of the separator and goes on
    after it. *)
Lemma split_from_indexOf (p : Z) (sep s cur : jsstring) :
  split_from (p :: sep) s 0 cur
  = if indexOf s (p :: sep) <? 0 then [cur ++ s]
    else (cur ++ firstn (Z.to_nat (indexOf s (p :: sep))) s)
           :: split_from (p :: sep)
                (skipn (Z.to_nat (indexOf s (p :: sep)) + S (List.length sep)) s)
                0 [].
Proof.
  revert cur. induction s as [|c s IH]; intros cur.
  - simpl. rewrite app_nil_r. reflexivity.
  - rewrite indexOf_cons. cbn [split_from].
    destruct (startsWith (p :: sep) (c :: s)) eqn:Hs.
    + cbn [Z.ltb Z.compare Z.to_nat firstn Nat.add].
      rewrite app_nil_r, split_from_skip.
      cbn [List.length skipn Nat.sub]. rewrite Nat.sub_0_r. reflexivity.
    + rewrite IH. pose proof (indexOf_lower s (p :: sep)) as Hlow.
      destruct (indexOf s (p :: sep) <? 0) eqn:Hi.
      * cbn [Z.ltb Z.compare]. rewrite <- app_assoc. reflexivity.
      * apply Z.ltb_ge in Hi.
        replace (indexOf s (p :: sep) + 1 <? 0) with false
          by (symmetry; apply Z.ltb_ge; lia).
        replace (Z.to_nat (indexOf s (p :: sep) + 1))
          with (S (Z.to_nat (indexOf s (p :: sep)))) by lia.
        cbn [firstn Nat.add skipn]. rewrite <- app_assoc. reflexivity.
Qed.

Lemma atob_throws (s : jsstring) (e : exn) :
  atob s = Throw e -> e = InvalidCharacterError.
Proof.
  unfold atob.
  repeat match goal with
         | |- context [if ?b then _ else _] => destruct b
         | |- context [match ?x with Some _ => _ | None => _ end] => destruct x
         end; congruence.
Qed.

Lemma decodeBase64_throws (s : jsstring) (e : exn) :
  decodeBase64 s = Throw e -> e = InvalidCharacterError.
Proof.
  unfold decodeBase64, bind. destruct (atob s) eqn:E; [discriminate|].
  intros H. injection H as <-. apply (atob_throws s). exact E.
Qed.

(** What [decodeDataURI] does with and without a separator. *)
Lemma decodeDataURI_cases (uri : jsstring) :
  decodeDataURI uri
  = if includes uri (js ";base64,")
    then decodeBase64 (up_to_separator (after_first_separator uri))
    else Throw DataURINotBase64.
Proof.
  unfold decodeDataURI, split, includes, up_to_separator, after_first_separator,
    includes.
  change (js ";base64,") with (59 :: js "base64,").
  rewrite split_from_indexOf.
  pose proof (indexOf_lower uri (59 :: js "base64,")) as Hlow.
  destruct (indexOf uri (59 :: js "base64,") <? 0) eqn:Hi.
  - apply Z.ltb_lt in Hi.
    replace (0 <=? indexOf uri (59 :: js "base64,")) with false
      by (symmetry; apply Z.leb_gt; lia).
    reflexivity.
  - apply Z.ltb_ge in Hi.
    replace (0 <=? indexOf uri (59 :: js "base64,")) with true
      by (symmetry; apply Z.leb_le; lia).
    change (S (List.length (js "base64,"))) with 8%nat.
    rewrite split_from_indexOf.
    set (rest := skipn (Z.to_nat (indexOf uri (59 :: js "base64,")) + 8) uri).
    pose proof (indexOf_lower rest (59 :: js "base64,")) as Hlow'.
    destruct (indexOf rest (59 :: js "base64,") <? 0) eqn:Hr.
    + apply Z.ltb_lt in Hr.
      replace (0 <=? indexOf rest (59 :: js "base64,")) with false
        by (symmetry; apply Z.leb_gt; lia).
      reflexivity.
    + apply Z.ltb_ge in Hr.
      replace (0 <=? indexOf rest (59 :: js "base64,")) with true
        by (symmetry; apply Z.leb_le; lia).
      rewrite !zlength_cons.
      match goal with
      | |- context [zlength ?l + 1 + 1 <? 2] =>
          replace (zlength l + 1 + 1 <? 2) with false
            by (symmetry; apply Z.ltb_ge; pose proof (zlength_nonneg l); lia)
      end.
      reflexivity.
Qed.

(** C7, as stated, fails on a data URI with two separators: the source
    decodes the text between the first [;base64,] and the second, here
    [QQ==], and returns the byte 65, while the text after the first
    separator, [QQ==;base64,QQ==], is not base64. *)
Lemma decodeDataURI_counterexample :
  includes (js "data:;base64,QQ==;base64,QQ==") (js ";base64,") = true
  /\ decodeDataURI (js "data:;base64,QQ==;base64,QQ==") = Ok [65]
  /\ after_first_separator (js "data:;base64,QQ==;base64,QQ==")
     = js "QQ==;base64,QQ=="
  /\ decodeBase64 (js "QQ==;base64,QQ==") = Throw InvalidCharacterError.
Proof. repeat split. Qed.

(** C7, as amended: the data-URI decoder fails with the error "Data URI is
    not base64" if and only if the string does not contain [;base64,]; when
    it does, the decoder returns the base64 decoding (as [atob] does it) of
    the text between the first [;base64,] and the next one, or the end of
    the string when there is no other. *)
Theorem decodeDataURI_spec (uri : jsstring) :
  (decodeDataURI uri = Throw DataURINotBase64
   <-> includes uri (js ";base64,") = false)
  /\ (includes uri (js ";base64,") = true ->
      decodeDataURI uri
      = decodeBase64 (up_to_separator (after_first_separator uri))).
Proof.
  rewrite decodeDataURI_cases.
  destruct (includes uri (js ";base64,")); split; try easy.
  split; [|discriminate].
  intros H. apply decodeBase64_throws in H. discriminate.
Qed.

Lemma decodeDataURI_spec_witness :
  includes (js "data:application/zip;base64,SGVsbG8=") (js ";base64,") = true
  /\ decodeDataURI (js "data:application/zip;base64,SGVsbG8=")
     = Ok (js "Hello").
Proof.
  split; [reflexivity|].
  rewrite (proj2 (decodeDataURI_spec (js "data:application/zip;base64,SGVsbG8="))
             eq_refl).
  reflexivity.
Defined.

(** ** Regular expressions *)

Lemma nonempty_flat_map {A B : Type} (f : A -> list B) (l : list A) :
  nonempty (flat_map f l) = existsb (fun x => nonempty (f x)) l.
Proof.
  induction l as [|x l IH]; simpl; [reflexivity|].
  destruct (f x); simpl; [exact IH|reflexivity].
Qed.

Lemma existsb_map {A B : Type} (f : B -> bool) (g : A -> B) (l : list A) :
  existsb f (map g l) = existsb (fun x => f (g x)) l.
Proof. induction l; simpl; congruence. Qed.

Lemma in_counts_down (hi lo k : nat) :
  In k (counts_down hi lo) <-> (lo <= k <= hi)%nat.
Proof.
  unfold counts_down. rewrite <- in_rev, in_seq. lia.
Qed.

(** When only the longest run can be continued, the others do not count. *)
Lemma existsb_counts_down (f : nat -> bool) (hi lo : nat) :
  (lo <= hi)%nat ->
  (forall k, (lo <= k < hi)%nat -> f k = false) ->
  existsb f (counts_down hi lo) = f hi.
Proof.
  intros Hle Hlow. destruct (f hi) eqn:Hhi.
  - apply existsb_exists. exists hi. split; [|exact Hhi].
    apply in_counts_down. lia.
  - apply not_true_is_false. intros H. apply existsb_exists in H.
    destruct H as [k [Hin Hk]]. apply in_counts_down in Hin.
    destruct (Nat.eq_dec k hi) as [->|Hne]; [congruence|].
    rewrite Hlow in Hk by lia. discriminate.
Qed.

Lemma exec_from_Bol (r : regex) (n : nat) (s : jsstring) :
  exec_from (Seq Bol r) (S n) s = None.
Proof.
  revert n. induction s as [|c s IH]; intros n; simpl; auto.
Qed.

(** A pattern that begins with [^] matches at the beginning or nowhere. *)
Lemma regex_test_Bol (r : regex) (s : jsstring) :
  regex_test (Seq Bol r) s = nonempty (rmatch r (start s)).
Proof.
  unfold regex_test, regex_match, start.
  destruct s as [|c s]; simpl; rewrite app_nil_r;
    destruct (rmatch r _); try reflexivity.
  rewrite exec_from_Bol. reflexivity.
Qed.

Lemma rmatch_exactly (n : nat) (cs : charset) (st : mstate) :
  rmatch (exactly n cs) st
  = if (n <=? run_length cs (rest st))%nat then [advance st n] else [].
Proof.
  unfold exactly. cbn [rmatch].
  destruct (Nat.leb_spec n (run_length cs (rest st))) as [Hle|Hgt].
  - rewrite Nat.min_l by exact Hle. rewrite Nat.leb_refl.
    unfold counts_down. replace (S n - n)%nat with 1%nat by lia.
    reflexivity.
  - rewrite Nat.min_r by lia.
    destruct (Nat.leb_spec n (run_length cs (rest st))); [lia|reflexivity].
Qed.

Lemma nonempty_Seq_exactly (n : nat) (cs : charset) (r : regex) (st : mstate) :
  nonempty (rmatch (Seq (exactly n cs) r) st)
  = (n <=? run_length cs (rest st))%nat && nonempty (rmatch r (advance st n)).
Proof.
  cbn [rmatch]. rewrite rmatch_exactly.
  destruct (n <=? run_length cs (rest st))%nat; simpl; [|reflexivity].
  rewrite app_nil_r. reflexivity.
Qed.

Lemma nonempty_Eol (st : mstate) : nonempty (rmatch Eol st) = is_nil (rest st).
Proof. simpl. destruct (rest st); reflexivity. Qed.

Lemma nonempty_Seq_plus (cs : charset) (r : regex) (st : mstate) :
  nonempty (rmatch (Seq (plus cs) r) st)
  = (1 <=? run_length cs (rest st))%nat
    && existsb (fun k => nonempty (rmatch r (advance st k)))
         (counts_down (run_length cs (rest st)) 1).
Proof.
  cbn [rmatch plus]. rewrite nonempty_flat_map.
  destruct (1 <=? run_length cs (rest st))%nat; simpl; [|reflexivity].
  rewrite existsb_map. reflexivity.
Qed.

(** Runs of a character class. *)
Lemma run_length_le (cs : charset) (s : jsstring) :
  (run_length cs s <= List.length s)%nat.
Proof. induction s as [|c s IH]; simpl; [lia|]. destruct (cs c); lia. Qed.

Lemma run_length_ext (cs cs' : charset) (s : jsstring) :
  (forall c, cs c = cs' c) -> run_length cs s = run_length cs' s.
Proof.
  intros H. induction s as [|c s IH]; simpl; [reflexivity|].
  rewrite H, IH. reflexivity.
Qed.

Lemma run_length_ge (cs : charset) (n : nat) (s : jsstring) :
  (n <=? run_length cs s)%nat
  = (n <=? List.length s)%nat && forallb cs (firstn n s).
Proof.
  revert n. induction s as [|c s IH]; intros [|n]; simpl; try reflexivity.
  destruct (cs c); simpl.
  - change (S n <=? S ?m)%nat with (n <=? m)%nat. apply IH.
  - rewrite andb_false_r. reflexivity.
Qed.

(** Inside a run, the next character is of the class. *)
Lemma run_length_inside (cs : charset) (k : nat) (s : jsstring) :
  (k < run_length cs s)%nat ->
  exists c t, skipn k s = c :: t /\ cs c = true.
Proof.
  revert k. induction s as [|c s IH]; intros k; simpl; [lia|].
  destruct (cs c) eqn:Hc; [|lia].
  destruct k as [|k]; intros Hk.
  - exists c, s. split; [reflexivity|exact Hc].
  - simpl. apply IH. lia.
Qed.

(** A run ends at the end of the string or before a character that is not
    of the class. *)
Lemma run_length_all (cs : charset) (s : jsstring) :
  is_nil (skipn (run_length cs s) s) = forallb cs s.
Proof.
  induction s as [|c s IH]; simpl; [reflexivity|].
  destruct (cs c); simpl; [exact IH|reflexivity].
Qed.

(** ** The dispatch on the length header *)

(** [/^\d+$/] holds of the non-empty runs of decimal digits. *)
Lemma regex_test_decimal_header (h : jsstring) :
  regex_test re_decimal_header h = nonempty h && forallb is_digit h.
Proof.
  unfold re_decimal_header. rewrite regex_test_Bol, nonempty_Seq_plus.
  cbn [start rest].
  destruct (Nat.leb_spec 1 (run_length digit h)) as [Hle|Hlt].
  - rewrite existsb_counts_down.
    + rewrite nonempty_Eol. cbn [advance rest start]. rewrite run_length_all.
      destruct h as [|c h]; [simpl in Hle; lia|reflexivity].
    + exact Hle.
    + intros k Hk. rewrite nonempty_Eol. cbn [advance rest start].
      destruct (run_length_inside digit k h) as [c [t [-> _]]]; [lia|].
      reflexivity.
  - destruct h as [|c h]; [reflexivity|].
    simpl in Hlt. simpl. change (is_digit c) with (digit c).
    destruct (digit c); [lia|reflexivity].
Qed.

Lemma startsWith_single (c x : Z) (s : jsstring) :
  startsWith [c] (x :: s) = (c =? x).
Proof. simpl. apply andb_true_r. Qed.

(** The first occurrence of a character is after a prefix without it. *)
Lemma indexOf_single_app (c : Z) (h t : jsstring) :
  ~ In c h -> indexOf (h ++ c :: t) [c] = zlength h.
Proof.
  induction h as [|x h IH]; intros Hin.
  - simpl. rewrite Z.eqb_refl. reflexivity.
  - cbn [app]. rewrite indexOf_cons, startsWith_single.
    destruct (Z.eqb_spec c x) as [->|Hne]; [exfalso; apply Hin; left; reflexivity|].
    rewrite IH by (intros H; apply Hin; right; exact H).
    rewrite zlength_cons. pose proof (zlength_nonneg h).
    destruct (Z.ltb_spec (zlength h) 0); [lia|reflexivity].
Qed.

Lemma indexOf_single_split (c : Z) (s : jsstring) :
  0 <= indexOf s [c] ->
  s = firstn (Z.to_nat (indexOf s [c])) s
        ++ c :: skipn (S (Z.to_nat (indexOf s [c]))) s
  /\ ~ In c (firstn (Z.to_nat (indexOf s [c])) s)
  /\ indexOf s [c] <= zlength s.
Proof.
  induction s as [|x s IH].
  - simpl. lia.
  - rewrite indexOf_cons, startsWith_single.
    destruct (Z.eqb_spec c x) as [->|Hne].
    + intros _. simpl. rewrite zlength_cons. pose proof (zlength_nonneg s).
      split; [reflexivity|]. split; [tauto|lia].
    + pose proof (indexOf_lower s [c]) as Hlow.
      destruct (Z.ltb_spec (indexOf s [c]) 0) as [Hneg|Hpos]; [lia|].
      intros _. destruct (IH Hpos) as [Heq [Hnotin Hlen]].
      replace (Z.to_nat (indexOf s [c] + 1))
        with (S (Z.to_nat (indexOf s [c]))) by lia.
      cbn [firstn skipn app]. split; [f_equal; exact Heq|].
      split; [|rewrite zlength_cons; lia].
      intros [H|H]; [congruence|contradiction].
Qed.

Lemma substring_prefix (s : jsstring) (n : Z) :
  0 <= n <= zlength s -> substring s 0 n = firstn (Z.to_nat n) s.
Proof.
  intros Hn. unfold substring, clamp. pose proof (zlength_nonneg s).
  rewrite Z.max_id, (Z.min_l 0) by lia.
  rewrite Z.max_l, Z.min_l by lia.
  change (Z.to_nat 0) with 0%nat.
  rewrite Nat.min_0_l, Nat.max_0_l, Nat.sub_0_r. reflexivity.
Qed.

Lemma substring_app (h t : jsstring) :
  substring (h ++ t) 0 (zlength h) = h.
Proof.
  rewrite substring_prefix.
  - unfold zlength. rewrite Nat2Z.id, firstn_app, Nat.sub_diag, firstn_all.
    simpl. apply app_nil_r.
  - rewrite zlength_app. pose proof (zlength_nonneg h).
    pose proof (zlength_nonneg t). lia.
Qed.

(** The header of version 3 is read with each code moved down by 49. *)
Lemma decode_3_header_map (str : jsstring) :
  decode_3_header str
  = map (fun c => fromCharCode (c - 49))
      (substring str 0 (indexOf str (js ","))).
Proof.
  unfold decode_3_header, join, split_chars.
  induction (substring str 0 (indexOf str (js ","))) as [|c h IH];
    simpl; [reflexivity|].
  f_equal. exact IH.
Qed.

(** C5: on a string with a comma-terminated header, that is a header
    followed by a comma and a payload, [decodeBase85WithLengthHeader] runs
    version 1 when the header is a (non-empty) run of decimal digits and the
    string has no backslash, version 2 when the header is such a run and the
    string has a backslash anywhere, and version 3 when the header is not
    such a run; version 3 reads its header with each character code
    decremented by 49. *)
Theorem decodeBase85WithLengthHeader_dispatch (host : Host) (str : jsstring) :
  includes str (js ",") = true ->
  let header := substring str 0 (indexOf str (js ",")) in
  let decimal_header := nonempty header && forallb is_digit header in
  (exists payload, str = header ++ js "," ++ payload /\ ~ In 44 header)
  /\ (decimal_header = true -> includes str [92] = false ->
      decodeBase85WithLengthHeader host str = decode_1 host str)
  /\ (decimal_header = true -> includes str [92] = true ->
      decodeBase85WithLengthHeader host str = decode_2 host str)
  /\ (decimal_header = false ->
      decodeBase85WithLengthHeader host str = decode_3 host str)
  /\ decode_3_header str = map (fun c => fromCharCode (c - 49)) header.
Proof.
  intros Hcomma header decimal_header.
  unfold includes in Hcomma. apply Z.leb_le in Hcomma.
  change (js ",") with [44] in Hcomma.
  destruct (indexOf_single_split 44 str Hcomma) as [Hsplit [Hnotin Hlen]].
  assert (Hheader : header = firstn (Z.to_nat (indexOf str [44])) str).
  { unfold header. change (js ",") with [44]. apply substring_prefix. lia. }
  split.
  { exists (skipn (S (Z.to_nat (indexOf str [44]))) str).
    rewrite Hheader. split; [exact Hsplit|exact Hnotin]. }
  unfold decodeBase85WithLengthHeader.
  fold header. rewrite regex_test_decimal_header. fold decimal_header.
  split; [intros -> ->; reflexivity|].
  split; [intros -> ->; reflexivity|].
  split; [intros ->; reflexivity|].
  apply decode_3_header_map.
Qed.

Lemma decodeBase85WithLengthHeader_dispatch_witness :
  decodeBase85WithLengthHeader exampleHost (js "5,Zb)qKC*)))")
  = decode_1 exampleHost (js "5,Zb)qKC*)))")
  /\ decodeBase85WithLengthHeader exampleHost (js "1,\****")
     = decode_2 exampleHost (js "1,\****")
  /\ decodeBase85WithLengthHeader exampleHost (js "f,[c*rLD+***")
     = decode_3 exampleHost (js "f,[c*rLD+***").
Proof.
  split; [|split].
  - apply (decodeBase85WithLengthHeader_dispatch exampleHost
             (js "5,Zb)qKC*)))") eq_refl); reflexivity.
  - apply (decodeBase85WithLengthHeader_dispatch exampleHost
             (js "1,\****") eq_refl); reflexivity.
  - apply (decodeBase85WithLengthHeader_dispatch exampleHost
             (js "f,[c*rLD+***") eq_refl); reflexivity.
Defined.

(** ** The names of assets *)

Ltac decide_cmp :=
  repeat match goal with
    | |- context [?a <=? ?b] =>
        first [ replace (a <=? b) with true by (symmetry; apply Z.leb_le; lia)
              | replace (a <=? b) with false by (symmetry; apply Z.leb_gt; lia) ]
    | |- context [?a =? ?b] =>
        first [ replace (a =? b) with true by (symmetry; apply Z.eqb_eq; lia)
              | replace (a =? b) with false by (symmetry; apply Z.eqb_neq; lia) ]
    end.

(** Splits on where [c] lies among the digits, the letters and the dot. *)
Ltac charset_cases c :=
  assert (c < 46 \/ c = 46 \/ 46 < c < 48 \/ 48 <= c <= 57 \/ 57 < c < 65
          \/ 65 <= c <= 70 \/ 70 < c <= 90 \/ 90 < c < 97 \/ 97 <= c <= 102
          \/ 102 < c <= 122 \/ 122 < c) as Hcases by lia;
  repeat (destruct Hcases as [Hcases|Hcases]);
  repeat (decide_cmp; cbn [andb orb negb]); reflexivity.

Lemma ignoreCase_hex (c : Z) :
  ignoreCase (union (range "a" "f") (range "0" "9")) c = is_hex c.
Proof.
  unfold ignoreCase, union, range, toUpper, toLower, is_hex, is_lower_hex,
    is_digit, code. simpl N_of_ascii. simpl Z.of_N.
  charset_cases c.
Qed.

Lemma ignoreCase_alnum (c : Z) :
  ignoreCase (union (range "a" "z") (range "0" "9")) c = is_alnum c.
Proof.
  unfold ignoreCase, union, range, toUpper, toLower, is_alnum, is_digit, code.
  simpl N_of_ascii. simpl Z.of_N.
  charset_cases c.
Qed.

Lemma ignoreCase_digit (c : Z) : ignoreCase (range "0" "9") c = is_digit c.
Proof.
  unfold ignoreCase, range, toUpper, toLower, is_digit, code.
  simpl N_of_ascii. simpl Z.of_N.
  charset_cases c.
Qed.

Lemma ignoreCase_dot (c : Z) : ignoreCase (is_char 46) c = (c =? 46).
Proof.
  unfold ignoreCase, is_char, toUpper, toLower.
  charset_cases c.
Qed.

Lemma is_digit_not_dot (c : Z) : is_digit c = true -> (c =? 46) = false.
Proof.
  unfold is_digit. intros H. apply andb_true_iff in H. destruct H as [H _].
  apply Z.leb_le in H. apply Z.eqb_neq. lia.
Qed.

Lemma nth_hd_skipn {A : Type} (n : nat) (s : list A) (d : A) :
  nth n s d = hd d (skipn n s).
Proof.
  revert s. induction n as [|n IH]; intros [|x s]; simpl; auto.
Qed.

Lemma skipn_S_tl {A : Type} (n : nat) (s : list A) :
  skipn (S n) s = tl (skipn n s).
Proof.
  revert s. induction n as [|n IH]; intros [|x s]; try reflexivity.
  change (skipn (S (S n)) (x :: s)) with (skipn (S n) s).
  change (skipn (S n) (x :: s)) with (skipn n s). apply IH.
Qed.

(** [has_shape], read from the dot on. *)
Lemma has_shape_dot_ext (stem ext : charset) (n : nat) (s : jsstring) :
  has_shape stem ext n s
  = (n <=? List.length s)%nat && forallb stem (firstn n s)
    && dot_ext ext (skipn n s).
Proof.
  unfold has_shape. rewrite nth_hd_skipn, skipn_S_tl.
  pose proof (length_skipn n s) as Hlen.
  destruct (Nat.leb_spec n (List.length s)) as [Hle|Hgt].
  - replace (List.length s =? n + 4)%nat
      with (List.length (skipn n s) =? 4)%nat
      by (rewrite Hlen; destruct (Nat.eqb_spec (List.length s - n) 4);
          destruct (Nat.eqb_spec (List.length s) (n + 4)); lia || reflexivity).
    destruct (forallb stem (firstn n s)); [|rewrite andb_false_r; reflexivity].
    destruct (skipn n s) as [|c [|e1 [|e2 [|e3 [|e4 t]]]]]; try reflexivity.
    simpl. destruct (c =? 46), (ext e1), (ext e2), (ext e3); reflexivity.
  - replace (List.length s =? n + 4)%nat with false
      by (symmetry; apply Nat.eqb_neq; lia).
    reflexivity.
Qed.

(** [\.[a-z0-9]{3}$] with the [i] flag, at any position. *)
Lemma nonempty_dot_ext (st : mstate) :
  nonempty
    (rmatch
       (Seq (one (ignoreCase (is_char 46)))
          (Seq (exactly 3 (ignoreCase (union (range "a" "z") (range "0" "9"))))
             Eol)) st)
  = dot_ext is_alnum (rest st).
Proof.
  change (one ?cs) with (exactly 1 cs).
  rewrite !nonempty_Seq_exactly, nonempty_Eol. cbn [advance rest].
  rewrite (run_length_ext _ _ _ ignoreCase_dot),
    (run_length_ext _ _ _ ignoreCase_alnum).
  destruct (rest st) as [|c [|e1 [|e2 [|e3 [|e4 t]]]]];
    cbn [run_length skipn dot_ext];
    repeat match goal with
      | |- context [if ?b then _ else _] => destruct b
      end; reflexivity.
Qed.

(** Line 295: the pattern of an sb3 asset is the sb3 shape. *)
Lemma regex_test_sb3_asset (s : jsstring) :
  regex_test re_sb3_asset s = sb3_shape s.
Proof.
  unfold re_sb3_asset, sb3_shape.
  rewrite regex_test_Bol, nonempty_Seq_exactly, nonempty_dot_ext.
  cbn [advance rest start].
  rewrite (run_length_ext _ _ _ ignoreCase_hex), run_length_ge.
  rewrite has_shape_dot_ext. reflexivity.
Qed.

Lemma run_length_upper (cs : charset) (m : nat) (s : jsstring) (c : Z)
  (t : jsstring) :
  skipn m s = c :: t -> cs c = false -> (run_length cs s <= m)%nat.
Proof.
  intros Hskip Hc.
  destruct (Nat.le_gt_cases (run_length cs s) m) as [Hle|Hgt]; [exact Hle|].
  destruct (run_length_inside cs m s Hgt) as [c' [t' [Hskip' Hc']]].
  congruence.
Qed.

Lemma dot_ext_inv (ext : charset) (t : jsstring) :
  dot_ext ext t = true -> exists e, t = 46 :: e /\ List.length t = 4%nat.
Proof.
  destruct t as [|c [|e1 [|e2 [|e3 [|e4 t]]]]]; try discriminate.
  simpl. intros H. repeat (apply andb_true_iff in H; destruct H as [H ?]).
  apply Z.eqb_eq in H. subst c. eexists. split; reflexivity.
Qed.

(** Line 298: the pattern of an sb2 asset is the sb2 shape. *)
Lemma regex_test_sb2_asset (s : jsstring) :
  regex_test re_sb2_asset s = sb2_shape s.
Proof.
  unfold re_sb2_asset, sb2_shape.
  rewrite regex_test_Bol, nonempty_Seq_plus. cbn [start rest].
  rewrite (run_length_ext _ _ _ ignoreCase_digit).
  set (a := run_length is_digit s).
  rewrite has_shape_dot_ext.
  assert (Hrun : existsb
            (fun k => nonempty
               (rmatch
                  (Seq (one (ignoreCase (is_char 46)))
                     (Seq (exactly 3 (ignoreCase (union (range "a" "z")
                                                    (range "0" "9"))))
                        Eol))
                  (advance (start s) k)))
            (counts_down a 1)
          = (1 <=? a)%nat && dot_ext is_alnum (skipn a s)).
  { destruct (Nat.leb_spec 1 a) as [Hle|Hlt].
    - rewrite existsb_counts_down.
      + rewrite nonempty_dot_ext. reflexivity.
      + exact Hle.
      + intros k Hk. rewrite nonempty_dot_ext. cbn [advance rest start].
        destruct (run_length_inside is_digit k s) as [c [t [-> Hc]]];
          [unfold a in Hk; lia|].
        destruct t as [|e1 [|e2 [|e3 [|e4 t]]]]; try reflexivity.
        simpl. rewrite (is_digit_not_dot c Hc). reflexivity.
    - replace a with 0%nat by lia. reflexivity. }
  rewrite Hrun. clear Hrun.
  apply eq_true_iff_eq. rewrite !andb_true_iff, !Nat.leb_le. split.
  - intros [Ha [_ Hdot]].
    destruct (dot_ext_inv _ _ Hdot) as [e [Heq Hlen]].
    rewrite length_skipn in Hlen.
    assert (Hm : (List.length s - 4 = a)%nat) by lia.
    rewrite Hm. split; [lia|]. split; [split; [lia|]|exact Hdot].
    pose proof (run_length_ge is_digit a s) as Hge. fold a in Hge.
    rewrite Nat.leb_refl in Hge. symmetry in Hge.
    apply andb_true_iff in Hge. tauto.
  - intros [Hlen [[_ Hstem] Hdot]].
    set (m := (List.length s - 4)%nat) in *.
    destruct (dot_ext_inv _ _ Hdot) as [e [Heq _]].
    assert (Hle : (a <= m)%nat).
    { apply (run_length_upper is_digit m s 46 e Heq). reflexivity. }
    assert (Hge : (m <= a)%nat).
    { apply Nat.leb_le. unfold a. rewrite run_length_ge, Hstem.
      rewrite andb_true_r. apply Nat.leb_le. lia. }
    replace a with m by lia. split; [lia|]. split; [lia|exact Hdot].
Qed.

(** The test of lines 293-303, in terms of the shapes. *)
Lemma classify_shapes (path : jsstring) :
  classify path
  = if jseqb path (js "project.json") then ProjectJSON
    else if sb3_shape path then Sb3Asset
    else if sb2_shape path then Sb2Asset
    else Extra.
Proof.
  unfold classify. rewrite regex_test_sb3_asset, regex_test_sb2_asset.
  reflexivity.
Qed.

Lemma is_class_sb3 (path : jsstring) : is_class Sb3Asset path = sb3_shape path.
Proof.
  unfold is_class. rewrite classify_shapes.
  destruct (jseqb path (js "project.json")) eqn:E.
  - apply jseqb_eq in E. subst path. reflexivity.
  - destruct (sb3_shape path), (sb2_shape path); reflexivity.
Qed.

Lemma is_class_sb2 (path : jsstring) :
  is_class Sb2Asset path = sb2_shape path && negb (sb3_shape path).
Proof.
  unfold is_class. rewrite classify_shapes.
  destruct (jseqb path (js "project.json")) eqn:E.
  - apply jseqb_eq in E. subst path. reflexivity.
  - destruct (sb3_shape path), (sb2_shape path); reflexivity.
Qed.

Lemma is_class_iff (c : entry_class) (path : jsstring) :
  classify path = c <-> is_class c path = true.
Proof.
  unfold is_class. destruct (classify path), c; simpl; split;
    congruence || discriminate.
Qed.

(** C3, as stated, fails: a name of 32 hexadecimal digits in uppercase with
    a three-letter extension is counted as an sb3 asset (line 295 has the [i]
    flag), although it is not 32 lowercase hexadecimal digits. *)
Lemma classify_uppercase_counterexample :
  classify (js "A1B2C3D4E5F6A1B2C3D4E5F6A1B2C3D4.png") = Sb3Asset
  /\ sb3_shape_lowercase (js "A1B2C3D4E5F6A1B2C3D4E5F6A1B2C3D4.png") = false.
Proof. split; reflexivity. Qed.

(** C3, as amended: a name counts as an sb3 asset exactly when it is 32
    hexadecimal digits, lowercase or uppercase, followed by a dot and three
    letters or digits; it counts as an sb2 asset exactly when it is one or
    more decimal digits followed by a dot and three letters or digits, and
    is not of the sb3 shape (a name of 32 decimal digits is an sb3 asset). *)
Theorem classify_spec (path : jsstring) :
  (classify path = Sb3Asset <-> sb3_shape path = true)
  /\ (classify path = Sb2Asset
      <-> sb2_shape path = true /\ sb3_shape path = false).
Proof.
  rewrite !is_class_iff, is_class_sb3, is_class_sb2, andb_true_iff,
    negb_true_iff.
  split; reflexivity.
Qed.

(** ** The tag of a project found beside its assets *)

Lemma scan_path_counts (host : Host) (s : scan) (path : jsstring) :
  sb3Assets (scan_path host s path)
  = sb3Assets s + (if is_class Sb3Asset path then 1 else 0)
  /\ sb2Assets (scan_path host s path)
     = sb2Assets s + (if is_class Sb2Asset path then 1 else 0).
Proof.
  unfold scan_path, is_class. destruct (classify path); simpl; lia.
Qed.

Lemma count_cons (p : jsstring -> bool) (x : jsstring) (l : list jsstring) :
  count p (x :: l) = (if p x then 1 else 0) + count p l.
Proof.
  unfold count. simpl. destruct (p x); [rewrite zlength_cons|]; lia.
Qed.

Lemma fold_scan_counts (host : Host) (names : list jsstring) (s : scan) :
  sb3Assets (fold_left (scan_path host) names s)
  = sb3Assets s + count (is_class Sb3Asset) names
  /\ sb2Assets (fold_left (scan_path host) names s)
     = sb2Assets s + count (is_class Sb2Asset) names.
Proof.
  revert s. induction names as [|path names IH]; intros s.
  - unfold count, zlength. simpl. lia.
  - cbn [fold_left]. destruct (IH (scan_path host s path)) as [H3 H2].
    destruct (scan_path_counts host s path) as [S3 S2].
    rewrite H3, H2, S3, S2, !count_cons. lia.
Qed.

Lemma count_ext (p q : jsstring -> bool) (l : list jsstring) :
  (forall x, In x l -> p x = q x) -> count p l = count q l.
Proof.
  intros H. unfold count. f_equal. apply filter_ext_in. exact H.
Qed.

Lemma count_zero (p : jsstring -> bool) (l : list jsstring) :
  count p l = 0 -> forall x, In x l -> p x = false.
Proof.
  induction l as [|y l IH]; intros Hc x Hin; [contradiction|].
  rewrite count_cons in Hc.
  assert (0 <= count p l) by apply zlength_nonneg.
  destruct (p y) eqn:Hy; [lia|].
  destruct Hin as [->|Hin]; [exact Hy|]. apply IH; [lia|exact Hin].
Qed.

(** The test of line 310 in terms of the shapes of the names. *)
Lemma tag_by_shapes (host : Host) (zip : JSZip) :
  let s := scan_assets host zip in
  (sb2Assets s >? 0) && (sb3Assets s =? 0)
  = (1 <=? count sb2_shape (keys zip)) && (count sb3_shape (keys zip) =? 0).
Proof.
  unfold scan_assets. cbv zeta.
  destruct (fold_scan_counts host (keys zip)
              {| sb3Assets := 0; sb2Assets := 0; innerZip := zip |})
    as [H3 H2].
  rewrite H3, H2. cbn [sb3Assets sb2Assets]. rewrite !Z.add_0_l.
  rewrite (count_ext (is_class Sb3Asset) sb3_shape)
    by (intros; apply is_class_sb3).
  destruct (Z.eqb_spec (count sb3_shape (keys zip)) 0) as [Hz|Hnz].
  - rewrite (count_ext (is_class Sb2Asset) sb2_shape).
    + rewrite !andb_true_r. rewrite Z.gtb_ltb.
      destruct (Z.ltb_spec 0 (count sb2_shape (keys zip)));
        destruct (Z.leb_spec 1 (count sb2_shape (keys zip)));
        lia || reflexivity.
    + intros x Hin. rewrite is_class_sb2, (count_zero _ _ Hz x Hin).
      apply andb_true_r.
  - rewrite !andb_false_r. reflexivity.
Qed.

(** C4 fails on an archive whose project lies in a folder.  The archive has
    the entries foo/project.json and foo/42.svg.  The view of the folder foo
    has one asset name of the sb2 shape, 42.svg, and none of the sb3 shape;
    but the loop of lines 292-304 tests the keys of [innerZip.files], which
    are the full names foo/project.json, foo/42.svg and foo/, counts no asset
    at all, and the tag is sb3. *)
Theorem unpackage_tag_project_in_folder :
  exists zip projectJSON data,
    loadAsync exampleHost example_project_in_folder = Some zip
    /\ findFileInZip zip (js "project.json") = Some projectJSON
    /\ relative_names
         (folder exampleHost zip (getContainingFolder (name projectJSON)))
       = [js "project.json"; js "42.svg"]
    /\ count sb2_shape
         (relative_names
            (folder exampleHost zip (getContainingFolder (name projectJSON))))
       = 1
    /\ count sb3_shape
         (relative_names
            (folder exampleHost zip (getContainingFolder (name projectJSON))))
       = 0
    /\ keys (folder exampleHost zip (getContainingFolder (name projectJSON)))
       = [js "foo/project.json"; js "foo/42.svg"; js "foo/"]
    /\ unpackage exampleHost example_project_in_folder
       = Ok {| type := sb3; data := data |}.
Proof.
  eexists. eexists. eexists.
  split; [reflexivity|]. split; [reflexivity|]. split; [reflexivity|].
  split; [reflexivity|]. split; [reflexivity|]. split; reflexivity.
Qed.

(** The tie-break on the three archives of the specification. *)
Example unpackage_tag_one_of_each :
  option_map type
    (match unpackage exampleHost
             (example_archive
                [example_entry "project.json" (js "{}");
                 example_entry "42.svg" [1];
                 example_entry "a1b2c3d4e5f6a1b2c3d4e5f6a1b2c3d4.png" [2]])
     with Ok p => Some p | Throw _ => None end)
  = Some sb3.
Proof. reflexivity. Qed.

Example unpackage_tag_no_asset :
  option_map type
    (match unpackage exampleHost
             (example_archive [example_entry "project.json" (js "{}")])
     with Ok p => Some p | Throw _ => None end)
  = Some sb3.
Proof. reflexivity. Qed.

(** ** The base-85 decoders *)

Lemma le32_mod (w : Z) : le32 (w mod 4294967296) = le32 w.
Proof.
  unfold le32.
  rewrite (Z.div_mod w 4294967296) at 5 6 7 8 by lia.
  set (m := w mod 4294967296). set (q := w / 4294967296).
  replace (4294967296 * q + m) with (m + (q * 16777216) * 256) at 1 by ring.
  replace (4294967296 * q + m) with (m + (q * 16777216) * 256) at 1 by ring.
  replace (4294967296 * q + m) with (m + (q * 65536) * 65536) at 1 by ring.
  replace (4294967296 * q + m) with (m + (q * 256) * 16777216) by ring.
  rewrite !Z_div_plus_full by lia.
  replace (m / 256 + q * 16777216) with (m / 256 + (q * 65536) * 256) by ring.
  replace (m / 65536 + q * 65536) with (m / 65536 + (q * 256) * 256) by ring.
  rewrite !Z_mod_plus_full. reflexivity.
Qed.

Lemma zlength_repeat {A : Type} (x : A) (n : nat) :
  zlength (repeat x n) = Z.of_nat n.
Proof. unfold zlength. rewrite repeat_length. reflexivity. Qed.

Lemma firstn_zlength_app {A : Type} (l1 l2 : list A) :
  firstn (Z.to_nat (zlength l1)) (l1 ++ l2) = l1.
Proof.
  unfold zlength. rewrite Nat2Z.id, firstn_app, Nat.sub_diag, firstn_all.
  simpl. apply app_nil_r.
Qed.

Lemma skipn_zlength_app {A : Type} (l1 l2 : list A) (k : nat) :
  skipn (Z.to_nat (zlength l1) + k) (l1 ++ l2) = skipn k l2.
Proof.
  unfold zlength. rewrite Nat2Z.id, skipn_app.
  rewrite skipn_all2 by lia.
  replace (List.length l1 + k - List.length l1)%nat with k by lia.
  reflexivity.
Qed.

(** One write of the loop, into a buffer that is zero from [j] on. *)
Lemma setUint32_zeros (pre : bytes) (r : nat) (viewLength : Z) (w : Z) :
  zlength pre + 4 <= viewLength ->
  setUint32 (pre ++ repeat 0 (4 + r)) viewLength (zlength pre) (Some w)
  = Ok ((pre ++ le32 w) ++ repeat 0 r).
Proof.
  intros Hview. unfold setUint32. pose proof (zlength_nonneg pre).
  replace (zlength pre <? 0) with false by (symmetry; apply Z.ltb_ge; lia).
  replace (viewLength <? zlength pre + 4) with false
    by (symmetry; apply Z.ltb_ge; lia).
  cbn [orb]. rewrite le32_mod, firstn_zlength_app, skipn_zlength_app.
  rewrite <- app_assoc. reflexivity.
Qed.

(** The value of a group of five digits. *)
Lemma group_value_words (getValue : option Z -> option Z) (value : Z -> Z)
  (codeAt : Z -> option Z) (i c0 c1 c2 c3 c4 : Z) :
  (forall c, getValue (Some c) = Some (value c)) ->
  codeAt i = Some c0 -> codeAt (i + 1) = Some c1 -> codeAt (i + 2) = Some c2 ->
  codeAt (i + 3) = Some c3 -> codeAt (i + 4) = Some c4 ->
  group_value getValue codeAt i
  = Some (value c4 * 85 ^ 4 + value c3 * 85 ^ 3 + value c2 * 85 ^ 2
          + value c1 * 85 + value c0).
Proof.
  intros Hv H0 H1 H2 H3 H4. unfold group_value.
  rewrite H0, H1, H2, H3, H4, !Hv. cbn [nadd nmul option_map].
  f_equal. ring.
Qed.

(** The loop on a payload of [n] groups writes their words one after the
    other. *)
Lemma chunkLoop_words (getValue : option Z -> option Z) (value : Z -> Z)
  (codeAt : Z -> option Z) (length viewLength : Z) :
  (forall c, getValue (Some c) = Some (value c)) ->
  forall (n : nat) (p : jsstring) (fuel : nat) (i : Z) (pre : bytes),
    List.length p = (5 * n)%nat ->
    (forall t, (t < List.length p)%nat ->
               codeAt (i + Z.of_nat t) = nth_error p t) ->
    length = i + zlength p ->
    zlength pre + 4 * Z.of_nat n <= viewLength ->
    (n < fuel)%nat ->
    chunkLoop fuel getValue codeAt length viewLength i (zlength pre)
      (pre ++ repeat 0 (4 * n))
    = Ok (pre ++ flat_map le32 (words value p)).
Proof.
  intros Hv. induction n as [|n IH]; intros p fuel i pre Hlen Hcode Hl Hview Hfuel.
  - destruct p; [|discriminate]. destruct fuel as [|fuel]; [lia|].
    cbn [chunkLoop]. rewrite Hl. unfold zlength. simpl.
    replace (i <? i + 0) with false by (symmetry; apply Z.ltb_ge; lia).
    reflexivity.
  - destruct p as [|c0 [|c1 [|c2 [|c3 [|c4 p]]]]]; try (simpl in Hlen; lia).
    destruct fuel as [|fuel]; [lia|]. cbn [chunkLoop].
    assert (Hp : zlength (c0 :: c1 :: c2 :: c3 :: c4 :: p) = zlength p + 5)
      by (rewrite !zlength_cons; lia).
    pose proof (zlength_nonneg p).
    replace (i <? length) with true by (symmetry; apply Z.ltb_lt; lia).
    rewrite (group_value_words getValue value codeAt i c0 c1 c2 c3 c4 Hv).
    + replace (4 * S n)%nat with (4 + 4 * n)%nat by lia.
      rewrite setUint32_zeros by lia. cbn [bind].
      match goal with
      | |- context [(pre ++ le32 ?w) ++ _] =>
          replace (zlength pre + 4) with (zlength (pre ++ le32 w))
            by (rewrite zlength_app; reflexivity)
      end.
      rewrite (IH p).
      * cbn [words flat_map]. rewrite <- !app_assoc. reflexivity.
      * simpl in Hlen. lia.
      * intros t Ht. replace (i + 5 + Z.of_nat t) with (i + Z.of_nat (5 + t))
          by lia.
        rewrite Hcode by (simpl in *; lia). reflexivity.
      * lia.
      * rewrite zlength_app. change (zlength (le32 _)) with 4. lia.
      * lia.
    + generalize (Hcode 0%nat ltac:(simpl; lia)). simpl.
      rewrite Z.add_0_r. auto.
    + exact (Hcode 1%nat ltac:(simpl; lia)).
    + exact (Hcode 2%nat ltac:(simpl; lia)).
    + exact (Hcode 3%nat ltac:(simpl; lia)).
    + exact (Hcode 4%nat ltac:(simpl; lia)).
Qed.

Lemma stringToBytes_ascii (s : jsstring) :
  forallb (fun c => (0 <=? c) && (c <? 128)) s = true -> stringToBytes s = s.
Proof.
  induction s as [|c s IH]; [reflexivity|].
  cbn [forallb]. intros H. apply andb_true_iff in H. destruct H as [Hc Hs].
  apply andb_true_iff in Hc. destruct Hc as [H0 H1].
  apply Z.leb_le in H0. apply Z.ltb_lt in H1.
  cbn [stringToBytes]. unfold is_high_surrogate, is_low_surrogate.
  replace (0xD800 <=? c) with false by (symmetry; apply Z.leb_gt; lia).
  replace (0xDC00 <=? c) with false by (symmetry; apply Z.leb_gt; lia).
  cbn [andb]. unfold utf8_of_scalar.
  replace (c <? 0x80) with true by (symmetry; apply Z.ltb_lt; lia).
  cbn [app]. rewrite IH by exact Hs. reflexivity.
Qed.

Lemma toMultipleOfFour_spec (L : Z) :
  0 <= L ->
  toMultipleOfFour L = 4 * (toMultipleOfFour L / 4)
  /\ L <= toMultipleOfFour L
  /\ - ((- L) / 4) * 4 = toMultipleOfFour L.
Proof.
  intros HL. unfold toMultipleOfFour.
  rewrite Z.rem_mod_nonneg by lia.
  destruct (Z.eqb_spec (L mod 4) 0) as [H0|H0].
  - repeat split; Z.to_euclidean_division_equations; lia.
  - repeat split; Z.to_euclidean_division_equations; lia.
Qed.

Lemma ArrayBuffer_ok (max n : Z) :
  0 <= n <= max -> ArrayBuffer max n = Ok (repeat 0 (Z.to_nat n)).
Proof.
  intros H. unfold ArrayBuffer.
  replace (n <? 0) with false by (symmetry; apply Z.ltb_ge; lia).
  replace (max <? n) with false by (symmetry; apply Z.ltb_ge; lia).
  reflexivity.
Qed.

Lemma Uint8Array_ok (buf : bytes) (n : Z) :
  0 <= n <= zlength buf -> Uint8Array buf n = Ok (firstn (Z.to_nat n) buf).
Proof.
  intros H. unfold Uint8Array.
  replace (n <? 0) with false by (symmetry; apply Z.ltb_ge; lia).
  replace (zlength buf <? n) with false by (symmetry; apply Z.ltb_ge; lia).
  reflexivity.
Qed.

Lemma length_words (value : Z -> Z) (n : nat) (p : jsstring) :
  List.length p = (5 * n)%nat -> List.length (words value p) = n.
Proof.
  revert p. induction n as [|n IH]; intros p Hlen.
  - destruct p; [reflexivity|discriminate].
  - destruct p as [|c0 [|c1 [|c2 [|c3 [|c4 p]]]]]; try (simpl in Hlen; lia).
    cbn [words List.length]. f_equal. apply IH. simpl in Hlen. lia.
Qed.

Lemma length_flat_map_le32 (ws : list Z) :
  List.length (flat_map le32 ws) = (4 * List.length ws)%nat.
Proof. induction ws as [|w ws IH]; simpl; lia. Qed.

(** The loop of a decoder on a whole payload, from an all-zero buffer. *)
Lemma chunkLoop_payload (getValue : option Z -> option Z) (value : Z -> Z)
  (codeAt : Z -> option Z) (length viewLength i : Z) (fuel n : nat)
  (p : jsstring) :
  (forall c, getValue (Some c) = Some (value c)) ->
  List.length p = (5 * n)%nat ->
  (forall t, (t < List.length p)%nat ->
             codeAt (i + Z.of_nat t) = nth_error p t) ->
  length = i + zlength p ->
  4 * Z.of_nat n <= viewLength ->
  (n < fuel)%nat ->
  chunkLoop fuel getValue codeAt length viewLength i 0 (repeat 0 (4 * n))
  = Ok (flat_map le32 (words value p)).
Proof.
  intros Hv Hlen Hcode Hl Hview Hfuel.
  apply (chunkLoop_words getValue value codeAt length viewLength Hv n p fuel i []);
    assumption.
Qed.

Lemma nth_error_payload (header payload : jsstring) (t : nat) :
  nth_error (header ++ 44 :: payload) (Z.to_nat (zlength header + 1 + Z.of_nat t))
  = nth_error payload t.
Proof.
  unfold zlength.
  replace (Z.to_nat (Z.of_nat (List.length header) + 1 + Z.of_nat t))
    with (List.length header + S t)%nat by lia.
  rewrite nth_error_app2 by lia.
  replace (List.length header + S t - List.length header)%nat with (S t) by lia.
  reflexivity.
Qed.

Lemma charCodeAt_payload (header payload : jsstring) (t : nat) :
  charCodeAt (header ++ 44 :: payload) (zlength header + 1 + Z.of_nat t)
  = nth_error payload t.
Proof.
  unfold charCodeAt. pose proof (zlength_nonneg header).
  replace (_ <? 0) with false by (symmetry; apply Z.ltb_ge; lia).
  apply nth_error_payload.
Qed.

Lemma getValue_digit_value (v : variant) (c : Z) :
  match v with
  | v1 => decode_1_getValue (Some c)
  | v2 => decode_2_getValue (Some c)
  | v3 => decode_3_getValue (Some c)
  | v4 => getBase85DecodeValue (Some c)
  end = Some (digit_value v c).
Proof.
  destruct v; unfold decode_1_getValue, decode_2_getValue, decode_3_getValue,
    getBase85DecodeValue, digit_value, is_code, nsub, option_map;
    cbn [is_code].
  - destruct (c =? 126); reflexivity.
  - destruct (Z.eqb_spec c 40) as [->|H]; [reflexivity|].
    destruct (c =? 41); reflexivity.
  - destruct (Z.eqb_spec c 40) as [->|H]; [reflexivity|].
    destruct (c =? 41); reflexivity.
  - destruct (Z.eqb_spec c 40) as [->|H]; [reflexivity|].
    destruct (c =? 41); reflexivity.
Qed.

Lemma is_base85_digit_ascii (v : variant) (p : jsstring) :
  forallb (is_base85_digit v) p = true ->
  forallb (fun c => (0 <=? c) && (c <? 128)) p = true.
Proof.
  induction p as [|c p IH]; [reflexivity|]. cbn [forallb].
  intros H. apply andb_true_iff in H. destruct H as [Hc Hp].
  rewrite IH by exact Hp. unfold is_base85_digit in Hc.
  repeat (apply andb_true_iff in Hc; destruct Hc as [Hc ?]).
  rewrite Hc. rewrite andb_true_r. assumption.
Qed.

Lemma is_digit_ascii (h : jsstring) :
  forallb is_digit h = true ->
  forallb (fun c => (0 <=? c) && (c <? 128)) h = true /\ ~ In 44 h.
Proof.
  induction h as [|c h IH]; [simpl; tauto|]. cbn [forallb].
  intros H. apply andb_true_iff in H. destruct H as [Hc Hh].
  destruct (IH Hh) as [IH1 IH2]. rewrite IH1.
  unfold is_digit in Hc. apply andb_true_iff in Hc. destruct Hc as [H0 H1].
  apply Z.leb_le in H0. apply Z.leb_le in H1. split.
  - replace (0 <=? c) with true by (symmetry; apply Z.leb_le; lia).
    replace (c <? 128) with true by (symmetry; apply Z.ltb_lt; lia).
    reflexivity.
  - intros [Heq|Hin]; [lia|contradiction].
Qed.

Lemma drop_while_digits (h : jsstring) :
  forallb is_digit h = true -> drop_while is_white_space h = h.
Proof.
  destruct h as [|c h]; [reflexivity|]. cbn [forallb drop_while].
  intros H. apply andb_true_iff in H. destruct H as [Hc _].
  unfold is_digit in Hc. apply andb_true_iff in Hc. destruct Hc as [H0 H9].
  apply Z.leb_le in H0, H9.
  replace (is_white_space c) with false; [reflexivity|].
  symmetry. unfold is_white_space.
  repeat (apply orb_false_iff; split); try (apply Z.eqb_neq; lia).
  apply andb_false_iff. left. apply Z.leb_gt. lia.
Qed.

Lemma trim_digits (h : jsstring) : forallb is_digit h = true -> trim h = h.
Proof.
  intros H. unfold trim. rewrite (drop_while_digits h H).
  rewrite drop_while_digits; [apply rev_involutive|].
  apply forallb_forall. intros c Hc. apply in_rev in Hc.
  rewrite forallb_forall in H. apply H. exact Hc.
Qed.

Lemma unary_plus_decimal (h : jsstring) :
  h <> [] -> forallb is_digit h = true ->
  unary_plus h = Some (Int (decimal h)).
Proof.
  intros Hne Hd. unfold unary_plus. rewrite (trim_digits h Hd).
  destruct h as [|c u]; [contradiction|].
  assert (Hlit : unsigned_literal false (c :: u) = Some (Int (decimal (c :: u)))).
  { unfold unsigned_literal. rewrite Hd. cbn [nonempty andb].
    cbn [forallb] in Hd. apply andb_true_iff in Hd. destruct Hd as [Hc _].
    unfold is_digit in Hc. apply andb_true_iff in Hc. destruct Hc as [H0 H9].
    apply Z.leb_le in H0, H9.
    change (js "Infinity") with (73 :: js "nfinity"). cbn [startsWith].
    replace (73 =? c) with false by (symmetry; apply Z.eqb_neq; lia).
    reflexivity. }
  pose proof Hd as Hd'. cbn [forallb] in Hd'.
  apply andb_true_iff in Hd'. destruct Hd' as [Hc Hu].
  unfold is_digit in Hc. apply andb_true_iff in Hc. destruct Hc as [H0 H9].
  apply Z.leb_le in H0, H9.
  replace (c =? 43) with false by (symmetry; apply Z.eqb_neq; lia).
  replace (c =? 45) with false by (symmetry; apply Z.eqb_neq; lia).
  destruct (c =? 48); [|exact Hlit].
  destruct u as [|x digits]; [exact Hlit|].
  cbn [forallb] in Hu. apply andb_true_iff in Hu. destruct Hu as [Hx _].
  unfold is_digit in Hx. apply andb_true_iff in Hx. destruct Hx as [Hx0 Hx9].
  apply Z.leb_le in Hx0, Hx9. unfold radix_of.
  replace (x =? 120) with false by (symmetry; apply Z.eqb_neq; lia).
  replace (x =? 88) with false by (symmetry; apply Z.eqb_neq; lia).
  replace (x =? 111) with false by (symmetry; apply Z.eqb_neq; lia).
  replace (x =? 79) with false by (symmetry; apply Z.eqb_neq; lia).
  replace (x =? 98) with false by (symmetry; apply Z.eqb_neq; lia).
  replace (x =? 66) with false by (symmetry; apply Z.eqb_neq; lia).
  exact Hlit.
Qed.

(** What follows the reading of the header in [decode_1], [decode_2] and
    [decode_3]: the buffer, the loop and the trimmed view. *)
Lemma decode_with_header (max : Z) (getValue : option Z -> option Z)
  (value : Z -> Z) (codeAt : Z -> option Z) (header payload : jsstring)
  (L : Z) :
  (forall c, getValue (Some c) = Some (value c)) ->
  (forall t, (t < List.length payload)%nat ->
             codeAt (zlength header + 1 + Z.of_nat t) = nth_error payload t) ->
  0 <= L ->
  toMultipleOfFour L <= max ->
  zlength payload = 5 * (toMultipleOfFour L / 4) ->
  (let* resultBuffer := ArrayBuffer max (toMultipleOfFour L) in
   let* resultBuffer :=
     chunkLoop (S (List.length (header ++ 44 :: payload))) getValue codeAt
       (zlength (header ++ 44 :: payload)) (zlength resultBuffer)
       (zlength header + 1) 0 resultBuffer in
   Uint8Array resultBuffer L)
  = Ok (firstn (Z.to_nat L) (flat_map le32 (words value payload))).
Proof.
  intros Hv Hcode HL Hmax Hlen.
  destruct (toMultipleOfFour_spec L HL) as [Hfour [Hle _]].
  set (n := Z.to_nat (toMultipleOfFour L / 4)).
  assert (Hn : List.length payload = (5 * n)%nat)
    by (unfold zlength in Hlen; lia).
  rewrite ArrayBuffer_ok by lia. cbn [bind].
  replace (Z.to_nat (toMultipleOfFour L)) with (4 * n)%nat by lia.
  rewrite zlength_repeat.
  rewrite (chunkLoop_payload getValue value codeAt _ _ _ _ n payload Hv Hn Hcode).
  - cbn [bind]. apply Uint8Array_ok. unfold zlength.
    rewrite length_flat_map_le32, (length_words value n payload Hn). lia.
  - rewrite zlength_app, zlength_cons. lia.
  - lia.
  - rewrite length_app. simpl. lia.
Qed.

Lemma header_index (header payload : jsstring) :
  ~ In 44 header ->
  indexOf (header ++ js "," ++ payload) (js ",") = zlength header
  /\ substring (header ++ js "," ++ payload) 0 (zlength header) = header.
Proof.
  intros Hin. split.
  - apply (indexOf_single_app 44 header payload Hin).
  - apply substring_app.
Qed.

Lemma ascii_string (header payload : jsstring) :
  forallb (fun c => (0 <=? c) && (c <? 128)) header = true ->
  forallb (fun c => (0 <=? c) && (c <? 128)) payload = true ->
  stringToBytes (header ++ js "," ++ payload) = header ++ js "," ++ payload.
Proof.
  intros Hh Hp. apply stringToBytes_ascii.
  rewrite forallb_app, Hh. cbn [js map list_ascii_of_string app forallb].
  rewrite Hp. reflexivity.
Qed.

Lemma decode_1_words (host : Host) (L : Z) (header payload : jsstring) :
  0 <= L ->
  toMultipleOfFour L <= maxByteLength host ->
  declares v1 L header ->
  forallb (is_base85_digit v1) payload = true ->
  zlength payload = 5 * (toMultipleOfFour L / 4) ->
  decode_1 host (header ++ js "," ++ payload)
  = Ok (firstn (Z.to_nat L) (flat_map le32 (words (digit_value v1) payload))).
Proof.
  intros HL Hmax [Hne [Hdigits Hdec]] Hp Hlen.
  destruct (is_digit_ascii header Hdigits) as [Hascii Hcomma].
  destruct (header_index header payload Hcomma) as [Hidx Hsub].
  unfold decode_1. rewrite Hidx, Hsub.
  rewrite (unary_plus_decimal header Hne Hdigits), Hdec. cbn [number bind ToIndex toMultipleOfFour_number].
  rewrite (ascii_string header payload Hascii (is_base85_digit_ascii v1 _ Hp)).
  apply decode_with_header; try assumption.
  - intros c. apply (getValue_digit_value v1).
  - intros t _. apply charCodeAt_payload.
Qed.

Lemma decode_2_words (host : Host) (L : Z) (header payload : jsstring) :
  0 <= L ->
  toMultipleOfFour L <= maxByteLength host ->
  declares v2 L header ->
  forallb (is_base85_digit v2) payload = true ->
  zlength payload = 5 * (toMultipleOfFour L / 4) ->
  decode_2 host (header ++ js "," ++ payload)
  = Ok (firstn (Z.to_nat L) (flat_map le32 (words (digit_value v2) payload))).
Proof.
  intros HL Hmax [Hne [Hdigits Hdec]] Hp Hlen.
  destruct (is_digit_ascii header Hdigits) as [Hascii Hcomma].
  destruct (header_index header payload Hcomma) as [Hidx Hsub].
  unfold decode_2. rewrite Hidx, Hsub.
  rewrite (unary_plus_decimal header Hne Hdigits), Hdec. cbn [number bind ToIndex toMultipleOfFour_number].
  rewrite (ascii_string header payload Hascii (is_base85_digit_ascii v2 _ Hp)).
  apply decode_with_header; try assumption.
  - intros c. apply (getValue_digit_value v2).
  - intros t _. apply charCodeAt_payload.
Qed.

Lemma v3_header (header : jsstring) :
  forallb is_digit (map (fun c => c - 49) header) = true ->
  map (fun c => fromCharCode (c - 49)) header = map (fun c => c - 49) header
  /\ ~ In 44 header.
Proof.
  induction header as [|c h IH]; [simpl; tauto|]. cbn [map forallb].
  intros H. apply andb_true_iff in H. destruct H as [Hc Hh].
  destruct (IH Hh) as [IH1 IH2]. rewrite IH1.
  unfold is_digit in Hc. apply andb_true_iff in Hc. destruct Hc as [H0 H1].
  apply Z.leb_le in H0. apply Z.leb_le in H1. split.
  - unfold fromCharCode. rewrite Z.mod_small by lia. reflexivity.
  - intros [Heq|Hin]; [lia|contradiction].
Qed.

Lemma decode_3_words (host : Host) (L : Z) (header payload : jsstring) :
  0 <= L ->
  toMultipleOfFour L <= maxByteLength host ->
  declares v3 L header ->
  forallb (is_base85_digit v3) payload = true ->
  zlength payload = 5 * (toMultipleOfFour L / 4) ->
  decode_3 host (header ++ js "," ++ payload)
  = Ok (firstn (Z.to_nat L) (flat_map le32 (words (digit_value v3) payload))).
Proof.
  intros HL Hmax [Hne [Hdigits Hdec]] Hp Hlen.
  destruct (v3_header header Hdigits) as [Hmap Hcomma].
  destruct (header_index header payload Hcomma) as [Hidx Hsub].
  unfold decode_3. rewrite decode_3_header_map, Hidx, Hsub, Hmap.
  rewrite unary_plus_decimal, Hdec.
  - cbn [number bind ToIndex toMultipleOfFour_number]. apply decode_with_header; try assumption.
    + intros c. apply (getValue_digit_value v3).
    + intros t _. apply charCodeAt_payload.
  - destruct header; [contradiction|discriminate].
  - exact Hdigits.
Qed.

Lemma decode_4_words (host : Host) (L : Z) (payload : jsstring) :
  0 <= L ->
  toMultipleOfFour L <= maxByteLength host ->
  forallb (is_base85_digit v4) payload = true ->
  zlength payload = 5 * (toMultipleOfFour L / 4) ->
  decodeBase85WithoutLengthHeader host payload L
  = Ok (firstn (Z.to_nat L) (flat_map le32 (words (digit_value v4) payload))).
Proof.
  intros HL Hmax Hp Hlen.
  destruct (toMultipleOfFour_spec L HL) as [Hfour [Hle Hceil]].
  set (n := Z.to_nat (toMultipleOfFour L / 4)).
  assert (Hn : List.length payload = (5 * n)%nat)
    by (unfold zlength in Hlen; lia).
  unfold decodeBase85WithoutLengthHeader.
  rewrite Hceil, ArrayBuffer_ok by lia. cbn [bind].
  replace (Z.to_nat (toMultipleOfFour L)) with (4 * n)%nat by lia.
  assert (Hview : zlength payload * 4 / 5 = 4 * Z.of_nat n).
  { rewrite Hlen.
    replace (5 * (toMultipleOfFour L / 4) * 4)
      with ((toMultipleOfFour L / 4) * 4 * 5) by ring.
    rewrite Z.div_mul by lia. lia. }
  unfold DataView. rewrite zlength_repeat, Hview.
  replace (4 * Z.of_nat n <? 0) with false by (symmetry; apply Z.ltb_ge; lia).
  replace (Z.of_nat (4 * n) <? 4 * Z.of_nat n) with false
    by (symmetry; apply Z.ltb_ge; lia).
  cbn [orb bind].
  rewrite (chunkLoop_payload getBase85DecodeValue (digit_value v4)
             (charCodeAt payload) _ _ _ _ n payload).
  - cbn [bind]. apply Uint8Array_ok. unfold zlength.
    rewrite length_flat_map_le32, (length_words _ n payload Hn). lia.
  - intros c. apply (getValue_digit_value v4).
  - exact Hn.
  - intros t _. unfold charCodeAt. cbn [Z.add].
    replace (Z.of_nat t <? 0) with false by (symmetry; apply Z.ltb_ge; lia).
    rewrite Nat2Z.id. reflexivity.
  - lia.
  - lia.
  - lia.
Qed.

Lemma nth_flat_map_le32 (ws : list Z) (k i : nat) :
  (i < 4)%nat -> (k < List.length ws)%nat ->
  nth (4 * k + i) (flat_map le32 ws) 0 = nth i (le32 (nth k ws 0)) 0.
Proof.
  revert k. induction ws as [|w ws IH]; intros k Hi Hk; [simpl in Hk; lia|].
  destruct k as [|k].
  - cbn [flat_map nth Nat.mul Nat.add]. unfold le32.
    destruct i as [|[|[|[|i]]]]; try reflexivity. lia.
  - replace (4 * S k + i)%nat with (S (S (S (S (4 * k + i))))) by lia.
    cbn [flat_map le32 app nth]. apply IH; [exact Hi|simpl in Hk; lia].
Qed.

(** C6: for each of the four base-85 variants, on a well-formed input (a
    header that declares the byte length [L], or [L] supplied by the caller
    for v4; a payload of base-85 digits of the variant, five for each four
    bytes of [L] rounded up to a multiple of four; [L] within what the engine
    allocates), the decoder returns a byte sequence of length exactly [L]:
    the first [L] bytes of the payload's words, each group of five
    characters giving the four bytes of
    [b4*85^4 + b3*85^3 + b2*85^2 + b1*85 + b0] in little-endian order, so
    that byte [4k + i] of the output is byte [i] of the word of the [k]-th
    group.  The pad bytes of the last word are not returned. *)
Theorem base85_decode (host : Host) (v : variant) (L : Z)
  (header payload : jsstring) :
  0 <= L ->
  toMultipleOfFour L <= maxByteLength host ->
  declares v L header ->
  forallb (is_base85_digit v) payload = true ->
  zlength payload = 5 * (toMultipleOfFour L / 4) ->
  exists out,
    run_variant host v L header payload = Ok out
    /\ out = firstn (Z.to_nat L)
               (flat_map le32 (words (digit_value v) payload))
    /\ zlength out = L
    /\ forall k i : nat,
         (i < 4)%nat -> (4 * k + i < Z.to_nat L)%nat ->
         nth (4 * k + i) out 0
         = nth i (le32 (nth k (words (digit_value v) payload) 0)) 0.
Proof.
  intros HL Hmax Hheader Hp Hlen.
  exists (firstn (Z.to_nat L) (flat_map le32 (words (digit_value v) payload))).
  destruct (toMultipleOfFour_spec L HL) as [Hfour [Hle _]].
  set (n := Z.to_nat (toMultipleOfFour L / 4)).
  assert (Hn : List.length payload = (5 * n)%nat)
    by (unfold zlength in Hlen; lia).
  pose proof (length_words (digit_value v) n payload Hn) as Hwords.
  split; [|split; [reflexivity|split]].
  - destruct v; cbn [run_variant].
    + apply decode_1_words; assumption.
    + apply decode_2_words; assumption.
    + apply decode_3_words; assumption.
    + apply decode_4_words; assumption.
  - unfold zlength. rewrite length_firstn, length_flat_map_le32, Hwords. lia.
  - intros k i Hi Hk. rewrite nth_firstn.
    replace (4 * k + i <? Z.to_nat L)%nat with true
      by (symmetry; apply Nat.ltb_lt; exact Hk).
    apply nth_flat_map_le32; [exact Hi|]. rewrite Hwords. lia.
Qed.

Lemma base85_decode_witness :
  run_variant exampleHost v1 5 (js "5") (js "Zb)qKC*)))") = Ok (js "Hello")
  /\ run_variant exampleHost v2 1 (js "1") (js "\****") = Ok (js "2")
  /\ run_variant exampleHost v3 5 (js "f") (js "[c*rLD+***") = Ok (js "Hello")
  /\ run_variant exampleHost v4 5 [] (js "[c*rLD+***") = Ok (js "Hello").
Proof.
  split; [|split; [|split]].
  - destruct (base85_decode exampleHost v1 5 (js "5") (js "Zb)qKC*)))"))
      as [out [Hrun [Hout _]]];
      [lia|vm_compute; discriminate
      |split; [discriminate|split; reflexivity]|reflexivity|reflexivity|].
    rewrite Hrun, Hout. reflexivity.
  - destruct (base85_decode exampleHost v2 1 (js "1") (js "\****"))
      as [out [Hrun [Hout _]]];
      [lia|vm_compute; discriminate
      |split; [discriminate|split; reflexivity]|reflexivity|reflexivity|].
    rewrite Hrun, Hout. reflexivity.
  - destruct (base85_decode exampleHost v3 5 (js "f") (js "[c*rLD+***"))
      as [out [Hrun [Hout _]]];
      [lia|vm_compute; discriminate
      |split; [discriminate|split; reflexivity]|reflexivity|reflexivity|].
    rewrite Hrun, Hout. reflexivity.
  - destruct (base85_decode exampleHost v4 5 [] (js "[c*rLD+***"))
      as [out [Hrun [Hout _]]];
      [lia|vm_compute; discriminate|reflexivity|reflexivity|reflexivity|].
    rewrite Hrun, Hout. reflexivity.
Defined.

(** The loops of the decoders never use up their fuel: a decoder stops with
    a result or with a [RangeError] of [setUint32]. *)
Lemma chunkLoop_fuel (fuel : nat) (getValue : option Z -> option Z)
  (codeAt : Z -> option Z) (length viewLength i j : Z) (buf : bytes) (e : exn) :
  (Z.to_nat (length - i) < fuel)%nat ->
  chunkLoop fuel getValue codeAt length viewLength i j buf = Throw e ->
  e = RangeError.
Proof.
  revert i j buf. induction fuel as [|fuel IH]; intros i j buf Hfuel; [lia|].
  cbn [chunkLoop]. destruct (Z.ltb_spec i length) as [Hlt|Hge]; [|discriminate].
  unfold setUint32.
  destruct ((j <? 0) || (viewLength <? j + 4)); cbn [bind].
  - intros H. injection H as <-. reflexivity.
  - apply IH. lia.
Qed.

(** ** The fuel of [matchAll] *)

(** A match goes forward in the text it is given. *)
Lemma rmatch_forward (r : regex) (st st' : mstate) :
  In st' (rmatch r st) ->
  exists k, (k <= List.length (rest st))%nat
            /\ pos st' = (pos st + k)%nat
            /\ rest st' = skipn k (rest st).
Proof.
  revert st st'. induction r as [min max cs|r1 IH1 r2 IH2|n r IH| | | ];
    intros st st' Hin; cbn [rmatch] in Hin.
  - destruct (min <=? _)%nat; [|contradiction].
    apply in_map_iff in Hin. destruct Hin as [k [<- Hk]].
    apply in_counts_down in Hk. exists k. cbn [advance pos rest].
    pose proof (run_length_le cs (rest st)).
    split; [destruct max; lia|]. split; reflexivity.
  - apply in_flat_map in Hin. destruct Hin as [mid [Hmid Hst']].
    destruct (IH1 _ _ Hmid) as [k1 [Hk1 [Hp1 Hr1]]].
    destruct (IH2 _ _ Hst') as [k2 [Hk2 [Hp2 Hr2]]].
    rewrite Hr1, length_skipn in Hk2.
    exists (k1 + k2)%nat. split; [lia|]. split; [lia|].
    rewrite Hr2, Hr1, skipn_skipn. f_equal. lia.
  - apply in_map_iff in Hin. destruct Hin as [st'' [<- Hst'']].
    destruct (IH _ _ Hst'') as [k [Hk [Hp Hr]]].
    exists k. cbn [capture pos rest]. auto.
  - destruct (pos st =? 0)%nat; [|contradiction].
    destruct Hin as [<-|[]]. exists 0%nat. split; [lia|]. split; [lia|reflexivity].
  - destruct (rest st) eqn:E; [|contradiction].
    destruct Hin as [<-|[]]. exists 0%nat. rewrite E. simpl.
    split; [lia|]. split; [lia|reflexivity].
  - destruct Hin as [<-|[]]. exists 0%nat. split; [lia|]. split; [lia|reflexivity].
Qed.

(** A pattern that begins with a literal character consumes it. *)
Lemma rmatch_literal (c : Z) (r : regex) (st st' : mstate) :
  In st' (rmatch (Seq (one (is_char c)) r) st) -> (pos st < pos st')%nat.
Proof.
  cbn [rmatch]. intros Hin. apply in_flat_map in Hin.
  destruct Hin as [mid [Hmid Hst']].
  change (one ?cs) with (exactly 1 cs) in Hmid. rewrite rmatch_exactly in Hmid.
  destruct (1 <=? _)%nat; [|contradiction]. destruct Hmid as [<-|[]].
  destruct (rmatch_forward _ _ _ Hst') as [k [_ [Hp _]]].
  cbn [advance pos] in Hp. lia.
Qed.

Section MatchAllFuel.

Variable r : regex.
Hypothesis consuming :
  forall st st', In st' (rmatch r st) -> (pos st < pos st')%nat.

Lemma rmatch_at_end (n : nat) (cs : list (nat * jsstring)) :
  rmatch r {| pos := n; rest := []; caps := cs |} = [].
Proof.
  destruct (rmatch r _) as [|st' l] eqn:E; [reflexivity|].
  assert (Hin : In st' (rmatch r {| pos := n; rest := []; caps := cs |}))
    by (rewrite E; left; reflexivity).
  pose proof (consuming _ _ Hin) as Hlt.
  destruct (rmatch_forward _ _ _ Hin) as [k [Hk [Hp _]]].
  cbn [pos rest List.length] in *. lia.
Qed.

Lemma exec_from_bounds (s : jsstring) (start : nat) (m : rmatch_result) :
  exec_from r start s = Some m -> (start <= index m < endIndex m)%nat.
Proof.
  revert start. induction s as [|c s IH]; intros start; cbn [exec_from].
  - rewrite rmatch_at_end. discriminate.
  - destruct (rmatch r _) as [|st' l] eqn:E.
    + intros H. apply IH in H. lia.
    + intros H. injection H as <-. cbn [index endIndex].
      assert (Hin : In st' (rmatch r {| pos := start; rest := c :: s;
                                        caps := [] |}))
        by (rewrite E; left; reflexivity).
      apply consuming in Hin. cbn [pos] in Hin. lia.
Qed.

(** More fuel than the length of the text changes nothing. *)
Lemma matchAll_from_fuel (text : jsstring) (fuel extra lastIndex : nat) :
  (List.length text < lastIndex + fuel)%nat ->
  matchAll_from (fuel + extra) r lastIndex text
  = matchAll_from fuel r lastIndex text.
Proof.
  revert lastIndex. induction fuel as [|fuel IH]; intros lastIndex Hlen.
  - cbn [Nat.add matchAll_from]. destruct extra as [|extra]; [reflexivity|].
    cbn [matchAll_from]. rewrite skipn_all2 by lia.
    cbn [exec_from]. rewrite rmatch_at_end. reflexivity.
  - cbn [Nat.add matchAll_from].
    destruct (exec_from r lastIndex (skipn lastIndex text)) as [m|] eqn:E;
      [|reflexivity].
    apply exec_from_bounds in E. f_equal. apply IH. lia.
Qed.

End MatchAllFuel.

(** The two patterns [matchAll] is called with begin with a literal, so
    that the fuel it is given suffices. *)
Lemma rmatch_Seq_consuming (r1 r2 : regex) :
  (forall st st', In st' (rmatch r1 st) -> (pos st < pos st')%nat) ->
  forall st st', In st' (rmatch (Seq r1 r2) st) -> (pos st < pos st')%nat.
Proof.
  intros H1 st st' Hin. cbn [rmatch] in Hin. apply in_flat_map in Hin.
  destruct Hin as [mid [Hmid Hst']]. apply H1 in Hmid.
  destruct (rmatch_forward _ _ _ Hst') as [k [_ [Hp _]]]. lia.
Qed.

Lemma matchAll_chunks_fuel (text : jsstring) (extra : nat) :
  matchAll_from (S (List.length text) + extra) re_chunks 0 text
  = matchAll text re_chunks.
Proof.
  apply matchAll_from_fuel; [|lia].
  unfold re_chunks. apply rmatch_Seq_consuming.
  change (lit_chars (js "<script data=" ++ dquote))
    with (Seq (one (is_char 60)) (lit_chars (js "script data=" ++ dquote))).
  intros st st'. apply rmatch_literal.
Qed.

Lemma matchAll_p4_project_fuel (text : jsstring) (extra : nat) :
  matchAll_from (S (List.length text) + extra) re_p4_project 0 text
  = matchAll text re_p4_project.
Proof.
  apply matchAll_from_fuel; [|lia].
  unfold re_p4_project. apply rmatch_Seq_consuming.
  change (lit_chars (js "<script type=" ++ dquote ++ js "p4-project" ++ dquote
                       ++ js ">"))
    with (Seq (one (is_char 60))
            (lit_chars (js "script type=" ++ dquote ++ js "p4-project" ++ dquote
                          ++ js ">"))).
  intros st st'. apply rmatch_literal.
Qed.

(** ** The examples of the specification *)

Example classify_sb3_asset :
  classify (js "a1b2c3d4e5f6a1b2c3d4e5f6a1b2c3d4.png") = Sb3Asset.
Proof. reflexivity. Qed.

Example classify_sb2_asset : classify (js "42.svg") = Sb2Asset.
Proof. reflexivity. Qed.

Example classify_extra : classify (js "readme.txt") = Extra.
Proof. reflexivity. Qed.

Example classify_32_digits :
  classify (js "00000000000000000000000000000000.png") = Sb3Asset.
Proof. reflexivity. Qed.

Example unpackageBinaryBlob_targets :
  unpackageBinaryBlob exampleHost
    (example_archive
       [example_entry "project.json"
          (js "{" ++ dquote ++ js "targets" ++ dquote ++ js ":[]}")])
  = Ok {| type := sb3;
          data := example_archive
                    [example_entry "project.json"
                       (js "{" ++ dquote ++ js "targets" ++ dquote
                          ++ js ":[]}")] |}.
Proof. reflexivity. Qed.

Example unpackageBinaryBlob_objName :
  unpackageBinaryBlob exampleHost
    (example_archive
       [example_entry "project.json"
          (js "{" ++ dquote ++ js "objName" ++ dquote ++ js ":" ++ dquote
             ++ js "Stage" ++ dquote ++ js "}")])
  = Ok {| type := sb2;
          data := example_archive
                    [example_entry "project.json"
                       (js "{" ++ dquote ++ js "objName" ++ dquote ++ js ":"
                          ++ dquote ++ js "Stage" ++ dquote ++ js "}")] |}.
Proof. reflexivity. Qed.

Example unpackageBinaryBlob_neither :
  unpackageBinaryBlob exampleHost
    (example_archive [example_entry "project.json" (js "{}")])
  = Throw AmbiguousOrUnknownProjectType.
Proof. reflexivity. Qed.

(** A payload of version 2 without a backslash is read as version 1
    (lines 167-174). *)
Example decodeBase85WithLengthHeader_heuristic :
  decode_2 exampleHost (js "5,[c*rLD+***") = Ok (js "Hello")
  /\ decodeBase85WithLengthHeader exampleHost (js "5,[c*rLD+***")
     = decode_1 exampleHost (js "5,[c*rLD+***")
  /\ decode_1 exampleHost (js "5,[c*rLD+***") = Ok [117; 101; 146; 111; 156].
Proof. repeat split. Qed.

(** * Further properties of the code *)

(** ** The binary-blob classifier (lines 52-59, 246-265) *)

Lemma identifyProjectJSONType_not_sb (d : json) (t : project_type) :
  identifyProjectJSONType d = Ok t -> t = sb3 \/ t = sb2.
Proof.
  unfold identifyProjectJSONType, bind.
  destruct (has_key (js "targets") d) as [[|]|]; try discriminate.
  - intros H. injection H as <-. left. reflexivity.
  - destruct (has_key (js "objName") d) as [[|]|]; try discriminate.
    intros H. injection H as <-. right. reflexivity.
Qed.

Lemma identifyProjectJSONType_throws (d : json) (e : exn) :
  identifyProjectJSONType d = Throw e ->
  e = TypeError \/ e = AmbiguousOrUnknownProjectType.
Proof.
  unfold identifyProjectJSONType, bind, has_key.
  destruct d; try (intros H; injection H as <-; left; reflexivity).
  - intros H. injection H as <-. right. reflexivity.
  - destruct (existsb _ members); [discriminate|].
    destruct (existsb _ members); [discriminate|].
    intros H. injection H as <-. right. reflexivity.
Qed.

(** X1: whenever the binary-blob classifier returns, the payload is the
    input itself, unchanged, and the tag is sb exactly when the input did not
    open as a zip archive. *)
Theorem unpackageBinaryBlob_result (host : Host) (blob : bytes)
  (p : UnpackagedProject) :
  unpackageBinaryBlob host blob = Ok p ->
  data p = blob /\ (type p = sb <-> loadAsync host blob = None).
Proof.
  unfold unpackageBinaryBlob, unzipOrNull.
  destruct (loadAsync host blob) as [zip|].
  - destruct (findFileInZip zip (js "project.json")) as [pj|]; [|discriminate].
    unfold async_text, async_arraybuffer.
    destruct (async host pj) as [b|]; [|discriminate]. cbn [bind].
    destruct (JSON_parse host _) as [d|]; [|discriminate].
    unfold bind. destruct (identifyProjectJSONType d) as [t|] eqn:E;
      [|discriminate].
    intros H. injection H as <-. cbn [data type]. split; [reflexivity|].
    destruct (identifyProjectJSONType_not_sb d t E) as [->| ->];
      split; discriminate.
  - intros H. injection H as <-. cbn [data type]. tauto.
Qed.

Lemma unpackageBinaryBlob_result_witness :
  data {| type := sb; data := js "ScratchV01" |} = js "ScratchV01"
  /\ (type {| type := sb; data := js "ScratchV01" |} = sb
      <-> loadAsync exampleHost (js "ScratchV01") = None).
Proof.
  apply (unpackageBinaryBlob_result exampleHost (js "ScratchV01")).
  reflexivity.
Defined.

(** The ways the binary-blob classifier fails. *)
Lemma unpackageBinaryBlob_throws (host : Host) (blob : bytes) (e : exn) :
  unpackageBinaryBlob host blob = Throw e ->
  exists zip,
    loadAsync host blob = Some zip
    /\ match findFileInZip zip (js "project.json") with
       | None => e = TypeError
       | Some projectJSON =>
           match async host projectJSON with
           | None => e = JSZipError
           | Some _ =>
               e = TypeError \/ e = SyntaxError
               \/ e = AmbiguousOrUnknownProjectType
           end
       end.
Proof.
  unfold unpackageBinaryBlob, unzipOrNull.
  destruct (loadAsync host blob) as [zip|]; [|discriminate].
  intros H. exists zip. split; [reflexivity|].
  destruct (findFileInZip zip (js "project.json")) as [pj|];
    [|injection H as <-; reflexivity].
  unfold async_text, async_arraybuffer in H.
  destruct (async host pj) as [b|]; [|injection H as <-; reflexivity].
  cbn [bind] in H.
  destruct (JSON_parse host _) as [d|]; [|injection H as <-; tauto].
  unfold bind in H. destruct (identifyProjectJSONType d) as [t|e'] eqn:E;
    [discriminate|].
  injection H as <-.
  destruct (identifyProjectJSONType_throws d e' E) as [->| ->]; tauto.
Qed.

(** X2: the binary-blob classifier fails only on an input that opened as a
    zip archive, and then with a [TypeError] (no project.json, or a JSON
    value that is not an object), the error JSZip rejects the reading of
    project.json with, a [SyntaxError] of [JSON.parse], or the error "Can
    not determine project.json type"; the error is the one of JSZip exactly
    when project.json is found and cannot be read. *)
Theorem unpackageBinaryBlob_errors (host : Host) (blob : bytes) (e : exn) :
  unpackageBinaryBlob host blob = Throw e ->
  exists zip,
    loadAsync host blob = Some zip
    /\ (e = TypeError \/ e = JSZipError \/ e = SyntaxError
        \/ e = AmbiguousOrUnknownProjectType)
    /\ (e = JSZipError
        <-> exists projectJSON,
              findFileInZip zip (js "project.json") = Some projectJSON
              /\ async host projectJSON = None).
Proof.
  intros H. destruct (unpackageBinaryBlob_throws host blob e H) as [zip [Hzip He]].
  exists zip. split; [exact Hzip|].
  destruct (findFileInZip zip (js "project.json")) as [pj|].
  - destruct (async host pj) as [b|] eqn:Eb.
    + split; [tauto|]. split.
      * intros ->. destruct He as [He|[He|He]]; discriminate.
      * intros [pj' [Hpj Hnone]]. injection Hpj as <-. congruence.
    + split; [tauto|]. split; [|intros _; exact He].
      intros _. exists pj. split; [reflexivity|exact Eb].
  - split; [tauto|]. split.
    + intros ->. discriminate.
    + intros [pj [Hpj _]]. discriminate.
Qed.

Lemma unpackageBinaryBlob_errors_witness :
  exists zip,
    loadAsync exampleHost
      (example_archive [example_entry_8 "project.json" 2 [1; 123; 1]])
    = Some zip
    /\ (JSZipError = TypeError \/ JSZipError = JSZipError
        \/ JSZipError = SyntaxError
        \/ JSZipError = AmbiguousOrUnknownProjectType)
    /\ (JSZipError = JSZipError
        <-> exists projectJSON,
              findFileInZip zip (js "project.json") = Some projectJSON
              /\ async exampleHost projectJSON = None).
Proof.
  apply (unpackageBinaryBlob_errors exampleHost
           (example_archive [example_entry_8 "project.json" 2 [1; 123; 1]])).
  reflexivity.
Defined.

(** X3: on an input that opens as a zip archive, [unpackage] never reads
    the input as text.  Once project.json is found, it fails only when JSZip
    rejects the generation of the rebuilt archive; when it is not found, it
    fails with "Input was a zip but we could not find a project.", with the
    error JSZip rejects the reading of an entry with, or with one of the
    other errors of the binary-blob classifier. *)
Theorem unpackage_zip_errors (host : Host) (blob : bytes) (zip : JSZip)
  (e : exn) :
  loadAsync host blob = Some zip ->
  unpackage host blob = Throw e ->
  match findFileInZip zip (js "project.json") with
  | Some _ => e = JSZipError
  | None =>
      e = ZipMissingProject \/ e = JSZipError \/ e = TypeError
      \/ e = SyntaxError \/ e = AmbiguousOrUnknownProjectType
  end.
Proof.
  intros Hzip. unfold unpackage, unzipOrNull. rewrite Hzip.
  destruct (findFileInZip zip (js "project.json")) as [pj|].
  - unfold unpackageProjectFolder, zipToArrayBuffer.
    destruct (generateAsync host _); [discriminate|].
    intros H. injection H as <-. reflexivity.
  - intros H.
    destruct (orElse _ _) as [pb|]; [|injection H as <-; tauto].
    unfold async_arraybuffer in H.
    destruct (async host pb) as [d|]; [|injection H as <-; tauto].
    cbn [bind] in H.
    destruct (unpackageBinaryBlob_throws host d e H) as [z [_ He]].
    destruct (findFileInZip z (js "project.json")) as [pj|]; [|tauto].
    destruct (async host pj); tauto.
Qed.

Lemma unpackage_zip_errors_witness :
  match
    findFileInZip
      {| root := [];
         files := [{| name := js "project.json"; dir := false; date := 0;
                      content := Stored 0 9 (js "{}") |}] |}
      (js "project.json")
  with
  | Some _ => JSZipError = JSZipError
  | None =>
      JSZipError = ZipMissingProject \/ JSZipError = JSZipError
      \/ JSZipError = TypeError \/ JSZipError = SyntaxError
      \/ JSZipError = AmbiguousOrUnknownProjectType
  end.
Proof.
  apply (unpackage_zip_errors exampleHost
           (80 :: 75 :: zlength (js "project.json") :: js "project.json"
              ++ 0 :: 0 :: 9 :: 2 :: js "{}"));
    reflexivity.
Defined.

(** An archive whose one entry records a size its stream does not have:
    project.json is found, and the archive cannot be rebuilt. *)
Example unpackage_damaged_entry :
  unpackage exampleHost
    (80 :: 75 :: zlength (js "project.json") :: js "project.json"
       ++ 0 :: 0 :: 9 :: 2 :: js "{}")
  = Throw JSZipError.
Proof. reflexivity. Qed.

(** ** [findFileInZip] (lines 233-244) *)

Lemma startsWith_app (pat a b : jsstring) :
  startsWith pat a = true -> startsWith pat (a ++ b) = true.
Proof.
  revert a. induction pat as [|p pat IH]; intros [|x a]; simpl; auto;
    try discriminate.
  intros H. apply andb_true_iff in H. destruct H as [-> H].
  simpl. apply IH. exact H.
Qed.

Lemma endsWith_app (r s pat : jsstring) :
  endsWith s pat = true -> endsWith (r ++ s) pat = true.
Proof.
  unfold endsWith. rewrite rev_app_distr. apply startsWith_app.
Qed.

Lemma JSZip_file_some (zip : JSZip) (path : jsstring) (f : ZipObject) :
  JSZip_file zip path = Some f ->
  In f (files zip) /\ dir f = false /\ name f = root zip ++ path.
Proof.
  unfold JSZip_file.
  destruct (find _ (files zip)) as [g|] eqn:E; [|discriminate].
  apply find_some in E. destruct E as [Hin Hname]. apply jseqb_eq in Hname.
  destruct (dir g) eqn:Hdir; [discriminate|].
  intros H. injection H as <-. auto.
Qed.

(** X4: what [findFileInZip] returns is an entry of the archive that is not
    a folder, and its name is the path looked for (under the root of the
    view) or ends with a slash and that path; an entry with exactly that
    name is preferred to one found by the end of its name. *)
Theorem findFileInZip_sound (zip : JSZip) (path : jsstring) (f : ZipObject) :
  findFileInZip zip path = Some f ->
  In f (files zip) /\ dir f = false
  /\ (name f = root zip ++ path
      \/ (JSZip_file zip path = None
          /\ endsWith (name f) (js "/" ++ path) = true)).
Proof.
  unfold findFileInZip.
  destruct (JSZip_file zip path) as [g|] eqn:Eg.
  - intros H. injection H as <-.
    destruct (JSZip_file_some _ _ _ Eg) as [Hin [Hdir Hname]]. auto.
  - destruct (find _ (keys zip)) as [filename|] eqn:Ef; [|discriminate].
    apply find_some in Ef. destruct Ef as [_ Hends].
    intros H. destruct (JSZip_file_some _ _ _ H) as [Hin [Hdir Hname]].
    split; [exact Hin|]. split; [exact Hdir|]. right.
    split; [reflexivity|]. rewrite Hname. apply endsWith_app. exact Hends.
Qed.

Lemma findFileInZip_sound_witness :
  exists f,
    In f [{| name := js "x/project.json"; dir := false; date := 0;
             content := Given (js "{}") |}]
    /\ name f = js "x/project.json".
Proof.
  exists {| name := js "x/project.json"; dir := false; date := 0;
            content := Given (js "{}") |}.
  destruct (findFileInZip_sound
              {| root := [];
                 files := [{| name := js "x/project.json"; dir := false;
                              date := 0; content := Given (js "{}") |}] |}
              (js "project.json")
              {| name := js "x/project.json"; dir := false; date := 0;
                 content := Given (js "{}") |} eq_refl) as [Hin _].
  split; [exact Hin|reflexivity].
Defined.

Lemma endsWith_not_slash (s path : jsstring) :
  endsWith (js "/" ++ path) (js "/") = false ->
  endsWith s (js "/" ++ path) = true ->
  endsWith s (js "/") = false.
Proof.
  unfold endsWith. change (rev (js "/")) with [47].
  remember (rev (js "/" ++ path)) as R eqn:ER.
  destruct R as [|l t].
  - apply (f_equal (@List.length Z)) in ER. rewrite length_rev in ER.
    simpl in ER. lia.
  - rewrite !startsWith_single. intros Hl.
    destruct (rev s) as [|x r]; [discriminate|].
    cbn [startsWith]. intros H. apply andb_true_iff in H.
    destruct H as [Hx _]. apply Z.eqb_eq in Hx. subst x.
    rewrite andb_true_r. exact Hl.
Qed.

Lemma find_some_exists {A : Type} (p : A -> bool) (l : list A) (x : A) :
  In x l -> p x = true -> exists y, find p l = Some y.
Proof.
  intros Hin Hp. destruct (find p l) as [y|] eqn:E; [exists y; reflexivity|].
  rewrite (find_none p l E x Hin) in Hp. discriminate.
Qed.

(** An entry that is reached by its name is not a folder when its name does
    not end with a slash. *)
Lemma JSZip_file_found (zip : JSZip) (filename : jsstring) :
  root zip = [] ->
  folders_end_with_slash zip ->
  In filename (keys zip) ->
  endsWith filename (js "/") = false ->
  exists f, JSZip_file zip filename = Some f.
Proof.
  intros Hroot Hinv Hin Hslash. unfold JSZip_file. rewrite Hroot.
  cbn [app]. unfold keys in Hin. apply in_map_iff in Hin.
  destruct Hin as [g [Hname Hg]].
  destruct (find_some_exists (fun f => jseqb (name f) filename) (files zip) g Hg)
    as [y Hy]; [apply jseqb_eq; exact Hname|].
  rewrite Hy. apply find_some in Hy. destruct Hy as [Hyin Hyname].
  apply jseqb_eq in Hyname.
  destruct (dir y) eqn:Hdir; [|exists y; reflexivity].
  rewrite <- Hyname in Hslash. rewrite (Hinv y Hyin Hdir) in Hslash.
  discriminate.
Qed.

Lemma forallb_false_exists {A : Type} (p : A -> bool) (l : list A) :
  forallb p l = false -> exists x, In x l /\ p x = false.
Proof.
  induction l as [|y l IH]; [discriminate|]. cbn [forallb].
  destruct (p y) eqn:Hy.
  - intros H. destruct (IH H) as [x [Hin Hx]]. exists x. split; [right|]; auto.
  - intros _. exists y. split; [left; reflexivity|exact Hy].
Qed.

(** X5: on an archive as JSZip loads it (a root view in which the names of
    folders end with a slash), and for a path that does not end with a
    slash, [findFileInZip] returns [null] exactly when no entry has that
    name or a name that ends with a slash and that path. *)
Theorem findFileInZip_complete (zip : JSZip) (path : jsstring) :
  root zip = [] ->
  folders_end_with_slash zip ->
  endsWith (js "/" ++ path) (js "/") = false ->
  (findFileInZip zip path = None <-> no_entry_matches zip path = true).
Proof.
  intros Hroot Hinv Hpath. split; [|apply findFileInZip_none].
  intros Hnone. destruct (no_entry_matches zip path) eqn:Hno; [reflexivity|].
  exfalso. unfold no_entry_matches in Hno.
  apply forallb_false_exists in Hno. destruct Hno as [f [Hin Hf]].
  apply negb_false_iff in Hf. unfold entry_matches in Hf.
  rewrite Hroot in Hf. cbn [app] in Hf.
  unfold findFileInZip in Hnone.
  destruct (JSZip_file zip path) as [g|] eqn:Eg; [discriminate|].
  apply orb_true_iff in Hf. destruct Hf as [Hname|Hends].
  - apply jseqb_eq in Hname.
    destruct (JSZip_file_found zip path Hroot Hinv) as [g Hg].
    + unfold keys. rewrite <- Hname. apply in_map. exact Hin.
    + destruct (endsWith path (js "/")) eqn:E; [|reflexivity].
      rewrite (endsWith_app (js "/") path (js "/") E) in Hpath. discriminate.
    + congruence.
  - destruct (find_some_exists
                (fun filename => endsWith filename (js "/" ++ path))
                (keys zip) (name f)) as [filename Hfind].
    + unfold keys. apply in_map. exact Hin.
    + exact Hends.
    + rewrite Hfind in Hnone. apply find_some in Hfind.
      destruct Hfind as [Hkey Hsuffix].
      destruct (JSZip_file_found zip filename Hroot Hinv Hkey) as [g Hg].
      * apply (endsWith_not_slash filename path Hpath Hsuffix).
      * congruence.
Qed.

Lemma findFileInZip_complete_witness :
  findFileInZip
    {| root := [];
       files := [{| name := js "assets/"; dir := true; date := 0;
                    content := Given [] |};
                 {| name := js "assets/1.png"; dir := false; date := 0;
                    content := Given [1] |}] |}
    (js "project.json") = None
  <-> no_entry_matches
        {| root := [];
           files := [{| name := js "assets/"; dir := true; date := 0;
                        content := Given [] |};
                     {| name := js "assets/1.png"; dir := false; date := 0;
                        content := Given [1] |}] |}
        (js "project.json") = true.
Proof.
  apply findFileInZip_complete; [reflexivity| |reflexivity].
  intros f [<-|[<-|[]]]; [reflexivity|discriminate].
Defined.

(** ** The dispatcher on a zip archive without project.json (lines 318-330) *)

Lemma find_split {A : Type} (p : A -> bool) (l : list A) (x : A) :
  find p l = Some x ->
  exists before after,
    l = before ++ x :: after
    /\ p x = true
    /\ forallb (fun y => negb (p y)) before = true.
Proof.
  induction l as [|y l IH]; [discriminate|]. cbn [find].
  destruct (p y) eqn:Hy.
  - intros H. injection H as <-. exists [], l. auto.
  - intros H. destruct (IH H) as [before [after [-> [Hx Hb]]]].
    exists (y :: before), after. cbn [app forallb]. rewrite Hy. auto.
Qed.

Lemma find_first {A : Type} (p : A -> bool) (before after : list A) (x : A) :
  p x = true ->
  forallb (fun y => negb (p y)) before = true ->
  find p (before ++ x :: after) = Some x.
Proof.
  intros Hx. induction before as [|y before IH]; cbn [app find forallb].
  - rewrite Hx. reflexivity.
  - intros H. apply andb_true_iff in H. destruct H as [Hy Hb].
    apply negb_true_iff in Hy. rewrite Hy. apply IH. exact Hb.
Qed.

Lemma find_none_forallb {A : Type} (p : A -> bool) (l : list A) :
  find p l = None -> forallb (fun y => negb (p y)) l = true.
Proof.
  intros H. apply forallb_forall. intros y Hy.
  rewrite (find_none p l H y Hy). reflexivity.
Qed.

Lemma find_map {A B : Type} (g : A -> B) (p : B -> bool) (l : list A) :
  find p (map g l) = option_map g (find (fun x => p (g x)) l).
Proof.
  induction l as [|x l IH]; [reflexivity|]. cbn [map find].
  destruct (p (g x)); [reflexivity|exact IH].
Qed.

(** On an archive as it is loaded, the search of [findFileInZip] settles on
    the first entry named [path], else on the first entry whose name ends
    with [/path]. *)
Lemma findFileInZip_search (zip : JSZip) (path : jsstring) :
  root zip = [] ->
  folders_end_with_slash zip ->
  endsWith (js "/" ++ path) (js "/") = false ->
  no_entry_matches zip path = false ->
  exists f, search_finds zip path f /\ findFileInZip zip path = Some f.
Proof.
  intros Hroot Hinv Hpath Hno.
  assert (Hfile : forall g, In g (files zip) ->
                            endsWith (name g) (js "/") = false ->
                            dir g = false).
  { intros g Hin Hslash. destruct (dir g) eqn:Hdir; [|reflexivity].
    rewrite (Hinv g Hin Hdir) in Hslash. discriminate. }
  assert (Hpath' : endsWith path (js "/") = false).
  { destruct (endsWith path (js "/")) eqn:E; [|reflexivity].
    rewrite (endsWith_app (js "/") path (js "/") E) in Hpath. discriminate. }
  unfold findFileInZip, JSZip_file. rewrite Hroot. cbn [app].
  destruct (find (fun f => jseqb (name f) path) (files zip)) as [g|] eqn:Eg.
  - destruct (find_split _ _ _ Eg) as [before [after [Hfiles [Hg Hbefore]]]].
    assert (Hname : name g = path) by (apply jseqb_eq; exact Hg).
    rewrite (Hfile g).
    + exists g. split; [|reflexivity]. left. exists before, after. auto.
    + rewrite Hfiles. apply in_elt.
    + rewrite Hname. exact Hpath'.
  - pose proof (find_none_forallb _ _ Eg) as Hnone.
    unfold no_entry_matches in Hno. apply forallb_false_exists in Hno.
    destruct Hno as [x [Hx Hmatch]]. apply negb_false_iff in Hmatch.
    unfold entry_matches in Hmatch. rewrite Hroot in Hmatch. cbn [app] in Hmatch.
    rewrite forallb_forall in Hnone. pose proof (Hnone x Hx) as Hxname.
    apply negb_true_iff in Hxname. rewrite Hxname in Hmatch.
    cbn [orb] in Hmatch.
    destruct (find_some_exists
                (fun f => endsWith (name f) (js "/" ++ path)) (files zip) x
                Hx Hmatch) as [g Hg].
    unfold keys. rewrite find_map, Hg. cbn [option_map].
    destruct (find_split _ _ _ Hg) as [before [after [Hfiles [Hsuffix Hbefore]]]].
    assert (Hfind : find (fun f => jseqb (name f) (name g)) (files zip)
                    = Some g).
    { rewrite Hfiles. apply find_first; [apply jseqb_refl|].
      apply forallb_forall. intros y Hy.
      rewrite forallb_forall in Hbefore. specialize (Hbefore y Hy).
      apply negb_true_iff in Hbefore. apply negb_true_iff.
      destruct (jseqb (name y) (name g)) eqn:E; [|reflexivity].
      apply jseqb_eq in E. congruence. }
    rewrite Hfind, (Hfile g).
    + exists g. split; [|reflexivity]. right. split.
      * apply forallb_forall. exact Hnone.
      * exists before, after. auto.
    + rewrite Hfiles. apply in_elt.
    + apply (endsWith_not_slash (name g) path Hpath Hsuffix).
Qed.

(** C8: on a valid zip archive with no entry matching project.json (by its
    name or by the end of its path), [unpackage] looks for an entry matching
    project.zip, then for one matching project: the first found is read and
    handed to the binary-blob classifier, and when there is neither it fails
    with "Input was a zip but we could not find a project." (the text
    patterns are never tried).  The archive is one as JSZip loads it: a root
    view in which the names of folders end with a slash. *)
Theorem unpackage_zip_without_project_json (host : Host) (blob : bytes)
  (zip : JSZip) :
  loadAsync host blob = Some zip ->
  root zip = [] ->
  folders_end_with_slash zip ->
  no_entry_matches zip (js "project.json") = true ->
  (no_entry_matches zip (js "project.zip") = false ->
   exists projectBinary,
     search_finds zip (js "project.zip") projectBinary
     /\ unpackage host blob
        = let* projectData := async_arraybuffer host projectBinary in
          unpackageBinaryBlob host projectData)
  /\ (no_entry_matches zip (js "project.zip") = true ->
      no_entry_matches zip (js "project") = false ->
      exists projectBinary,
        search_finds zip (js "project") projectBinary
        /\ unpackage host blob
           = let* projectData := async_arraybuffer host projectBinary in
             unpackageBinaryBlob host projectData)
  /\ (no_entry_matches zip (js "project.zip") = true ->
      no_entry_matches zip (js "project") = true ->
      unpackage host blob = Throw ZipMissingProject).
Proof.
  intros Hzip Hroot Hinv Hjson. unfold unpackage, unzipOrNull. rewrite Hzip.
  rewrite (findFileInZip_none _ _ Hjson). split; [|split].
  - intros Hz.
    destruct (findFileInZip_search zip (js "project.zip") Hroot Hinv eq_refl Hz)
      as [f [Hsearch Hfind]].
    exists f. split; [exact Hsearch|]. rewrite Hfind. reflexivity.
  - intros Hz Hp.
    destruct (findFileInZip_search zip (js "project") Hroot Hinv eq_refl Hp)
      as [f [Hsearch Hfind]].
    exists f. split; [exact Hsearch|].
    rewrite (findFileInZip_none _ _ Hz), Hfind. reflexivity.
  - intros Hz Hp.
    rewrite (findFileInZip_none _ _ Hz), (findFileInZip_none _ _ Hp).
    reflexivity.
Qed.

Lemma search_finds_matches (zip : JSZip) (path : jsstring) (f : ZipObject) :
  search_finds zip path f ->
  In f (files zip)
  /\ (jseqb (name f) path || endsWith (name f) (js "/" ++ path)) = true.
Proof.
  intros [[before [after [-> [Hf _]]]]|[_ [before [after [-> [Hf _]]]]]];
    (split; [apply in_elt|]); rewrite Hf; [reflexivity|apply orb_true_r].
Qed.

Lemma unpackage_zip_without_project_json_witness :
  unpackage exampleHost
    (example_archive [example_entry "htmlifier/project" (js "ScratchV01");
                      example_entry "a/project.zip" (js "ScratchV02")])
  = Ok {| type := sb; data := js "ScratchV02" |}.
Proof.
  destruct (unpackage_zip_without_project_json exampleHost
              (example_archive
                 [example_entry "htmlifier/project" (js "ScratchV01");
                  example_entry "a/project.zip" (js "ScratchV02")])
              {| root := [];
                 files := [{| name := js "htmlifier/project"; dir := false;
                              date := 0;
                              content := Stored 0 10 (js "ScratchV01") |};
                           {| name := js "a/project.zip"; dir := false;
                              date := 0;
                              content := Stored 0 10 (js "ScratchV02") |}] |}
              eq_refl eq_refl)
    as [Hzip _].
  - intros f [<-|[<-|[]]]; discriminate.
  - reflexivity.
  - destruct (Hzip eq_refl) as [f [Hsearch Hrun]]. rewrite Hrun.
    destruct (search_finds_matches _ _ _ Hsearch) as [[<-|[<-|[]]] Hmatch];
      [discriminate|reflexivity].
Defined.

(** ** [getContainingFolder] (lines 46-50) *)

Lemma join_with_snoc (sep : jsstring) (init : list jsstring) (x : jsstring) :
  join_with sep (init ++ [x])
  = match init with
    | [] => x
    | _ :: _ => join_with sep init ++ sep ++ x
    end.
Proof.
  destruct init as [|y init]; simpl; [apply app_nil_r|].
  rewrite flat_map_app. simpl. rewrite app_nil_r, app_assoc. reflexivity.
Qed.

Lemma includes_single (c : Z) (s : jsstring) :
  includes s [c] = true <-> In c s.
Proof.
  unfold includes. induction s as [|x s IH].
  - simpl. split; [discriminate|contradiction].
  - rewrite indexOf_cons, startsWith_single.
    pose proof (indexOf_lower s [c]) as Hlow.
    destruct (Z.eqb_spec c x) as [->|Hne].
    + split; [left; reflexivity|reflexivity].
    + destruct (Z.ltb_spec (indexOf s [c]) 0) as [Hneg|Hpos].
      * split; [discriminate|]. intros [H|H]; [congruence|].
        apply IH in H. apply Z.leb_le in H. lia.
      * split; [intros _; right; apply IH; apply Z.leb_le; exact Hpos|].
        intros _. apply Z.leb_le. lia.
Qed.

(** The pieces of a split at slashes: the last one has no slash, and the
    pieces joined with slashes give the string back. *)
Lemma split_slash (s cur : jsstring) :
  ~ In 47 cur ->
  exists init last,
    split_from [47] s 0 cur = init ++ [last]
    /\ ~ In 47 last
    /\ join_with [47] (init ++ [last]) = cur ++ s
    /\ (init = [] <-> ~ In 47 s).
Proof.
  revert cur. induction s as [|c s IH]; intros cur Hcur.
  - exists [], cur. simpl. rewrite !app_nil_r. tauto.
  - cbn [split_from]. rewrite startsWith_single.
    destruct (Z.eqb_spec 47 c) as [<-|Hne].
    + destruct (IH [] (fun H => H)) as [init [last [Hsplit [Hlast [Hjoin _]]]]].
      exists (cur :: init), last. cbn [List.length Nat.sub].
      rewrite Hsplit. split; [reflexivity|]. split; [exact Hlast|]. split.
      * cbn [app join_with]. cbn [app] in Hjoin. rewrite <- Hjoin.
        destruct init as [|y init]; simpl; rewrite ?app_nil_r; reflexivity.
      * split; [discriminate|]. intros H. exfalso. apply H. left. reflexivity.
    + destruct (IH (cur ++ [c])) as [init [last [Hsplit [Hlast [Hjoin Hinit]]]]].
      * intros H. apply in_app_or in H. destruct H as [H|[H|[]]]; auto.
      * exists init, last. split; [exact Hsplit|]. split; [exact Hlast|].
        split; [rewrite Hjoin, <- app_assoc; reflexivity|].
        rewrite Hinit. split; intros H.
        -- intros [E|E]; [congruence|contradiction].
        -- intros E. apply H. right. exact E.
Qed.

(** X6: [getContainingFolder] cuts a name at its last slash.  A name with a
    slash is its containing folder, a slash and a last part without slash; a
    name without slash has the empty string for its folder. *)
Theorem getContainingFolder_spec (name : jsstring) :
  exists base,
    ~ In 47 base
    /\ if includes name (js "/")
       then name = getContainingFolder name ++ js "/" ++ base
       else getContainingFolder name = [] /\ name = base.
Proof.
  unfold getContainingFolder, split. change (js "/") with [47].
  destruct (split_slash name [] (fun H => H))
    as [init [last [Hsplit [Hlast [Hjoin Hinit]]]]].
  exists last. split; [exact Hlast|].
  rewrite Hsplit, removelast_last. cbn [app] in Hjoin.
  rewrite join_with_snoc in Hjoin.
  destruct (includes name [47]) eqn:Hinc.
  - apply includes_single in Hinc.
    destruct init as [|y init]; [exfalso; apply (proj1 Hinit); auto|].
    symmetry. exact Hjoin.
  - destruct init as [|y init].
    + split; [reflexivity|symmetry; exact Hjoin].
    + exfalso. assert (Hno : ~ In 47 name).
      { intros H. apply includes_single in H. congruence. }
      apply Hinit in Hno. discriminate.
Qed.

Example getContainingFolder_nested :
  getContainingFolder (js "a/b/project.json") = js "a/b"
  /\ getContainingFolder (js "project.json") = [].
Proof. split; reflexivity. Qed.

(** ** The decoders on any input (lines 61-200) *)

Lemma Forall_firstn {A : Type} (P : A -> Prop) (n : nat) (l : list A) :
  Forall P l -> Forall P (firstn n l).
Proof.
  intros H. rewrite <- (firstn_skipn n l) in H.
  apply Forall_app in H. tauto.
Qed.

Lemma Forall_skipn {A : Type} (P : A -> Prop) (n : nat) (l : list A) :
  Forall P l -> Forall P (skipn n l).
Proof.
  intros H. rewrite <- (firstn_skipn n l) in H.
  apply Forall_app in H. tauto.
Qed.

Lemma Forall_repeat {A : Type} (P : A -> Prop) (x : A) (n : nat) :
  P x -> Forall P (repeat x n).
Proof. intros H. induction n; simpl; constructor; auto. Qed.

Lemma le32_bytes (w : Z) : Forall (fun b => 0 <= b < 256) (le32 w).
Proof.
  unfold le32. repeat constructor; apply Z.mod_pos_bound; lia.
Qed.

(** A write keeps the length of the buffer and leaves bytes in it. *)
Lemma setUint32_keeps (buf buf' : bytes) (viewLength j : Z) (v : option Z) :
  viewLength <= zlength buf ->
  setUint32 buf viewLength j v = Ok buf' ->
  zlength buf' = zlength buf
  /\ (Forall (fun b => 0 <= b < 256) buf ->
      Forall (fun b => 0 <= b < 256) buf').
Proof.
  intros Hview. unfold setUint32.
  destruct (Z.ltb_spec j 0) as [|Hj]; [discriminate|].
  destruct (Z.ltb_spec viewLength (j + 4)) as [|Hfit]; [discriminate|].
  cbn [orb]. intros H.
  assert (Hb : buf' = firstn (Z.to_nat j) buf
                 ++ le32 (match v with Some z => z mod 4294967296 | None => 0 end)
                 ++ skipn (Z.to_nat j + 4) buf) by congruence.
  clear H. subst buf'. split.
  - unfold zlength in *.
    rewrite !length_app, length_firstn, length_skipn. cbn [le32 List.length].
    lia.
  - intros Hbuf. apply Forall_app. split; [apply Forall_firstn; exact Hbuf|].
    apply Forall_app. split; [apply le32_bytes|apply Forall_skipn; exact Hbuf].
Qed.

Lemma chunkLoop_keeps (fuel : nat) (getValue : option Z -> option Z)
  (codeAt : Z -> option Z) (length viewLength i j : Z) (buf buf' : bytes) :
  viewLength <= zlength buf ->
  chunkLoop fuel getValue codeAt length viewLength i j buf = Ok buf' ->
  zlength buf' = zlength buf
  /\ (Forall (fun b => 0 <= b < 256) buf ->
      Forall (fun b => 0 <= b < 256) buf').
Proof.
  revert i j buf. induction fuel as [|fuel IH]; intros i j buf Hview;
    [discriminate|].
  cbn [chunkLoop]. destruct (i <? length).
  - destruct (setUint32 buf viewLength j _) as [buf1|] eqn:E; [|discriminate].
    cbn [bind]. intros H.
    destruct (setUint32_keeps _ _ _ _ _ Hview E) as [Hlen Hbytes].
    apply IH in H; [|lia]. destruct H as [Hlen' Hbytes'].
    split; [lia|auto].
  - intros H. injection H as <-. tauto.
Qed.

(** What the three decoders with a header do once the length is read. *)
Lemma decode_tail_keeps (max : Z) (fuel : nat)
  (getValue : option Z -> option Z) (codeAt : Z -> option Z)
  (length i C L : Z) (out : bytes) :
  (let* resultBuffer := ArrayBuffer max C in
   let* resultBuffer :=
     chunkLoop fuel getValue codeAt length (zlength resultBuffer) i 0
       resultBuffer in
   Uint8Array resultBuffer L) = Ok out ->
  zlength out = L /\ Forall (fun b => 0 <= b < 256) out.
Proof.
  unfold ArrayBuffer.
  destruct ((C <? 0) || (max <? C)); [discriminate|].
  cbn [bind].
  destruct (chunkLoop _ _ _ _ _ _ _ _) as [buf|] eqn:E; [|discriminate].
  cbn [bind]. apply chunkLoop_keeps in E; [|lia]. destruct E as [Hlen Hbytes].
  unfold Uint8Array.
  destruct (Z.ltb_spec L 0) as [|HL]; [discriminate|].
  destruct (Z.ltb_spec (zlength buf) L) as [|Hfit]; [discriminate|].
  cbn [orb]. intros H. injection H as <-. split.
  - unfold zlength in *. rewrite length_firstn. lia.
  - apply Forall_firstn, Hbytes, Forall_repeat. lia.
Qed.

Lemma decode_number_keeps (max : Z) (fuel : nat)
  (getValue : option Z -> option Z) (codeAt : Z -> option Z)
  (length i : Z) (n : jsnumber) (out : bytes) :
  (let* capacity := ToIndex (toMultipleOfFour_number n) in
   let* resultBuffer := ArrayBuffer max capacity in
   let* resultBuffer :=
     chunkLoop fuel getValue codeAt length (zlength resultBuffer) i 0
       resultBuffer in
   let* length := ToIndex n in
   Uint8Array resultBuffer length) = Ok out ->
  Forall (fun b => 0 <= b < 256) out /\ ToIndex n = Ok (zlength out).
Proof.
  destruct n as [z| |negative]; cbn [toMultipleOfFour_number ToIndex bind].
  - intros H. apply decode_tail_keeps in H. destruct H as [<- H]. auto.
  - intros H. apply decode_tail_keeps in H. destruct H as [-> H]. auto.
  - destruct (ArrayBuffer max 0) as [buf|]; [|discriminate]. cbn [bind].
    destruct (chunkLoop _ _ _ _ _ _ _ _); discriminate.
Qed.

(** X7: when the number the length header is read as is one of those
    modelled (an integer, [NaN] or an infinity; the header of version 3 is
    read after its characters are moved down by 49), a string that
    [decodeBase85WithLengthHeader] decodes gives bytes (integers from 0 to
    255), and exactly as many as that number is as an index: the integer
    itself, and none for [NaN]. *)
Theorem decodeBase85WithLengthHeader_length (host : Host) (str : jsstring)
  (n : jsnumber) (out : bytes) :
  (if regex_test re_decimal_header (substring str 0 (indexOf str (js ",")))
   then unary_plus (substring str 0 (indexOf str (js ",")))
   else unary_plus (decode_3_header str)) = Some n ->
  decodeBase85WithLengthHeader host str = Ok out ->
  Forall (fun b => 0 <= b < 256) out /\ ToIndex n = Ok (zlength out).
Proof.
  unfold decodeBase85WithLengthHeader.
  destruct (regex_test re_decimal_header _).
  - intros Hn. destruct (includes str [92]); unfold decode_1, decode_2;
      rewrite Hn; cbn [number]; rewrite bind_Ok;
      apply decode_number_keeps.
  - intros Hn. unfold decode_3. rewrite Hn. cbn [number]. rewrite bind_Ok.
    apply decode_number_keeps.
Qed.

Lemma decodeBase85WithLengthHeader_length_witness :
  (Forall (fun b => 0 <= b < 256) (js "Hell")
   /\ ToIndex (Int 4) = Ok (zlength (js "Hell")))
  /\ (Forall (fun b => 0 <= b < 256) []
      /\ ToIndex NaN = Ok (zlength (@nil Z))).
Proof.
  split.
  - apply (decodeBase85WithLengthHeader_length exampleHost (js "Qe,[c*rL"));
      reflexivity.
  - apply (decodeBase85WithLengthHeader_length exampleHost (js "x,"));
      reflexivity.
Defined.

(** Headers of version 3 that are not digits moved up by 49: a space before
    the digit, and a letter, which is read as [NaN]. *)
Example decode_3_header_with_space :
  decode_3_header (js "Qe,[c*rL") = js " 4"
  /\ decodeBase85WithLengthHeader exampleHost (js "Qe,[c*rL") = Ok (js "Hell").
Proof. split; reflexivity. Qed.

Example decode_3_header_not_a_number :
  unary_plus (decode_3_header (js "x,")) = Some NaN
  /\ decodeBase85WithLengthHeader exampleHost (js "x,") = Ok []
  /\ decodeBase85WithLengthHeader exampleHost (js "x,[c*rL")
     = Throw RangeError.
Proof. repeat split. Qed.

Example unary_plus_literals :
  unary_plus (js " 12 ") = Some (Int 12)
  /\ unary_plus (js "-3") = Some (Int (-3))
  /\ unary_plus (js "0x1F") = Some (Int 31)
  /\ unary_plus (js "0b12") = Some NaN
  /\ unary_plus (js "+0x10") = Some NaN
  /\ unary_plus (js "-Infinity") = Some (Infinity true)
  /\ unary_plus (js "1e") = Some NaN
  /\ unary_plus (js ".") = Some NaN
  /\ unary_plus (js "4.5") = None
  /\ unary_plus (js "1e3") = None.
Proof. repeat split. Qed.

(** X8: whatever the string and the length, when
    [decodeBase85WithoutLengthHeader] returns, it returns bytes and exactly
    as many as the caller asked for. *)
Theorem decodeBase85WithoutLengthHeader_length (host : Host) (str : jsstring)
  (length : Z) (out : bytes) :
  decodeBase85WithoutLengthHeader host str length = Ok out ->
  zlength out = length /\ Forall (fun b => 0 <= b < 256) out.
Proof.
  unfold decodeBase85WithoutLengthHeader, ArrayBuffer.
  destruct ((_ <? 0) || (_ <? _)); [discriminate|]. cbn [bind].
  unfold DataView.
  destruct (Z.ltb_spec (zlength str * 4 / 5) 0) as [|Hv0]; [discriminate|].
  destruct (Z.ltb_spec (zlength (repeat 0 (Z.to_nat (- (- length / 4) * 4))))
              (zlength str * 4 / 5)) as [|Hview]; [discriminate|].
  cbn [orb bind].
  destruct (chunkLoop _ _ _ _ _ _ _ _) as [buf|] eqn:E; [|discriminate].
  cbn [bind]. apply chunkLoop_keeps in E; [|lia]. destruct E as [Hlen Hbytes].
  unfold Uint8Array.
  destruct (Z.ltb_spec length 0) as [|HL]; [discriminate|].
  destruct (Z.ltb_spec (zlength buf) length) as [|Hfit]; [discriminate|].
  cbn [orb]. intros H. injection H as <-. split.
  - unfold zlength in *. rewrite length_firstn. lia.
  - apply Forall_firstn, Hbytes, Forall_repeat. lia.
Qed.

Lemma decodeBase85WithoutLengthHeader_length_witness :
  zlength (js "Hello") = 5 /\ Forall (fun b => 0 <= b < 256) (js "Hello").
Proof.
  apply (decodeBase85WithoutLengthHeader_length exampleHost
           (js "[c*rLD+***") 5).
  reflexivity.
Defined.

Lemma chunkLoop_S (fuel : nat) (getValue : option Z -> option Z)
  (codeAt : Z -> option Z) (length viewLength i j : Z) (buf : bytes) :
  chunkLoop (S fuel) getValue codeAt length viewLength i j buf
  = if i <? length then
      let* buf' :=
        setUint32 buf viewLength j (group_value getValue codeAt i) in
      chunkLoop fuel getValue codeAt length viewLength (i + 5) (j + 4) buf'
    else Ok buf.
Proof. reflexivity. Qed.

(** When more groups are left than words fit in the view, the loop ends in
    the [RangeError] of [setUint32]. *)
Lemma chunkLoop_overflow (getValue : option Z -> option Z)
  (codeAt : Z -> option Z) (length viewLength : Z) (room : nat) :
  forall (fuel : nat) (i j : Z) (buf : bytes),
    viewLength - j < 4 * (Z.of_nat room + 1) ->
    i + 5 * Z.of_nat room < length ->
    (room < fuel)%nat ->
    chunkLoop fuel getValue codeAt length viewLength i j buf
    = Throw RangeError.
Proof.
  induction room as [|room IH]; intros fuel i j buf Hview Hlen Hfuel;
    (destruct fuel as [|fuel]; [lia|]); cbn [chunkLoop];
    (replace (i <? length) with true by (symmetry; apply Z.ltb_lt; lia));
    unfold setUint32.
  - replace (viewLength <? j + 4) with true
      by (symmetry; apply Z.ltb_lt; lia).
    rewrite orb_true_r. reflexivity.
  - destruct ((j <? 0) || (viewLength <? j + 4)); [reflexivity|].
    cbn [bind]. apply IH; lia.
Qed.

Lemma declares_header (v : variant) (L : Z) (header payload : jsstring) :
  declares v L header ->
  v <> v4 ->
  indexOf (header ++ js "," ++ payload) (js ",") = zlength header
  /\ substring (header ++ js "," ++ payload) 0 (zlength header) = header
  /\ (if regex_test re_decimal_header header
      then unary_plus header
      else unary_plus (decode_3_header (header ++ js "," ++ payload)))
     = Some (Int L)
  /\ match v with
     | v3 => unary_plus (decode_3_header (header ++ js "," ++ payload))
     | _ => unary_plus header
     end = Some (Int L).
Proof.
  intros Hd Hv.
  assert (Hcomma : ~ In 44 header).
  { destruct v; try contradiction; destruct Hd as [_ [Hdig _]].
    - apply (is_digit_ascii header Hdig).
    - apply (is_digit_ascii header Hdig).
    - apply (v3_header header Hdig). }
  destruct (header_index header payload Hcomma) as [Hidx Hsub].
  split; [exact Hidx|]. split; [exact Hsub|].
  assert (H3 : v = v3 ->
               unary_plus (decode_3_header (header ++ js "," ++ payload))
               = Some (Int L) /\ regex_test re_decimal_header header = false).
  { intros ->. destruct Hd as [Hne [Hdig Hdec]].
    rewrite decode_3_header_map, Hidx, Hsub.
    rewrite (proj1 (v3_header header Hdig)).
    rewrite unary_plus_decimal, Hdec;
      [|destruct header; [contradiction|discriminate]|exact Hdig].
    split; [reflexivity|]. rewrite regex_test_decimal_header.
    destruct header as [|c h]; [contradiction|].
    cbn [map forallb] in Hdig. apply andb_true_iff in Hdig.
    destruct Hdig as [Hc _]. unfold is_digit in Hc.
    apply andb_true_iff in Hc. destruct Hc as [H0 H1].
    apply Z.leb_le in H0. apply Z.leb_le in H1.
    cbn [nonempty forallb]. unfold is_digit.
    replace (c <=? 57) with false by (symmetry; apply Z.leb_gt; lia).
    rewrite andb_false_r. reflexivity. }
  destruct v; try contradiction.
  - destruct Hd as [Hne [Hdig Hdec]].
    rewrite regex_test_decimal_header, Hdig.
    rewrite (unary_plus_decimal header Hne Hdig), Hdec.
    destruct header; [contradiction|]. split; reflexivity.
  - destruct Hd as [Hne [Hdig Hdec]].
    rewrite regex_test_decimal_header, Hdig.
    rewrite (unary_plus_decimal header Hne Hdig), Hdec.
    destruct header; [contradiction|]. split; reflexivity.
  - destruct (H3 eq_refl) as [Hu Hr]. rewrite Hr. split; exact Hu.
Qed.

(** X9: a payload with more groups of five characters than the declared
    (or supplied) length has room for is not truncated: in each of the four
    variants the decoder fails with a [RangeError]. *)
Theorem base85_payload_too_long (host : Host) (v : variant) (L : Z)
  (header payload : jsstring) :
  0 <= L ->
  toMultipleOfFour L <= maxByteLength host ->
  declares v L header ->
  5 * (toMultipleOfFour L / 4) < zlength payload ->
  run_variant host v L header payload = Throw RangeError.
Proof.
  intros HL Hmax Hd Hlong.
  destruct (toMultipleOfFour_spec L HL) as [Hfour [Hle Hceil]].
  set (n := Z.to_nat (toMultipleOfFour L / 4)).
  assert (Hstr : zlength (header ++ js "," ++ payload)
                 = zlength header + 1 + zlength payload)
    by (rewrite !zlength_app; change (zlength (js ",")) with 1; lia).
  pose proof (zlength_nonneg header) as Hh.
  assert (Hloop : forall getValue codeAt,
             chunkLoop (S (List.length (header ++ js "," ++ payload)))
               getValue codeAt (zlength (header ++ js "," ++ payload))
               (zlength (repeat 0 (Z.to_nat (toMultipleOfFour L))))
               (zlength header + 1) 0
               (repeat 0 (Z.to_nat (toMultipleOfFour L)))
             = Throw RangeError).
  { intros getValue codeAt. apply (chunkLoop_overflow _ _ _ _ n).
    - rewrite zlength_repeat. lia.
    - lia.
    - unfold zlength in *. lia. }
  destruct v; cbn [run_variant].
  - destruct (declares_header v1 L header payload Hd) as [Hi [Hs [_ Hu]]];
      [discriminate|].
    unfold decode_1. rewrite Hi, Hs, Hu. cbn [number bind ToIndex toMultipleOfFour_number].
    rewrite ArrayBuffer_ok by lia. cbn [bind]. rewrite Hloop. reflexivity.
  - destruct (declares_header v2 L header payload Hd) as [Hi [Hs [_ Hu]]];
      [discriminate|].
    unfold decode_2. rewrite Hi, Hs, Hu. cbn [number bind ToIndex toMultipleOfFour_number].
    rewrite ArrayBuffer_ok by lia. cbn [bind]. rewrite Hloop. reflexivity.
  - destruct (declares_header v3 L header payload Hd) as [Hi [Hs [_ Hu]]];
      [discriminate|].
    unfold decode_3. rewrite Hu, Hi. cbn [number bind ToIndex toMultipleOfFour_number].
    rewrite ArrayBuffer_ok by lia. cbn [bind]. rewrite Hloop. reflexivity.
  - unfold decodeBase85WithoutLengthHeader.
    rewrite Hceil, ArrayBuffer_ok by lia. cbn [bind]. unfold DataView.
    destruct ((_ <? 0) || (_ <? _)) eqn:Hview; [reflexivity|]. cbn [bind].
    apply orb_false_iff in Hview. destruct Hview as [_ Hview].
    apply Z.ltb_ge in Hview. rewrite zlength_repeat in Hview.
    rewrite (chunkLoop_overflow _ _ _ _ n); [reflexivity|lia|lia|].
    unfold zlength in *. lia.
Qed.

Lemma base85_payload_too_long_witness :
  run_variant exampleHost v1 1 (js "1") (js "[))))[))))") = Throw RangeError
  /\ run_variant exampleHost v4 1 [] (js "\****\****") = Throw RangeError.
Proof.
  split.
  - apply (base85_payload_too_long exampleHost v1 1 (js "1"));
      [lia|vm_compute; discriminate
      |split; [discriminate|split; reflexivity]|reflexivity].
  - apply (base85_payload_too_long exampleHost v4 1 []);
      [lia|vm_compute; discriminate|reflexivity|reflexivity].
Defined.

(** X11: version 4 has no room for a group that is cut short: on a string
    whose length is not a multiple of five,
    [decodeBase85WithoutLengthHeader] fails with a [RangeError], whatever
    the length asked for. *)
Theorem decodeBase85WithoutLengthHeader_partial_group (host : Host)
  (str : jsstring) (length : Z) :
  zlength str mod 5 <> 0 ->
  decodeBase85WithoutLengthHeader host str length = Throw RangeError.
Proof.
  intros Hmod. unfold decodeBase85WithoutLengthHeader, ArrayBuffer.
  destruct ((_ <? 0) || (_ <? _)); [reflexivity|]. cbn [bind].
  unfold DataView.
  destruct ((_ <? 0) || (_ <? _)); [reflexivity|]. cbn [bind].
  pose proof (zlength_nonneg str) as Hs.
  rewrite (chunkLoop_overflow _ _ _ _ (Z.to_nat (zlength str / 5)));
    [reflexivity| | |].
  - rewrite Z2Nat.id by (apply Z.div_pos; lia).
    Z.to_euclidean_division_equations. lia.
  - rewrite Z2Nat.id by (apply Z.div_pos; lia).
    Z.to_euclidean_division_equations. lia.
  - unfold zlength in *.
    assert (Z.of_nat (List.length str) / 5 <= Z.of_nat (List.length str))
      by (Z.to_euclidean_division_equations; lia).
    lia.
Qed.

Lemma decodeBase85WithoutLengthHeader_partial_group_witness :
  decodeBase85WithoutLengthHeader exampleHost (js "[c*rLD+**") 5
  = Throw RangeError.
Proof.
  apply decodeBase85WithoutLengthHeader_partial_group.
  vm_compute. discriminate.
Defined.

(** X12: a string without a comma has the empty header, which is read as
    version 3 with the length 0: the empty string decodes to no bytes, and
    any other string fails with a [RangeError] at the first write. *)
Theorem decodeBase85WithLengthHeader_no_comma (host : Host) (str : jsstring) :
  includes str (js ",") = false ->
  0 <= maxByteLength host ->
  decodeBase85WithLengthHeader host str
  = match str with
    | [] => Ok []
    | _ :: _ => Throw RangeError
    end.
Proof.
  intros Hno Hmax. unfold includes in Hno. apply Z.leb_gt in Hno.
  pose proof (indexOf_lower str (js ",")) as Hlow.
  assert (Hidx : indexOf str (js ",") = -1) by lia.
  assert (Hsub : substring str 0 (-1) = []).
  { unfold substring, clamp. pose proof (zlength_nonneg str).
    rewrite Z.max_id, (Z.max_r (-1) 0), Z.min_l by lia. reflexivity. }
  unfold decodeBase85WithLengthHeader. rewrite Hidx, Hsub.
  change (regex_test re_decimal_header []) with false. cbv iota.
  unfold decode_3. rewrite decode_3_header_map, Hidx, Hsub.
  cbn [map]. change (unary_plus []) with (Some (Int 0)).
  cbn [number bind ToIndex toMultipleOfFour_number].
  change (toMultipleOfFour 0) with 0.
  rewrite ArrayBuffer_ok by lia. cbn [bind].
  change (repeat 0 (Z.to_nat 0)) with (@nil Z). change (-1 + 1) with 0.
  destruct str as [|c s]; [reflexivity|].
  rewrite chunkLoop_S, zlength_cons. pose proof (zlength_nonneg s).
  replace (0 <? zlength s + 1) with true by (symmetry; apply Z.ltb_lt; lia).
  reflexivity.
Qed.

Lemma decodeBase85WithLengthHeader_no_comma_witness :
  decodeBase85WithLengthHeader exampleHost (js "Zb)qK") = Throw RangeError.
Proof.
  apply (decodeBase85WithLengthHeader_no_comma exampleHost (js "Zb)qK"));
    [reflexivity|vm_compute; discriminate].
Defined.

(** A group that is cut short has [NaN] for its value, which is written as
    four zero bytes. *)
Lemma setUint32_NaN (pre : bytes) (r : nat) (viewLength : Z) :
  zlength pre + 4 <= viewLength ->
  setUint32 (pre ++ repeat 0 (4 + r)) viewLength (zlength pre) None
  = Ok (pre ++ repeat 0 (4 + r)).
Proof.
  intros Hview. unfold setUint32. pose proof (zlength_nonneg pre).
  replace (zlength pre <? 0) with false by (symmetry; apply Z.ltb_ge; lia).
  replace (viewLength <? zlength pre + 4) with false
    by (symmetry; apply Z.ltb_ge; lia).
  cbn [orb]. rewrite firstn_zlength_app, skipn_zlength_app. reflexivity.
Qed.

Lemma group_value_NaN (getValue : option Z -> option Z)
  (codeAt : Z -> option Z) (i : Z) :
  getValue None = None -> codeAt (i + 4) = None ->
  group_value getValue codeAt i = None.
Proof.
  intros Hnan Hc. unfold group_value. rewrite Hc, Hnan. reflexivity.
Qed.

Lemma length_words_le (value : Z -> Z) (m : nat) (p : jsstring) :
  (List.length p <= 5 * m)%nat -> (List.length (words value p) <= m)%nat.
Proof.
  revert p. induction m as [|m IH]; intros p Hlen.
  - destruct p; [simpl; lia|simpl in Hlen; lia].
  - destruct p as [|c0 [|c1 [|c2 [|c3 [|c4 p]]]]]; try (simpl; lia).
    cbn [words List.length]. apply le_n_S, IH. simpl in Hlen. lia.
Qed.

(** The loop on a payload of at most [m] groups, the last of which may be
    cut short: the words of the whole groups, and zeros after them. *)
Lemma chunkLoop_words_short (getValue : option Z -> option Z)
  (value : Z -> Z) (codeAt : Z -> option Z) (length viewLength : Z) :
  (forall c, getValue (Some c) = Some (value c)) ->
  getValue None = None ->
  forall (m : nat) (p : jsstring) (fuel : nat) (i : Z) (pre : bytes) (r : nat),
    (List.length p <= 5 * m)%nat ->
    (forall t, codeAt (i + Z.of_nat t) = nth_error p t) ->
    length = i + zlength p ->
    (4 * m <= r)%nat ->
    zlength pre + 4 * Z.of_nat m <= viewLength ->
    (m < fuel)%nat ->
    chunkLoop fuel getValue codeAt length viewLength i (zlength pre)
      (pre ++ repeat 0 r)
    = Ok (pre ++ flat_map le32 (words value p)
            ++ repeat 0 (r - 4 * List.length (words value p))).
Proof.
  intros Hv Hnan. induction m as [|m IH];
    intros p fuel i pre r Hlen Hcode Hl Hr Hview Hfuel;
    (destruct fuel as [|fuel]; [lia|]); rewrite chunkLoop_S.
  - destruct p; [|simpl in Hlen; lia]. rewrite Hl. unfold zlength at 1.
    cbn [List.length Z.of_nat].
    replace (i <? i + 0) with false by (symmetry; apply Z.ltb_ge; lia).
    cbn [words flat_map List.length app]. rewrite Nat.sub_0_r. reflexivity.
  - destruct p as [|c0 [|c1 [|c2 [|c3 [|c4 p]]]]].
    + rewrite Hl. unfold zlength at 1. cbn [List.length Z.of_nat].
      replace (i <? i + 0) with false by (symmetry; apply Z.ltb_ge; lia).
      cbn [words flat_map List.length app]. rewrite Nat.sub_0_r.
      reflexivity.
    + replace (i <? length) with true
        by (symmetry; apply Z.ltb_lt; rewrite Hl, zlength_cons;
            pose proof (zlength_nonneg (@nil Z)); lia).
      rewrite group_value_NaN by (try exact Hnan; apply (Hcode 4%nat)).
      replace r with (4 + (r - 4))%nat at 1 by lia.
      rewrite setUint32_NaN by lia. cbn [bind].
      replace (4 + (r - 4))%nat with r by lia.
      destruct fuel as [|fuel]; [lia|]. rewrite chunkLoop_S.
      replace (i + 5 <? length) with false
        by (symmetry; apply Z.ltb_ge; rewrite Hl; unfold zlength; simpl; lia).
      cbn [words flat_map List.length app]. rewrite Nat.sub_0_r.
      reflexivity.
    + replace (i <? length) with true
        by (symmetry; apply Z.ltb_lt; rewrite Hl; unfold zlength; simpl; lia).
      rewrite group_value_NaN by (try exact Hnan; apply (Hcode 4%nat)).
      replace r with (4 + (r - 4))%nat at 1 by lia.
      rewrite setUint32_NaN by lia. cbn [bind].
      replace (4 + (r - 4))%nat with r by lia.
      destruct fuel as [|fuel]; [lia|]. rewrite chunkLoop_S.
      replace (i + 5 <? length) with false
        by (symmetry; apply Z.ltb_ge; rewrite Hl; unfold zlength; simpl; lia).
      cbn [words flat_map List.length app]. rewrite Nat.sub_0_r.
      reflexivity.
    + replace (i <? length) with true
        by (symmetry; apply Z.ltb_lt; rewrite Hl; unfold zlength; simpl; lia).
      rewrite group_value_NaN by (try exact Hnan; apply (Hcode 4%nat)).
      replace r with (4 + (r - 4))%nat at 1 by lia.
      rewrite setUint32_NaN by lia. cbn [bind].
      replace (4 + (r - 4))%nat with r by lia.
      destruct fuel as [|fuel]; [lia|]. rewrite chunkLoop_S.
      replace (i + 5 <? length) with false
        by (symmetry; apply Z.ltb_ge; rewrite Hl; unfold zlength; simpl; lia).
      cbn [words flat_map List.length app]. rewrite Nat.sub_0_r.
      reflexivity.
    + replace (i <? length) with true
        by (symmetry; apply Z.ltb_lt; rewrite Hl; unfold zlength; simpl; lia).
      rewrite group_value_NaN by (try exact Hnan; apply (Hcode 4%nat)).
      replace r with (4 + (r - 4))%nat at 1 by lia.
      rewrite setUint32_NaN by lia. cbn [bind].
      replace (4 + (r - 4))%nat with r by lia.
      destruct fuel as [|fuel]; [lia|]. rewrite chunkLoop_S.
      replace (i + 5 <? length) with false
        by (symmetry; apply Z.ltb_ge; rewrite Hl; unfold zlength; simpl; lia).
      cbn [words flat_map List.length app]. rewrite Nat.sub_0_r.
      reflexivity.
    + assert (Hp : zlength (c0 :: c1 :: c2 :: c3 :: c4 :: p) = zlength p + 5)
        by (rewrite !zlength_cons; lia).
      pose proof (zlength_nonneg p).
      replace (i <? length) with true by (symmetry; apply Z.ltb_lt; lia).
      rewrite (group_value_words getValue value codeAt i c0 c1 c2 c3 c4 Hv);
        [|generalize (Hcode 0%nat); simpl; rewrite Z.add_0_r; auto
         |exact (Hcode 1%nat)|exact (Hcode 2%nat)|exact (Hcode 3%nat)
         |exact (Hcode 4%nat)].
      replace r with (4 + (r - 4))%nat at 1 by lia.
      rewrite setUint32_zeros by lia. cbn [bind].
      match goal with
      | |- context [(pre ++ le32 ?w) ++ _] =>
          replace (zlength pre + 4) with (zlength (pre ++ le32 w))
            by (rewrite zlength_app; reflexivity)
      end.
      rewrite (IH p).
      * replace (r - 4 * List.length
                         (words value (c0 :: c1 :: c2 :: c3 :: c4 :: p)))%nat
          with (r - 4 - 4 * List.length (words value p))%nat
          by (cbn [words List.length]; lia).
        cbn [words flat_map]. rewrite <- !app_assoc. reflexivity.
      * simpl in Hlen. lia.
      * intros t. replace (i + 5 + Z.of_nat t) with (i + Z.of_nat (5 + t))
          by lia.
        rewrite Hcode. reflexivity.
      * lia.
      * lia.
      * rewrite zlength_app. change (zlength (le32 _)) with 4. lia.
      * lia.
Qed.

Lemma firstn_repeat_le {A : Type} (x : A) (k a : nat) :
  (k <= a)%nat -> firstn k (repeat x a) = repeat x k.
Proof.
  revert a. induction k as [|k IH]; intros a Hk; [reflexivity|].
  destruct a as [|a]; [lia|]. simpl. f_equal. apply IH. lia.
Qed.

Lemma firstn_app_zeros (W : bytes) (L a b : nat) :
  (L <= List.length W + a)%nat -> (L <= List.length W + b)%nat ->
  firstn L (W ++ repeat 0 a) = firstn L (W ++ repeat 0 b).
Proof.
  intros Ha Hb. rewrite !firstn_app, !firstn_repeat_le by lia. reflexivity.
Qed.

Lemma getValue_NaN :
  decode_1_getValue None = None /\ decode_2_getValue None = None
  /\ decode_3_getValue None = None /\ getBase85DecodeValue None = None.
Proof. repeat split. Qed.

Lemma decode_with_header_short (max : Z) (getValue : option Z -> option Z)
  (value : Z -> Z) (codeAt : Z -> option Z) (header payload : jsstring)
  (L : Z) :
  (forall c, getValue (Some c) = Some (value c)) ->
  getValue None = None ->
  (forall t, codeAt (zlength header + 1 + Z.of_nat t) = nth_error payload t) ->
  0 <= L ->
  toMultipleOfFour L <= max ->
  zlength payload <= 5 * (toMultipleOfFour L / 4) ->
  (let* resultBuffer := ArrayBuffer max (toMultipleOfFour L) in
   let* resultBuffer :=
     chunkLoop (S (List.length (header ++ 44 :: payload))) getValue codeAt
       (zlength (header ++ 44 :: payload)) (zlength resultBuffer)
       (zlength header + 1) 0 resultBuffer in
   Uint8Array resultBuffer L)
  = Ok (firstn (Z.to_nat L)
          (flat_map le32 (words value payload) ++ repeat 0 (Z.to_nat L))).
Proof.
  intros Hv Hnan Hcode HL Hmax Hlen.
  destruct (toMultipleOfFour_spec L HL) as [Hfour [Hle _]].
  set (n := Z.to_nat (toMultipleOfFour L / 4)).
  set (m := Z.to_nat ((zlength payload + 4) / 5)).
  pose proof (zlength_nonneg payload) as Hp0.
  assert (Hm : Z.of_nat m = (zlength payload + 4) / 5)
    by (unfold m; rewrite Z2Nat.id by (apply Z.div_pos; lia); reflexivity).
  assert (Hmp : (List.length payload <= 5 * m)%nat)
    by (unfold zlength in *; Z.to_euclidean_division_equations; lia).
  assert (Hmn : (m <= n)%nat)
    by (unfold n; Z.to_euclidean_division_equations; lia).
  assert (Hml : (m <= List.length payload)%nat)
    by (unfold zlength in *; Z.to_euclidean_division_equations; lia).
  pose proof (length_words_le value m payload Hmp) as Hwords.
  rewrite ArrayBuffer_ok by lia. cbn [bind].
  replace (Z.to_nat (toMultipleOfFour L)) with (4 * n)%nat by lia.
  rewrite zlength_repeat.
  rewrite (chunkLoop_words_short getValue value codeAt _ _ Hv Hnan m payload
             _ _ [] (4 * n)%nat Hmp Hcode).
  - cbn [bind app]. rewrite Uint8Array_ok.
    + f_equal. apply firstn_app_zeros; rewrite length_flat_map_le32; lia.
    + unfold zlength. rewrite length_app, length_flat_map_le32, repeat_length.
      lia.
  - rewrite zlength_app, zlength_cons. lia.
  - lia.
  - change (zlength (@nil Z)) with 0. lia.
  - rewrite length_app. simpl. lia.
Qed.

(** X10: a payload of digits that stops early is accepted.  With fewer
    groups than the declared (or supplied) length calls for, the decoder
    returns the declared number of bytes: the words of the groups that are
    there, then zeros.  In versions 1 to 3 a last group cut short counts for
    nothing; version 4 needs whole groups. *)
Theorem base85_short_payload (host : Host) (v : variant) (L : Z)
  (header payload : jsstring) :
  0 <= L ->
  toMultipleOfFour L <= maxByteLength host ->
  declares v L header ->
  forallb (is_base85_digit v) payload = true ->
  zlength payload <= 5 * (toMultipleOfFour L / 4) ->
  (v = v4 -> zlength payload mod 5 = 0) ->
  run_variant host v L header payload
  = Ok (firstn (Z.to_nat L)
          (flat_map le32 (words (digit_value v) payload)
             ++ repeat 0 (Z.to_nat L))).
Proof.
  intros HL Hmax Hd Hp Hlen Hwhole.
  destruct getValue_NaN as [N1 [N2 [N3 N4]]].
  destruct v; cbn [run_variant].
  - destruct (declares_header v1 L header payload Hd) as [Hi [Hs [_ Hu]]];
      [discriminate|].
    destruct Hd as [_ [Hdig _]].
    unfold decode_1. rewrite Hi, Hs, Hu. cbn [number bind ToIndex toMultipleOfFour_number].
    rewrite (ascii_string header payload (proj1 (is_digit_ascii _ Hdig))
               (is_base85_digit_ascii v1 _ Hp)).
    apply decode_with_header_short; try assumption.
    + intros c. apply (getValue_digit_value v1).
    + intros t. apply charCodeAt_payload.
  - destruct (declares_header v2 L header payload Hd) as [Hi [Hs [_ Hu]]];
      [discriminate|].
    destruct Hd as [_ [Hdig _]].
    unfold decode_2. rewrite Hi, Hs, Hu. cbn [number bind ToIndex toMultipleOfFour_number].
    rewrite (ascii_string header payload (proj1 (is_digit_ascii _ Hdig))
               (is_base85_digit_ascii v2 _ Hp)).
    apply decode_with_header_short; try assumption.
    + intros c. apply (getValue_digit_value v2).
    + intros t. apply charCodeAt_payload.
  - destruct (declares_header v3 L header payload Hd) as [Hi [Hs [_ Hu]]];
      [discriminate|].
    unfold decode_3. rewrite Hu, Hi. cbn [number bind ToIndex toMultipleOfFour_number].
    apply decode_with_header_short; try assumption.
    + intros c. apply (getValue_digit_value v3).
    + intros t. apply charCodeAt_payload.
  - specialize (Hwhole eq_refl).
    destruct (toMultipleOfFour_spec L HL) as [Hfour [Hle Hceil]].
    set (n := Z.to_nat (toMultipleOfFour L / 4)).
    set (m := Z.to_nat (zlength payload / 5)).
    pose proof (zlength_nonneg payload) as Hp0.
    assert (Hm : zlength payload = 5 * Z.of_nat m)
      by (unfold m; rewrite Z2Nat.id by (apply Z.div_pos; lia);
          Z.to_euclidean_division_equations; lia).
    assert (Hview : zlength payload * 4 / 5 = 4 * Z.of_nat m)
      by (rewrite Hm; Z.to_euclidean_division_equations; lia).
    assert (Hmn : (m <= n)%nat) by lia.
    pose proof (length_words_le (digit_value v4) m payload
                  ltac:(unfold zlength in Hm; lia)) as Hwords.
    unfold decodeBase85WithoutLengthHeader.
    rewrite Hceil, ArrayBuffer_ok by lia. cbn [bind].
    replace (Z.to_nat (toMultipleOfFour L)) with (4 * n)%nat by lia.
    unfold DataView. rewrite zlength_repeat, Hview.
    replace (4 * Z.of_nat m <? 0) with false by (symmetry; apply Z.ltb_ge; lia).
    replace (Z.of_nat (4 * n) <? 4 * Z.of_nat m) with false
      by (symmetry; apply Z.ltb_ge; lia).
    cbn [orb bind].
    rewrite (chunkLoop_words_short getBase85DecodeValue (digit_value v4)
               (charCodeAt payload) _ _ (getValue_digit_value v4) N4 m payload
               _ _ [] (4 * n)%nat).
    + cbn [bind app]. rewrite Uint8Array_ok.
      * f_equal. apply firstn_app_zeros; rewrite length_flat_map_le32; lia.
      * unfold zlength.
        rewrite length_app, length_flat_map_le32, repeat_length. lia.
    + unfold zlength in Hm. lia.
    + intros t. unfold charCodeAt. cbn [Z.add].
      replace (Z.of_nat t <? 0) with false by (symmetry; apply Z.ltb_ge; lia).
      rewrite Nat2Z.id. reflexivity.
    + lia.
    + lia.
    + change (zlength (@nil Z)) with 0. lia.
    + unfold zlength in *. lia.
Qed.

Lemma base85_short_payload_witness :
  run_variant exampleHost v1 5 (js "5") (js "Zb)qKC*") = Ok (js "Hell" ++ [0])
  /\ run_variant exampleHost v4 5 [] (js "[c*rL") = Ok (js "Hell" ++ [0]).
Proof.
  split.
  - rewrite (base85_short_payload exampleHost v1 5 (js "5") (js "Zb)qKC*"));
      [reflexivity|lia|vm_compute; discriminate
      |split; [discriminate|split; reflexivity]|reflexivity
      |vm_compute; discriminate|discriminate].
  - rewrite (base85_short_payload exampleHost v4 5 [] (js "[c*rL"));
      [reflexivity|lia|vm_compute; discriminate|reflexivity|reflexivity
      |vm_compute; discriminate|reflexivity].
Defined.

(** ** The digits of the four variants (lines 66-71, 101-105, 133-137,
    182-186) *)

Ltac bools_to_props H :=
  repeat first
    [ rewrite andb_true_iff in H | rewrite orb_true_iff in H
    | rewrite negb_true_iff in H | rewrite Z.leb_le in H
    | rewrite Z.eqb_eq in H | rewrite Z.eqb_neq in H ].

Ltac props_to_bools :=
  repeat first
    [ rewrite andb_true_iff | rewrite orb_true_iff | rewrite negb_true_iff
    | rewrite Z.leb_le | rewrite Z.eqb_eq | rewrite Z.eqb_neq ].

Lemma digit_value_v1_cases (c : Z) :
  (c = 126 /\ digit_value v1 c = 51)
  \/ (c <> 126 /\ digit_value v1 c = c - 41).
Proof.
  unfold digit_value. destruct (Z.eqb_spec c 126); [left|right]; split; lia.
Qed.

Lemma digit_value_v2_cases (c : Z) :
  (c = 40 /\ digit_value v2 c = 18) \/ (c = 41 /\ digit_value v2 c = 20)
  \/ (c <> 40 /\ c <> 41 /\ digit_value v2 c = c - 42).
Proof.
  unfold digit_value. destruct (Z.eqb_spec c 40); [left; split; lia|].
  destruct (Z.eqb_spec c 41); [right; left; split; lia|].
  right. right. repeat split; lia.
Qed.

(** X13: the digit values of version 1 are a one-to-one correspondence
    between its alphabet (the codes 0x29 to 0x7e without 0x5c) and the
    numbers 0 to 84. *)
Theorem decode_1_getValue_bijective :
  (forall c, alphabet_v1 c = true ->
             exists d, decode_1_getValue (Some c) = Some d /\ 0 <= d < 85)
  /\ (forall c c', alphabet_v1 c = true -> alphabet_v1 c' = true ->
                   decode_1_getValue (Some c) = decode_1_getValue (Some c') ->
                   c = c')
  /\ (forall d, 0 <= d < 85 ->
                exists c, alphabet_v1 c = true
                          /\ decode_1_getValue (Some c) = Some d).
Proof.
  split; [|split].
  - intros c Hc. rewrite (getValue_digit_value v1). eexists.
    split; [reflexivity|]. unfold alphabet_v1 in Hc. bools_to_props Hc.
    destruct (digit_value_v1_cases c) as [[? ->]|[? ->]]; lia.
  - intros c c' Hc Hc'. rewrite !(getValue_digit_value v1).
    intros H0. assert (H : digit_value v1 c = digit_value v1 c') by congruence.
    clear H0.
    unfold alphabet_v1 in Hc, Hc'. bools_to_props Hc. bools_to_props Hc'.
    destruct (digit_value_v1_cases c) as [[? Hd]|[? Hd]];
      destruct (digit_value_v1_cases c') as [[? Hd']|[? Hd']];
      rewrite Hd, Hd' in H; lia.
  - intros d Hd. exists (if d =? 51 then 126 else d + 41).
    rewrite (getValue_digit_value v1). unfold alphabet_v1.
    destruct (Z.eqb_spec d 51) as [->|Hne]; [split; reflexivity|].
    split.
    + props_to_bools. lia.
    + f_equal. destruct (digit_value_v1_cases (d + 41)) as [[? ->]|[? ->]]; lia.
Qed.

(** X14: versions 2, 3 and 4 read a character in the same way, and their
    digit values are a one-to-one correspondence between their alphabet (the
    codes 0x2a to 0x7e, with 0x28 and 0x29 in the place of 0x3c and 0x3e)
    and the numbers 0 to 84. *)
Theorem decode_2_getValue_bijective :
  (forall code, decode_3_getValue code = decode_2_getValue code
                /\ getBase85DecodeValue code = decode_2_getValue code)
  /\ (forall c, alphabet_v2 c = true ->
                exists d, decode_2_getValue (Some c) = Some d /\ 0 <= d < 85)
  /\ (forall c c', alphabet_v2 c = true -> alphabet_v2 c' = true ->
                   decode_2_getValue (Some c) = decode_2_getValue (Some c') ->
                   c = c')
  /\ (forall d, 0 <= d < 85 ->
                exists c, alphabet_v2 c = true
                          /\ decode_2_getValue (Some c) = Some d).
Proof.
  split; [intros code; split; reflexivity|]. split; [|split].
  - intros c Hc. rewrite (getValue_digit_value v2). eexists.
    split; [reflexivity|]. unfold alphabet_v2 in Hc. bools_to_props Hc.
    destruct (digit_value_v2_cases c) as [[? ->]|[[? ->]|[? [? ->]]]]; lia.
  - intros c c' Hc Hc'. rewrite !(getValue_digit_value v2).
    intros H0. assert (H : digit_value v2 c = digit_value v2 c') by congruence.
    clear H0.
    unfold alphabet_v2 in Hc, Hc'. bools_to_props Hc. bools_to_props Hc'.
    destruct (digit_value_v2_cases c) as [[? Hd]|[[? Hd]|[? [? Hd]]]];
      destruct (digit_value_v2_cases c') as [[? Hd']|[[? Hd']|[? [? Hd']]]];
      rewrite Hd, Hd' in H; lia.
  - intros d Hd.
    exists (if d =? 18 then 40 else if d =? 20 then 41 else d + 42).
    rewrite (getValue_digit_value v2). unfold alphabet_v2.
    destruct (Z.eqb_spec d 18) as [->|H18]; [split; reflexivity|].
    destruct (Z.eqb_spec d 20) as [->|H20]; [split; reflexivity|].
    split.
    + props_to_bools. lia.
    + f_equal.
      destruct (digit_value_v2_cases (d + 42)) as [[? ->]|[[? ->]|[? [? ->]]]];
        lia.
Qed.

(** ** [toMultipleOfFour] (lines 72-77, 106-111, 138-143, 188) *)

(** X15: on a length that is not negative, [toMultipleOfFour] gives the
    least multiple of four that is not below it, which is also what
    [Math.ceil(length / 4) * 4] of version 4 gives. *)
Theorem toMultipleOfFour_least (n : Z) :
  0 <= n ->
  toMultipleOfFour n mod 4 = 0
  /\ n <= toMultipleOfFour n < n + 4
  /\ (forall m, n <= m -> m mod 4 = 0 -> toMultipleOfFour n <= m)
  /\ - ((- n) / 4) * 4 = toMultipleOfFour n.
Proof.
  intros Hn. destruct (toMultipleOfFour_spec n Hn) as [Hfour [Hle Hceil]].
  assert (Hlt : toMultipleOfFour n < n + 4).
  { unfold toMultipleOfFour. rewrite Z.rem_mod_nonneg by lia.
    destruct (Z.eqb_spec (n mod 4) 0); Z.to_euclidean_division_equations; lia. }
  split; [Z.to_euclidean_division_equations; lia|].
  split; [lia|]. split; [|exact Hceil].
  intros m Hm Hm4. Z.to_euclidean_division_equations. lia.
Qed.

Lemma toMultipleOfFour_least_witness :
  toMultipleOfFour 5 mod 4 = 0 /\ 5 <= toMultipleOfFour 5 < 5 + 4.
Proof.
  destruct (toMultipleOfFour_least 5 ltac:(lia)) as [H1 [H2 _]].
  split; [exact H1|exact H2].
Defined.

(** ** What the extractor removes (lines 290-304) *)

Lemma is_class_extra (path : jsstring) : is_class Extra path = is_extra path.
Proof.
  unfold is_class, is_extra. rewrite classify_shapes.
  destruct (jseqb path (js "project.json")); [reflexivity|].
  destruct (sb3_shape path), (sb2_shape path); reflexivity.
Qed.

Lemma fold_scan_innerZip (host : Host) (names : list jsstring) (s : scan) :
  innerZip (fold_left (scan_path host) names s)
  = fold_left (remove host) (filter is_extra names) (innerZip s).
Proof.
  revert s. induction names as [|path names IH]; intros s; [reflexivity|].
  cbn [fold_left filter]. rewrite IH, <- is_class_extra.
  unfold scan_path, is_class. destruct (classify path); reflexivity.
Qed.

(** X16: when the dispatcher finds project.json in a zip archive, the
    archive it rebuilds is the folder view after the removal, in the order
    of the names, of exactly the names that are neither project.json nor of
    the sb3 or sb2 shape: [remove] is called for no other name.  It returns
    when JSZip generates that archive, and fails as JSZip does when it does
    not. *)
Theorem unpackage_removes_extras (host : Host) (blob : bytes) (zip : JSZip)
  (projectJSON : ZipObject) :
  loadAsync host blob = Some zip ->
  findFileInZip zip (js "project.json") = Some projectJSON ->
  let view := folder host zip (getContainingFolder (name projectJSON)) in
  exists tag,
    unpackage host blob
    = let* data :=
        zipToArrayBuffer host
          (fold_left (remove host) (filter is_extra (keys view)) view) in
      Ok {| type := tag; data := data |}.
Proof.
  intros Hzip Hfind view. unfold unpackage, unzipOrNull.
  rewrite Hzip, Hfind. unfold unpackageProjectFolder. fold view.
  eexists. unfold scan_assets. rewrite fold_scan_innerZip. reflexivity.
Qed.

Lemma unpackage_removes_extras_witness :
  exists tag,
    unpackage exampleHost
      (example_archive [example_entry "project.json" (js "{}");
                        example_entry "42.svg" [1; 2];
                        example_entry "readme.txt" [3]])
    = let* data :=
        zipToArrayBuffer exampleHost
          {| root := [];
             files := [{| name := js "project.json"; dir := false;
                          date := 0; content := Stored 0 2 (js "{}") |};
                       {| name := js "42.svg"; dir := false;
                          date := 0; content := Stored 0 2 [1; 2] |}] |} in
      Ok {| type := tag; data := data |}.
Proof.
  destruct (unpackage_removes_extras exampleHost
              (example_archive [example_entry "project.json" (js "{}");
                                example_entry "42.svg" [1; 2];
                                example_entry "readme.txt" [3]])
              _ _ eq_refl eq_refl) as [tag Hrun].
  exists tag. rewrite Hrun. reflexivity.
Defined.

(** X23: when the dispatcher finds project.json in a zip archive, the tag
    of what it returns is decided by the full names of the entries of the
    archive (the keys of [innerZip.files]): it is sb2 if and only if at
    least one of them has the sb2 shape and none has the sb3 shape, and sb3
    in every other case (no name of either shape, or both shapes
    present). *)
Theorem unpackage_tag (host : Host) (blob : bytes) (zip : JSZip)
  (projectJSON : ZipObject) :
  loadAsync host blob = Some zip ->
  findFileInZip zip (js "project.json") = Some projectJSON ->
  let names :=
    keys (folder host zip (getContainingFolder (name projectJSON))) in
  let sb2_names := count sb2_shape names in
  let sb3_names := count sb3_shape names in
  exists tag rebuilt,
    unpackage host blob
    = (let* data := zipToArrayBuffer host rebuilt in
       Ok {| type := tag; data := data |})
    /\ (tag = sb2 <-> 1 <= sb2_names /\ sb3_names = 0)
    /\ (tag = sb3 <-> ~ (1 <= sb2_names /\ sb3_names = 0)).
Proof.
  intros Hzip Hfind names sb2_names sb3_names.
  unfold unpackage, unzipOrNull. rewrite Hzip, Hfind.
  unfold unpackageProjectFolder. eexists. eexists. split; [reflexivity|].
  rewrite tag_by_shapes. fold names. fold sb2_names sb3_names.
  destruct (Z.leb_spec 1 sb2_names) as [H2|H2];
    destruct (Z.eqb_spec sb3_names 0) as [H3|H3]; cbn [andb];
    split; split; intros H; try discriminate; try reflexivity;
    try (split; assumption); try lia; try tauto;
    try (exfalso; apply H; split; assumption).
Qed.

Lemma unpackage_tag_witness :
  exists tag rebuilt,
    unpackage exampleHost
      (example_archive [example_entry "project.json" (js "{}");
                        example_entry "42.svg" [1; 2];
                        example_entry "readme.txt" [3]])
    = (let* data := zipToArrayBuffer exampleHost rebuilt in
       Ok {| type := tag; data := data |})
    /\ tag = sb2.
Proof.
  destruct (unpackage_tag exampleHost
              (example_archive [example_entry "project.json" (js "{}");
                                example_entry "42.svg" [1; 2];
                                example_entry "readme.txt" [3]])
              _ _ eq_refl eq_refl) as [tag [rebuilt [Hrun [Hsb2 _]]]].
  exists tag, rebuilt. split; [exact Hrun|].
  apply Hsb2. split; [vm_compute; discriminate|reflexivity].
Defined.

(** ** [matchAll] (lines 37-44) *)

Lemma exec_from_end (r : regex) (s : jsstring) (start : nat)
  (m : rmatch_result) :
  exec_from r start s = Some m ->
  (endIndex m <= start + List.length s)%nat.
Proof.
  revert start. induction s as [|c s IH]; intros start; cbn [exec_from].
  - destruct (rmatch r _) as [|st' l] eqn:E; [discriminate|].
    intros H. injection H as <-. cbn [endIndex].
    destruct (rmatch_forward r _ st' ltac:(rewrite E; left; reflexivity))
      as [k [Hk [Hp _]]].
    cbn [pos rest List.length] in *. lia.
  - destruct (rmatch r _) as [|st' l] eqn:E.
    + intros H. apply IH in H. cbn [List.length]. lia.
    + intros H. injection H as <-. cbn [endIndex].
      destruct (rmatch_forward r _ st' ltac:(rewrite E; left; reflexivity))
        as [k [Hk [Hp _]]].
      cbn [pos rest] in *. lia.
Qed.

Lemma matchAll_from_order (r : regex) (text : jsstring) :
  (forall st st', In st' (rmatch r st) -> (pos st < pos st')%nat) ->
  forall fuel lastIndex,
    in_document_order (List.length text) lastIndex
      (matchAll_from fuel r lastIndex text).
Proof.
  intros Hr. induction fuel as [|fuel IH]; intros lastIndex;
    cbn [matchAll_from in_document_order]; [exact I|].
  destruct (exec_from r lastIndex (skipn lastIndex text)) as [m|] eqn:E;
    cbn [in_document_order]; [|exact I].
  pose proof (exec_from_bounds r Hr _ _ _ E) as Hb.
  pose proof (exec_from_end r _ _ _ E) as He.
  rewrite length_skipn in He.
  split; [exact Hb|]. split; [|apply IH].
  destruct (Nat.le_gt_cases lastIndex (List.length text)) as [Hle|Hgt]; [lia|].
  rewrite skipn_all2 in E by lia. cbn [exec_from] in E.
  rewrite (rmatch_at_end r Hr) in E. discriminate.
Qed.

Lemma re_chunks_consuming (st st' : mstate) :
  In st' (rmatch re_chunks st) -> (pos st < pos st')%nat.
Proof.
  revert st st'. unfold re_chunks. apply rmatch_Seq_consuming.
  change (lit_chars (js "<script data=" ++ dquote))
    with (Seq (one (is_char 60)) (lit_chars (js "script data=" ++ dquote))).
  intros st st'. apply rmatch_literal.
Qed.

Lemma re_p4_project_consuming (st st' : mstate) :
  In st' (rmatch re_p4_project st) -> (pos st < pos st')%nat.
Proof.
  revert st st'. unfold re_p4_project. apply rmatch_Seq_consuming.
  change (lit_chars (js "<script type=" ++ dquote ++ js "p4-project" ++ dquote
                       ++ js ">"))
    with (Seq (one (is_char 60))
            (lit_chars (js "script type=" ++ dquote ++ js "p4-project" ++ dquote
                          ++ js ">"))).
  intros st st'. apply rmatch_literal.
Qed.

(** X17: the script tags that [matchAll] collects, for either of the two
    patterns it is called with, come in the order of the document: each
    match lies within the text, is not empty, and starts at or after the end
    of the one before. *)
Theorem matchAll_in_document_order (text : jsstring) :
  in_document_order (List.length text) 0 (matchAll text re_chunks)
  /\ in_document_order (List.length text) 0 (matchAll text re_p4_project).
Proof.
  split; apply matchAll_from_order.
  - apply re_chunks_consuming.
  - apply re_p4_project_consuming.
Qed.

(** ** Version 3 beside version 2 (lines 96-162) *)

Lemma chunkLoop_ext (fuel : nat) (getValue : option Z -> option Z)
  (codeAt codeAt' : Z -> option Z) (length viewLength : Z) :
  forall (i j : Z) (buf : bytes),
    (forall k, i <= k -> codeAt k = codeAt' k) ->
    chunkLoop fuel getValue codeAt length viewLength i j buf
    = chunkLoop fuel getValue codeAt' length viewLength i j buf.
Proof.
  induction fuel as [|fuel IH]; intros i j buf Hext; [reflexivity|].
  rewrite !chunkLoop_S. destruct (i <? length); [|reflexivity].
  unfold group_value.
  rewrite (Hext i), (Hext (i + 1)), (Hext (i + 2)), (Hext (i + 3)),
    (Hext (i + 4)) by lia.
  destruct (setUint32 _ _ _ _); [|reflexivity]. cbn [bind].
  apply IH. intros k Hk. apply Hext. lia.
Qed.

Lemma map_shift_header (header : jsstring) :
  map (fun c => c - 49) (map (fun c => c + 49) header) = header.
Proof.
  rewrite map_map. rewrite <- (map_id header) at 2.
  apply map_ext. intros c. lia.
Qed.

(** X18: version 3 is version 2 with another header.  On a string of ASCII
    characters, [decode_3] on a header whose characters are the decimal
    digits of a length, each moved up by 49, returns what [decode_2] returns
    on the same payload under the header in plain digits. *)
Theorem decode_3_as_decode_2 (host : Host) (header payload : jsstring) :
  header <> [] ->
  forallb is_digit header = true ->
  forallb (fun c => (0 <=? c) && (c <? 128)) payload = true ->
  decode_3 host (map (fun c => c + 49) header ++ js "," ++ payload)
  = decode_2 host (header ++ js "," ++ payload).
Proof.
  intros Hne Hdig Hascii.
  assert (H3 : declares v3 (decimal header) (map (fun c => c + 49) header)).
  { cbn [declares]. rewrite map_shift_header.
    split; [destruct header; [contradiction|discriminate]|].
    split; [exact Hdig|reflexivity]. }
  assert (H2 : declares v2 (decimal header) header).
  { cbn [declares]. split; [exact Hne|]. split; [exact Hdig|reflexivity]. }
  destruct (declares_header v3 _ _ payload H3) as [Hi3 [_ [_ Hu3]]];
    [discriminate|].
  destruct (declares_header v2 _ _ payload H2) as [Hi2 [Hs2 [_ Hu2]]];
    [discriminate|].
  assert (Hlen : zlength (map (fun c => c + 49) header) = zlength header)
    by (unfold zlength; rewrite length_map; reflexivity).
  unfold decode_3, decode_2. rewrite Hu3, Hi3, Hi2, Hs2, Hu2, Hlen.
  cbn [number bind ToIndex toMultipleOfFour_number].
  rewrite (ascii_string header payload (proj1 (is_digit_ascii _ Hdig)) Hascii).
  replace (List.length (map (fun c => c + 49) header ++ js "," ++ payload))
    with (List.length (header ++ js "," ++ payload))
    by (rewrite !length_app, length_map; reflexivity).
  replace (zlength (map (fun c => c + 49) header ++ js "," ++ payload))
    with (zlength (header ++ js "," ++ payload))
    by (rewrite !zlength_app, Hlen; reflexivity).
  destruct (ArrayBuffer _ _) as [buf|]; [|reflexivity]. cbn [bind].
  change decode_3_getValue with decode_2_getValue.
  rewrite (chunkLoop_ext _ _
             (charCodeAt (map (fun c => c + 49) header ++ js "," ++ payload))
             (byteAt (header ++ js "," ++ payload))); [reflexivity|].
  intros k Hk. pose proof (zlength_nonneg header).
  set (t := Z.to_nat (k - zlength header - 1)).
  transitivity (nth_error payload t).
  - replace k with (zlength (map (fun c => c + 49) header) + 1 + Z.of_nat t)
      by lia.
    apply charCodeAt_payload.
  - symmetry. replace k with (zlength header + 1 + Z.of_nat t) by lia.
    apply charCodeAt_payload.
Qed.

Lemma decode_3_as_decode_2_witness :
  decode_3 exampleHost (js "f,[c*rLD+***") = Ok (js "Hello").
Proof.
  change (js "f,[c*rLD+***")
    with (map (fun c => c + 49) (js "5") ++ js "," ++ js "[c*rLD+***").
  rewrite (decode_3_as_decode_2 exampleHost (js "5") (js "[c*rLD+***"));
    [reflexivity|discriminate|reflexivity|reflexivity].
Defined.

(** ** What the pattern of line 338 captures *)

Lemma rmatch_no_group (r : regex) (st st' : mstate) :
  no_group r = true -> In st' (rmatch r st) -> caps st' = caps st.
Proof.
  revert st st'. induction r as [min max cs|r1 IH1 r2 IH2|n r IH| | | ];
    intros st st' Hng Hin; cbn [rmatch no_group] in *.
  - destruct (min <=? _)%nat; [|contradiction].
    apply in_map_iff in Hin. destruct Hin as [k [<- _]]. reflexivity.
  - apply andb_true_iff in Hng. destruct Hng as [H1 H2].
    apply in_flat_map in Hin. destruct Hin as [mid [Hmid Hst']].
    rewrite (IH2 _ _ H2 Hst'). apply (IH1 _ _ H1 Hmid).
  - discriminate.
  - destruct (pos st =? 0)%nat; [|contradiction].
    destruct Hin as [<-|[]]. reflexivity.
  - destruct (rest st); [|contradiction]. destruct Hin as [<-|[]]. reflexivity.
  - destruct Hin as [<-|[]]. reflexivity.
Qed.

Lemma no_group_lit_chars (s : jsstring) : no_group (lit_chars s) = true.
Proof. induction s as [|c s IH]; [reflexivity|exact IH]. Qed.

(** A group around a class repeated at least once captures a non-empty run
    of the class. *)
Lemma rmatch_group_plus (n : nat) (cs : charset) (st st' : mstate) :
  In st' (rmatch (Group n (plus cs)) st) ->
  exists g, caps st' = (n, g) :: caps st
            /\ g <> [] /\ forallb cs g = true.
Proof.
  cbn [rmatch plus]. intros Hin. apply in_map_iff in Hin.
  destruct Hin as [st'' [<- Hin]].
  destruct (Nat.leb_spec 1 (run_length cs (rest st))) as [Hle|]; [|contradiction].
  apply in_map_iff in Hin. destruct Hin as [k [<- Hk]].
  apply in_counts_down in Hk.
  exists (firstn k (rest st)). cbn [capture advance pos caps].
  replace (pos st + k - pos st)%nat with k by lia.
  split; [reflexivity|].
  pose proof (run_length_ge cs k (rest st)) as Hge.
  replace (k <=? run_length cs (rest st))%nat with true in Hge
    by (symmetry; apply Nat.leb_le; lia).
  symmetry in Hge. apply andb_true_iff in Hge. destruct Hge as [Hlen Hall].
  split; [|exact Hall].
  apply Nat.leb_le in Hlen. destruct (rest st); [simpl in Hlen; lia|].
  destruct k; [lia|discriminate].
Qed.

Lemma rmatch_chunks (st st' : mstate) :
  In st' (rmatch re_chunks st) ->
  exists fragment len,
    caps st' = (2%nat, len) :: (1%nat, fragment) :: caps st
    /\ fragment <> [] /\ ~ In 34 fragment
    /\ len <> [] /\ forallb is_digit len = true.
Proof.
  unfold re_chunks. cbn [rmatch]. intros Hin.
  apply in_flat_map in Hin. destruct Hin as [s1 [H1 Hin]].
  apply in_flat_map in Hin. destruct Hin as [s2 [H2 Hin]].
  apply in_flat_map in Hin. destruct Hin as [s3 [H3 Hin]].
  apply in_flat_map in Hin. destruct Hin as [s4 [H4 H5]].
  apply rmatch_no_group in H1; [|apply no_group_lit_chars].
  apply (rmatch_group_plus 1) in H2. destruct H2 as [g1 [Hc2 [Hn1 Hq]]].
  apply rmatch_no_group in H3; [|apply no_group_lit_chars].
  apply (rmatch_group_plus 2) in H4. destruct H4 as [g2 [Hc4 [Hn2 Hd]]].
  apply rmatch_no_group in H5; [|apply no_group_lit_chars].
  exists g1, g2. rewrite H5, Hc4, H3, Hc2, H1.
  split; [reflexivity|]. split; [exact Hn1|]. split; [|split; assumption].
  intros Hquote. rewrite forallb_forall in Hq. apply Hq in Hquote.
  discriminate.
Qed.

Lemma exec_from_chunks (s : jsstring) (start : nat) (m : rmatch_result) :
  exec_from re_chunks start s = Some m -> chunk_groups (groups m).
Proof.
  revert start. induction s as [|c s IH]; intros start; cbn [exec_from];
    destruct (rmatch re_chunks _) as [|st' l] eqn:E.
  1: discriminate.
  2: apply IH.
  all: intros H; injection H as <-; cbn [groups];
    destruct (rmatch_chunks _ st' ltac:(rewrite E; left; reflexivity))
      as [f [len [Hc H]]];
    exists f, len; rewrite Hc; tauto.
Qed.

Lemma matchAll_from_chunks (text : jsstring) (fuel lastIndex : nat) :
  Forall (fun m => chunk_groups (groups m))
    (matchAll_from fuel re_chunks lastIndex text).
Proof.
  revert lastIndex. induction fuel as [|fuel IH]; intros lastIndex;
    cbn [matchAll_from]; [constructor|].
  destruct (exec_from re_chunks lastIndex (skipn lastIndex text)) as [m|] eqn:E;
    constructor; [apply (exec_from_chunks _ _ _ E)|apply IH].
Qed.

Lemma decimal_nonneg (s : jsstring) :
  forallb is_digit s = true -> 0 <= decimal s.
Proof.
  unfold decimal. assert (H : forall acc, 0 <= acc ->
    forallb is_digit s = true ->
    0 <= fold_left (fun a c => a * 10 + (c - 48)) s acc).
  { induction s as [|c s IH]; intros acc Hacc Hd; [exact Hacc|].
    cbn [forallb] in Hd. apply andb_true_iff in Hd. destruct Hd as [Hc Hs].
    unfold is_digit in Hc. apply andb_true_iff in Hc. destruct Hc as [H0 _].
    apply Z.leb_le in H0. cbn [fold_left]. apply IH; [lia|exact Hs]. }
  apply H. lia.
Qed.

(** X19: in the progressive-chunk path every fragment the pattern of line
    338 captures is non-empty and free of double quotes, and every chunk
    length is a run of decimal digits, so that the total of line 341 is
    always a number, zero or more (never [NaN]). *)
Theorem matchAll_chunks_lengths (text : jsstring) :
  Forall (fun m => chunk_groups (groups m)) (matchAll text re_chunks)
  /\ exists length, sum_lengths (matchAll text re_chunks) = Ok length
                    /\ 0 <= length.
Proof.
  pose proof (matchAll_from_chunks text (S (List.length text)) 0) as Hall.
  fold (matchAll text re_chunks) in Hall. split; [exact Hall|].
  induction Hall as [|m ms Hm _ IH]; [exists 0; split; [reflexivity|lia]|].
  destruct IH as [n [Hsum Hn]].
  destruct Hm as [f [len [Hg [_ [_ [Hne Hd]]]]]].
  cbn [sum_lengths]. rewrite Hg. cbn [group Nat.eqb].
  rewrite (unary_plus_decimal len Hne Hd). cbn [number bind ToIndex toMultipleOfFour_number].
  rewrite Hsum. cbn [bind]. eexists. split; [reflexivity|].
  pose proof (decimal_nonneg len Hd). lia.
Qed.

(** ** Documents with script tags, end to end *)

Lemma rmatch_one_cons (c x : Z) (p : nat) (t : jsstring)
  (cs : list (nat * jsstring)) :
  rmatch (one (is_char c)) {| pos := p; rest := x :: t; caps := cs |}
  = if x =? c then [{| pos := S p; rest := t; caps := cs |}] else [].
Proof.
  change (one ?a) with (exactly 1 a). rewrite rmatch_exactly.
  cbn [rest run_length]. unfold is_char at 1.
  destruct (x =? c); [|reflexivity].
  cbn [Nat.leb]. unfold advance. cbn [pos rest caps skipn].
  do 2 f_equal. lia.
Qed.

Lemma rmatch_one_nil (c : Z) (p : nat) (cs : list (nat * jsstring)) :
  rmatch (one (is_char c)) {| pos := p; rest := []; caps := cs |} = [].
Proof. reflexivity. Qed.

(** A literal matches where the text goes on with it, in one way. *)
Lemma rmatch_lit_chars_prefix (l t : jsstring) (p : nat)
  (cs : list (nat * jsstring)) :
  rmatch (lit_chars l) {| pos := p; rest := l ++ t; caps := cs |}
  = [{| pos := p + List.length l; rest := t; caps := cs |}].
Proof.
  revert p. induction l as [|c l IH]; intros p.
  - cbn [lit_chars rmatch app List.length]. do 2 f_equal. lia.
  - cbn [lit_chars app List.length]. cbn [rmatch].
    rewrite rmatch_one_cons, Z.eqb_refl. cbn [flat_map].
    rewrite app_nil_r, IH. do 2 f_equal. lia.
Qed.

(** A literal does not match where the text departs from it. *)
Lemma rmatch_lit_chars_mismatch (l l' t : jsstring) (c x : Z) (p : nat)
  (cs : list (nat * jsstring)) :
  x <> c ->
  rmatch (lit_chars (l ++ c :: l'))
    {| pos := p; rest := l ++ x :: t; caps := cs |} = [].
Proof.
  intros Hx. revert p. induction l as [|a l IH]; intros p.
  - cbn [lit_chars app]. cbn [rmatch]. rewrite rmatch_one_cons.
    destruct (Z.eqb_spec x c); [contradiction|reflexivity].
  - cbn [lit_chars app]. cbn [rmatch].
    rewrite rmatch_one_cons, Z.eqb_refl. cbn [flat_map].
    rewrite app_nil_r. apply IH.
Qed.

Lemma exec_from_hit (r : regex) (start : nat) (s : jsstring) (st : mstate)
  (l : list mstate) :
  rmatch r {| pos := start; rest := s; caps := [] |} = st :: l ->
  exec_from r start s
  = Some {| index := start; endIndex := pos st; groups := caps st |}.
Proof. intros H. destruct s; cbn [exec_from]; rewrite H; reflexivity. Qed.

Lemma exec_from_miss (r : regex) (start : nat) (x : Z) (s : jsstring) :
  rmatch r {| pos := start; rest := x :: s; caps := [] |} = [] ->
  exec_from r start (x :: s) = exec_from r (S start) s.
Proof. intros H. cbn [exec_from]. rewrite H. reflexivity. Qed.

(** The search for a pattern that begins with a literal character passes
    over the text that does not have the character. *)
Lemma exec_from_skip (c : Z) (l : jsstring) (r : regex) (b s : jsstring)
  (start : nat) :
  ~ In c b ->
  exec_from (Seq (lit_chars (c :: l)) r) start (b ++ s)
  = exec_from (Seq (lit_chars (c :: l)) r) (start + List.length b) s.
Proof.
  revert start. induction b as [|x b IH]; intros start Hb.
  - cbn [app List.length]. f_equal. lia.
  - cbn [app List.length]. rewrite exec_from_miss.
    + rewrite IH by (intros H; apply Hb; right; exact H). f_equal. lia.
    + cbn [rmatch lit_chars]. rewrite rmatch_one_cons.
      destruct (Z.eqb_spec x c) as [->|_]; [|reflexivity].
      exfalso. apply Hb. left. reflexivity.
Qed.

Lemma exec_from_no_literal (c : Z) (l : jsstring) (r : regex) (s : jsstring)
  (start : nat) :
  ~ In c s -> exec_from (Seq (lit_chars (c :: l)) r) start s = None.
Proof.
  intros Hs. rewrite <- (app_nil_r s), exec_from_skip by exact Hs.
  reflexivity.
Qed.

Lemma matchAll_from_stop (fuel : nat) (r : regex) (lastIndex : nat)
  (text : jsstring) :
  exec_from r lastIndex (skipn lastIndex text) = None ->
  matchAll_from fuel r lastIndex text = [].
Proof.
  intros H. destruct fuel; [reflexivity|]. cbn [matchAll_from].
  rewrite H. reflexivity.
Qed.

Lemma run_length_app_stop (cs : charset) (a t : jsstring) :
  forallb cs a = true ->
  match t with [] => True | x :: _ => cs x = false end ->
  run_length cs (a ++ t) = List.length a.
Proof.
  intros Ha Ht. induction a as [|c a IH].
  - cbn [app List.length]. destruct t as [|x t]; [reflexivity|].
    cbn [run_length]. rewrite Ht. reflexivity.
  - cbn [forallb] in Ha. apply andb_true_iff in Ha. destruct Ha as [Hc Ha].
    cbn [app run_length List.length]. rewrite Hc, (IH Ha). reflexivity.
Qed.

Lemma counts_down_head (hi lo : nat) :
  (lo <= hi)%nat -> exists l, counts_down hi lo = hi :: l.
Proof.
  intros H. unfold counts_down.
  replace (S hi - lo)%nat with (S (hi - lo)) by lia.
  rewrite seq_S, rev_app_distr. cbn [rev app].
  eexists. f_equal. lia.
Qed.

(** A group around a class repeated at least once first takes the whole run
    of the class. *)
Lemma rmatch_group_plus_first (n : nat) (cs : charset) (g t : jsstring)
  (p : nat) (c : list (nat * jsstring)) :
  g <> [] -> forallb cs g = true ->
  match t with [] => True | x :: _ => cs x = false end ->
  exists l,
    rmatch (Group n (plus cs)) {| pos := p; rest := g ++ t; caps := c |}
    = {| pos := p + List.length g; rest := t; caps := (n, g) :: c |} :: l.
Proof.
  intros Hne Hg Ht. cbn [rmatch plus rest].
  rewrite (run_length_app_stop cs g t Hg Ht).
  assert (Hlen : (1 <= List.length g)%nat)
    by (destruct g; [contradiction|cbn [List.length]; lia]).
  replace (1 <=? List.length g)%nat with true
    by (symmetry; apply Nat.leb_le; exact Hlen).
  destruct (counts_down_head _ _ Hlen) as [l ->]. cbn [map].
  eexists. f_equal. unfold capture, advance. cbn [pos rest caps].
  replace (p + List.length g - p)%nat with (List.length g) by lia.
  rewrite firstn_app, firstn_all, Nat.sub_diag, skipn_app, skipn_all,
    Nat.sub_diag.
  cbn [firstn skipn app]. rewrite app_nil_r. reflexivity.
Qed.

Lemma not_In_forallb (c : Z) (s : jsstring) :
  ~ In c s <-> forallb (none_of (is_char c)) s = true.
Proof.
  induction s as [|x s IH]; [cbn; tauto|].
  cbn [In forallb]. rewrite andb_true_iff, <- IH.
  unfold none_of, is_char.
  destruct (Z.eqb_spec x c); cbn [negb]; intuition congruence.
Qed.

Lemma rmatch_Seq (r1 r2 : regex) (st : mstate) :
  rmatch (Seq r1 r2) st = flat_map (rmatch r2) (rmatch r1 st).
Proof. reflexivity. Qed.

Lemma re_p4_project_literal :
  re_p4_project
  = Seq (lit_chars (60 :: tl p4_project_open))
      (Seq (Group 1 (plus (none_of (is_char 60)))) (lit_chars script_close)).
Proof. reflexivity. Qed.

Lemma re_chunks_literal :
  re_chunks
  = Seq (lit_chars (60 :: tl chunk_open))
      (Seq (Group 1 (plus (none_of (is_char 34))))
         (Seq (lit_chars chunk_middle)
            (Seq (Group 2 (plus digit)) (lit_chars chunk_close)))).
Proof. reflexivity. Qed.

(** The pattern of line 347 at an opening tag. *)
Lemma rmatch_p4_project_tag (f t : jsstring) (p : nat) :
  f <> [] -> ~ In 60 f ->
  exists l,
    rmatch re_p4_project
      {| pos := p; rest := p4_project_open ++ f ++ script_close ++ t;
         caps := [] |}
    = {| pos := p + List.length p4_project_open + List.length f
                + List.length script_close;
         rest := t; caps := [(1%nat, f)] |} :: l.
Proof.
  intros Hne Hf. rewrite re_p4_project_literal.
  change (60 :: tl p4_project_open) with p4_project_open.
  rewrite rmatch_Seq, rmatch_lit_chars_prefix. cbn [flat_map].
  rewrite app_nil_r, rmatch_Seq.
  destruct (rmatch_group_plus_first 1 (none_of (is_char 60)) f
              (script_close ++ t) (p + List.length p4_project_open) []
              Hne (proj1 (not_In_forallb 60 f) Hf) eq_refl) as [l ->].
  cbn [flat_map]. rewrite rmatch_lit_chars_prefix. cbn [app].
  eexists. reflexivity.
Qed.

Lemma exec_from_p4_project_tag (gap f t : jsstring) (start : nat) :
  ~ In 60 gap -> f <> [] -> ~ In 60 f ->
  exec_from re_p4_project start
    (gap ++ p4_project_open ++ f ++ script_close ++ t)
  = Some {| index := start + List.length gap;
            endIndex := start + List.length gap + List.length p4_project_open
                        + List.length f + List.length script_close;
            groups := [(1%nat, f)] |}.
Proof.
  intros Hgap Hne Hf. rewrite re_p4_project_literal.
  rewrite exec_from_skip by exact Hgap. rewrite <- re_p4_project_literal.
  destruct (rmatch_p4_project_tag f t (start + List.length gap) Hne Hf)
    as [l Hl].
  rewrite (exec_from_hit _ _ _ _ _ Hl). reflexivity.
Qed.

Lemma matchAll_from_p4_project_tags (parts : list (jsstring * jsstring)) :
  forall (pre gap : jsstring) (fuel : nat),
    ~ In 60 gap -> Forall p4_project_part parts ->
    (List.length parts < fuel)%nat ->
    map (fun m => group 1 (groups m))
      (matchAll_from fuel re_p4_project (List.length pre)
         (pre ++ gap ++ p4_project_tags parts))
    = map fst parts.
Proof.
  induction parts as [|[f a] parts IH]; intros pre gap fuel Hgap Hparts Hfuel.
  - rewrite matchAll_from_stop; [reflexivity|].
    rewrite skipn_app, skipn_all, Nat.sub_diag. cbn [skipn app].
    rewrite re_p4_project_literal. apply exec_from_no_literal.
    cbn [p4_project_tags flat_map]. rewrite app_nil_r. exact Hgap.
  - destruct fuel as [|fuel]; [lia|]. cbn [List.length] in Hfuel.
    inversion Hparts as [|? ? [Hne [Hf Ha]] Hrest]. subst.
    cbn [fst snd] in Hne, Hf, Ha.
    cbn [matchAll_from]. rewrite skipn_app, skipn_all, Nat.sub_diag.
    cbn [skipn app p4_project_tags flat_map fst snd].
    rewrite <- !app_assoc.
    rewrite (exec_from_p4_project_tag gap f _ _ Hgap Hne Hf).
    cbn [map groups group endIndex Nat.eqb]. f_equal.
    specialize (IH (pre ++ gap ++ p4_project_open ++ f ++ script_close) a fuel
                  Ha Hrest ltac:(lia)).
    rewrite !length_app in IH. rewrite <- !app_assoc in IH.
    rewrite !Nat.add_assoc in IH. exact IH.
Qed.

(** The pattern of line 338 is not in a document of the tags of line 347. *)
Lemma exec_from_chunks_p4_project_tags (parts : list (jsstring * jsstring)) :
  forall (gap : jsstring) (start : nat),
    ~ In 60 gap -> Forall p4_project_part parts ->
    exec_from re_chunks start (gap ++ p4_project_tags parts) = None.
Proof.
  induction parts as [|[f a] parts IH]; intros gap start Hgap Hparts.
  - cbn [p4_project_tags flat_map]. rewrite app_nil_r, re_chunks_literal.
    apply exec_from_no_literal. exact Hgap.
  - inversion Hparts as [|? ? [Hne [Hf Ha]] Hrest]. subst.
    cbn [fst snd] in Hne, Hf, Ha.
    cbn [p4_project_tags flat_map fst snd]. rewrite <- !app_assoc.
    rewrite re_chunks_literal, exec_from_skip by exact Hgap.
    change (p4_project_open ++ ?x) with (60 :: (tl p4_project_open ++ x)).
    rewrite exec_from_miss.
    2:{ rewrite rmatch_Seq.
        change (60 :: tl chunk_open)
          with (js "<script " ++ 100 :: (js "ata=" ++ dquote)).
        change (60 :: tl p4_project_open ++ ?x)
          with (js "<script "
                  ++ 116 :: (js "ype=" ++ dquote ++ js "p4-project" ++ dquote
                               ++ js ">") ++ x).
        rewrite rmatch_lit_chars_mismatch by lia. reflexivity. }
    rewrite (app_assoc (tl p4_project_open)), exec_from_skip.
    2:{ intros H. apply in_app_or in H. destruct H as [H|H]; [|exact (Hf H)].
        revert H. apply not_In_forallb. reflexivity. }
    change (script_close ++ ?x) with (60 :: (tl script_close ++ x)).
    rewrite exec_from_miss.
    2:{ rewrite rmatch_Seq.
        change (60 :: tl chunk_open)
          with ([60] ++ 115 :: (js "cript data=" ++ dquote)).
        change (60 :: tl script_close ++ ?x)
          with ([60] ++ 47 :: (js "script>" ++ x)).
        rewrite rmatch_lit_chars_mismatch by lia. reflexivity. }
    rewrite (app_assoc (tl script_close)).
    rewrite <- re_chunks_literal. apply IH; [|exact Hrest].
    intros H. apply in_app_or in H. destruct H as [H|H]; [|exact (Ha H)].
    revert H. apply not_In_forallb. reflexivity.
Qed.

(** X20: a file that is not an archive and reads as a document of
    [<script type=Qp4-projectQ>] tags (Q the double quote), with no other
    [<] in it, is unpackaged by joining the fragments of the tags in the
    order of the document, decoding the result as base85 with a length
    header and classifying the bytes (lines 347-353). *)
Theorem unpackage_p4_project_tags (host : Host) (blob : bytes)
  (before : jsstring) (parts : list (jsstring * jsstring)) :
  loadAsync host blob = None ->
  readAsText host blob = Some (before ++ p4_project_tags parts) ->
  ~ In 60 before -> parts <> [] -> Forall p4_project_part parts ->
  unpackage host blob
  = let* decoded := decodeBase85WithLengthHeader host (join (map fst parts)) in
    unpackageBinaryBlob host decoded.
Proof.
  intros Hzip Htext Hbefore Hne Hparts.
  unfold unpackage, unzipOrNull. rewrite Hzip, Htext. unfold unpackageText.
  rewrite (matchAll_none re_chunks)
    by (unfold regex_test, regex_match;
        rewrite exec_from_chunks_p4_project_tags by assumption; reflexivity).
  pose proof (matchAll_from_p4_project_tags parts [] before
                (S (List.length (before ++ p4_project_tags parts))
                 + List.length parts) Hbefore Hparts ltac:(lia)) as Hall.
  rewrite matchAll_p4_project_fuel in Hall. cbn [app List.length] in Hall.
  destruct (matchAll _ re_p4_project) as [|m ms].
  - destruct parts; [contradiction|discriminate].
  - rewrite Hall. reflexivity.
Qed.

Lemma unpackage_p4_project_tags_witness :
  unpackage exampleHost
    (js "html " ++ p4_project_tags [(js "5,Zb)", js " "); (js "qKC*)))", [])])
  = Ok {| type := sb; data := js "Hello" |}.
Proof.
  rewrite (unpackage_p4_project_tags exampleHost _ (js "html ")
             ((js "5,Zb)", js " ") :: (js "qKC*)))", []) :: nil)).
  - reflexivity.
  - reflexivity.
  - reflexivity.
  - apply not_In_forallb. reflexivity.
  - discriminate.
  - repeat constructor; cbn [fst snd]; try discriminate;
      apply not_In_forallb; reflexivity.
Defined.

(** The pattern of line 338 at an opening tag. *)
Lemma rmatch_chunk_tag (f d t : jsstring) (p : nat) :
  f <> [] -> ~ In 34 f -> d <> [] -> forallb is_digit d = true ->
  exists l,
    rmatch re_chunks
      {| pos := p;
         rest := chunk_open ++ f ++ chunk_middle ++ d ++ chunk_close ++ t;
         caps := [] |}
    = {| pos := p + List.length chunk_open + List.length f
                + List.length chunk_middle + List.length d
                + List.length chunk_close;
         rest := t; caps := [(2%nat, d); (1%nat, f)] |} :: l.
Proof.
  intros Hf Hquote Hd Hdigits. rewrite re_chunks_literal.
  change (60 :: tl chunk_open) with chunk_open.
  rewrite rmatch_Seq, rmatch_lit_chars_prefix. cbn [flat_map].
  rewrite app_nil_r, rmatch_Seq.
  destruct (rmatch_group_plus_first 1 (none_of (is_char 34)) f
              (chunk_middle ++ d ++ chunk_close ++ t)
              (p + List.length chunk_open) []
              Hf (proj1 (not_In_forallb 34 f) Hquote) eq_refl) as [l1 ->].
  cbn [flat_map]. rewrite rmatch_Seq, rmatch_lit_chars_prefix.
  cbn [flat_map]. rewrite app_nil_r, rmatch_Seq.
  destruct (rmatch_group_plus_first 2 digit d (chunk_close ++ t)
              (p + List.length chunk_open + List.length f
               + List.length chunk_middle) [(1%nat, f)]
              Hd Hdigits eq_refl) as [l2 ->].
  cbn [flat_map]. rewrite rmatch_lit_chars_prefix. cbn [app].
  eexists. reflexivity.
Qed.

Lemma exec_from_chunk_tag (gap f d t : jsstring) (start : nat) :
  ~ In 60 gap ->
  f <> [] -> ~ In 34 f -> d <> [] -> forallb is_digit d = true ->
  exec_from re_chunks start
    (gap ++ chunk_open ++ f ++ chunk_middle ++ d ++ chunk_close ++ t)
  = Some {| index := start + List.length gap;
            endIndex := start + List.length gap + List.length chunk_open
                        + List.length f + List.length chunk_middle
                        + List.length d + List.length chunk_close;
            groups := [(2%nat, d); (1%nat, f)] |}.
Proof.
  intros Hgap Hf Hquote Hd Hdigits. rewrite re_chunks_literal.
  rewrite exec_from_skip by exact Hgap. rewrite <- re_chunks_literal.
  destruct (rmatch_chunk_tag f d t (start + List.length gap)
              Hf Hquote Hd Hdigits) as [l Hl].
  rewrite (exec_from_hit _ _ _ _ _ Hl). reflexivity.
Qed.

Lemma matchAll_from_chunk_tags (parts : list chunk) :
  forall (pre gap : jsstring) (fuel : nat),
    ~ In 60 gap -> Forall chunk_part parts ->
    (List.length parts < fuel)%nat ->
    map groups
      (matchAll_from fuel re_chunks (List.length pre)
         (pre ++ gap ++ chunk_tags parts))
    = map (fun p => [(2%nat, declared p); (1%nat, fragment p)]) parts.
Proof.
  induction parts as [|[f d a] parts IH]; intros pre gap fuel Hgap Hparts Hfuel.
  - rewrite matchAll_from_stop; [reflexivity|].
    rewrite skipn_app, skipn_all, Nat.sub_diag. cbn [skipn app].
    rewrite re_chunks_literal. apply exec_from_no_literal.
    cbn [chunk_tags flat_map]. rewrite app_nil_r. exact Hgap.
  - destruct fuel as [|fuel]; [lia|]. cbn [List.length] in Hfuel.
    inversion Hparts as [|? ? [Hf [Hquote [Hd [Hdigits Ha]]]] Hrest]. subst.
    cbn [fragment declared trailing] in Hf, Hquote, Hd, Hdigits, Ha.
    cbn [matchAll_from]. rewrite skipn_app, skipn_all, Nat.sub_diag.
    cbn [skipn app chunk_tags flat_map fragment declared trailing].
    rewrite <- !app_assoc.
    rewrite (exec_from_chunk_tag gap f d _ _ Hgap Hf Hquote Hd Hdigits).
    cbn [map groups endIndex fragment declared]. f_equal.
    specialize (IH (pre ++ gap ++ chunk_open ++ f ++ chunk_middle ++ d
                      ++ chunk_close) a fuel Ha Hrest ltac:(lia)).
    rewrite !length_app in IH. rewrite <- !app_assoc in IH.
    rewrite !Nat.add_assoc in IH. exact IH.
Qed.

Lemma sum_lengths_chunks (parts : list chunk) :
  forall ms,
    map groups ms
    = map (fun p => [(2%nat, declared p); (1%nat, fragment p)]) parts ->
    Forall chunk_part parts ->
    sum_lengths ms = Ok (total_length parts)
    /\ map (fun i => group 1 (groups i)) ms = map fragment parts.
Proof.
  induction parts as [|p parts IH]; intros ms Hms Hparts.
  - destruct ms; [split; reflexivity|discriminate].
  - destruct ms as [|m ms]; [discriminate|]. cbn [map] in Hms.
    injection Hms as Hm Hms.
    inversion Hparts as [|? ? [_ [_ [Hd [Hdigits _]]]] Hrest]. subst.
    destruct (IH ms Hms Hrest) as [Hsum Hfragments].
    cbn [sum_lengths map total_length fold_right]. rewrite Hm.
    cbn [group Nat.eqb]. rewrite (unary_plus_decimal _ Hd Hdigits).
    cbn [number bind ToIndex toMultipleOfFour_number]. rewrite Hsum, Hfragments. split; reflexivity.
Qed.

(** X21: a file that is not an archive and reads as a document of
    [<script data=Q...Q>decodeChunk(n)</script>] tags (Q the double quote),
    with no other [<] in it, is unpackaged by joining the fragments in the
    order of the document, adding up the lengths, decoding the result as
    base85 without a length header and classifying the bytes (lines
    338-345). *)
Theorem unpackage_chunk_tags (host : Host) (blob : bytes)
  (before : jsstring) (parts : list chunk) :
  loadAsync host blob = None ->
  readAsText host blob = Some (before ++ chunk_tags parts) ->
  ~ In 60 before -> parts <> [] -> Forall chunk_part parts ->
  unpackage host blob
  = let* decoded :=
      decodeBase85WithoutLengthHeader host (join (map fragment parts))
        (total_length parts) in
    unpackageBinaryBlob host decoded.
Proof.
  intros Hzip Htext Hbefore Hne Hparts.
  unfold unpackage, unzipOrNull. rewrite Hzip, Htext. unfold unpackageText.
  pose proof (matchAll_from_chunk_tags parts [] before
                (S (List.length (before ++ chunk_tags parts))
                 + List.length parts) Hbefore Hparts ltac:(lia)) as Hall.
  rewrite matchAll_chunks_fuel in Hall. cbn [app List.length] in Hall.
  destruct (sum_lengths_chunks parts _ Hall Hparts) as [Hsum Hfragments].
  destruct (matchAll _ re_chunks) as [|m ms].
  - destruct parts; [contradiction|discriminate].
  - rewrite Hsum, Hfragments. reflexivity.
Qed.

Lemma unpackage_chunk_tags_witness :
  unpackage exampleHost
    (js "html "
       ++ chunk_tags [{| fragment := js "[c*rL"; declared := js "2";
                         trailing := js " " |};
                      {| fragment := js "D+***"; declared := js "3";
                         trailing := [] |}])
  = Ok {| type := sb; data := js "Hello" |}.
Proof.
  rewrite (unpackage_chunk_tags exampleHost _ (js "html ")
             ({| fragment := js "[c*rL"; declared := js "2";
                 trailing := js " " |}
              :: {| fragment := js "D+***"; declared := js "3";
                    trailing := [] |} :: nil)).
  - reflexivity.
  - reflexivity.
  - reflexivity.
  - apply not_In_forallb. reflexivity.
  - discriminate.
  - repeat constructor; cbn [fragment declared trailing]; try discriminate;
      apply not_In_forallb; reflexivity.
Defined.

(** ** A project inside a folder of the archive (lines 284-316) *)

Lemma skipn_nth (n : nat) (s : jsstring) :
  (n < List.length s)%nat -> skipn n s = nth n s 0 :: skipn (S n) s.
Proof.
  revert n. induction s as [|c s IH]; intros n Hn;
    [cbn [List.length] in Hn; lia|].
  destruct n as [|n]; [reflexivity|]. cbn [List.length] in Hn.
  cbn [skipn nth]. rewrite IH by lia. reflexivity.
Qed.

(** The characters of a name of the shape [stem.ext]. *)
Lemma has_shape_chars (stem ext : charset) (n : nat) (s : jsstring) (c : Z) :
  has_shape stem ext n s = true -> In c s ->
  stem c = true \/ c = 46 \/ ext c = true.
Proof.
  unfold has_shape. intros H Hin.
  apply andb_true_iff in H. destruct H as [H Hext].
  apply andb_true_iff in H. destruct H as [H Hdot].
  apply andb_true_iff in H. destruct H as [Hlen Hstem].
  apply Nat.eqb_eq in Hlen. apply Z.eqb_eq in Hdot.
  rewrite <- (firstn_skipn n s), (skipn_nth n s) in Hin by lia.
  apply in_app_or in Hin. destruct Hin as [Hin|[Hin|Hin]].
  - left. rewrite forallb_forall in Hstem. apply Hstem. exact Hin.
  - right. left. congruence.
  - right. right. rewrite forallb_forall in Hext. apply Hext. exact Hin.
Qed.

(** A name with a slash (code 47) is neither project.json nor of the shape
    of an asset. *)
Lemma is_extra_slash (path : jsstring) : In 47 path -> is_extra path = true.
Proof.
  intros Hin. unfold is_extra.
  destruct (jseqb path (js "project.json")) eqn:Ejson.
  { apply jseqb_eq in Ejson. subst. exfalso. revert Hin.
    apply not_In_forallb. reflexivity. }
  destruct (sb3_shape path) eqn:E3.
  { destruct (has_shape_chars _ _ _ _ 47 E3 Hin) as [H|[H|H]];
      discriminate. }
  destruct (sb2_shape path) eqn:E2; [|reflexivity].
  unfold sb2_shape in E2. apply andb_true_iff in E2. destruct E2 as [_ E2].
  destruct (has_shape_chars _ _ _ _ 47 E2 Hin) as [H|[H|H]]; discriminate.
Qed.

Lemma In_existsb (c : Z) (s : jsstring) :
  existsb (Z.eqb c) s = true -> In c s.
Proof.
  intros H. apply existsb_exists in H. destruct H as [x [Hin Hx]].
  apply Z.eqb_eq in Hx. subst. exact Hin.
Qed.

Lemma count_none (p : jsstring -> bool) (l : list jsstring) :
  (forall x, In x l -> p x = false) -> count p l = 0.
Proof.
  intros H. induction l as [|x l IH]; [reflexivity|].
  rewrite count_cons, (H x) by (left; reflexivity).
  rewrite IH; [reflexivity|]. intros y Hy. apply H. right. exact Hy.
Qed.

Lemma filter_all {A : Type} (p : A -> bool) (l : list A) :
  (forall x, In x l -> p x = true) -> filter p l = l.
Proof.
  intros H. induction l as [|x l IH]; [reflexivity|].
  cbn [filter]. rewrite (H x) by (left; reflexivity).
  rewrite IH; [reflexivity|]. intros y Hy. apply H. right. exact Hy.
Qed.

(** X22: the names the loop of lines 292-304 tests are the full names of
    the entries, so that when project.json is found in an archive where
    every name has a slash (the project lies in a folder), no name counts
    as project.json or as an asset: [remove] is called on every name, the
    archive that is left is generated, and the tag is sb3 whatever the
    assets are. *)
Theorem unpackage_project_in_folder (host : Host) (blob : bytes) (zip : JSZip)
  (projectJSON : ZipObject) :
  loadAsync host blob = Some zip ->
  findFileInZip zip (js "project.json") = Some projectJSON ->
  let view := folder host zip (getContainingFolder (name projectJSON)) in
  Forall (fun path => In 47 path) (keys view) ->
  unpackage host blob
  = let* data :=
      zipToArrayBuffer host (fold_left (remove host) (keys view) view) in
    Ok {| type := sb3; data := data |}.
Proof.
  intros Hzip Hfind view Hslash. rewrite Forall_forall in Hslash.
  assert (Hextra : forall path, In path (keys view) -> is_extra path = true)
    by (intros path Hin; apply is_extra_slash, Hslash, Hin).
  unfold unpackage, unzipOrNull. rewrite Hzip, Hfind.
  unfold unpackageProjectFolder. fold view. rewrite tag_by_shapes.
  rewrite (count_none sb2_shape).
  2:{ intros path Hin. apply Hextra in Hin. unfold is_extra in Hin.
      apply andb_true_iff in Hin. destruct Hin as [_ Hin].
      apply negb_true_iff in Hin. exact Hin. }
  cbn [Z.leb andb]. unfold scan_assets.
  rewrite fold_scan_innerZip, (filter_all is_extra _ Hextra). reflexivity.
Qed.

Lemma unpackage_project_in_folder_witness :
  unpackage exampleHost example_project_in_folder
  = let* data :=
      zipToArrayBuffer exampleHost
        {| root := js "foo/";
           files := [{| name := js "foo/project.json"; dir := false;
                        date := 0; content := Stored 0 2 (js "{}") |};
                     {| name := js "foo/42.svg"; dir := false;
                        date := 0; content := Stored 0 2 [1; 2] |};
                     {| name := js "foo/"; dir := true;
                        date := 0; content := Given [] |}] |} in
    Ok {| type := sb3; data := data |}.
Proof.
  rewrite (unpackage_project_in_folder exampleHost _
             {| root := [];
                files := [{| name := js "foo/project.json"; dir := false;
                             date := 0; content := Stored 0 2 (js "{}") |};
                          {| name := js "foo/42.svg"; dir := false;
                             date := 0; content := Stored 0 2 [1; 2] |}] |}
             {| name := js "foo/project.json"; dir := false;
                date := 0; content := Stored 0 2 (js "{}") |}).
  - reflexivity.
  - reflexivity.
  - reflexivity.
  - repeat constructor; apply In_existsb; reflexivity.
Defined.
